(** * promtimer/cbstats.py: stats sources, configuration-dump parsers,
    data-source naming and time ranges

  A shallow embedding of [promtimer/cbstats.py].  Python [str] values are
  Stdlib strings whose characters are the code points 0..255; a text file
  is the list of lines that iterating over the open file yields; Python
  [int] is [Z] and Python [float] is the primitive binary64 [float].
  Exceptions and the records sent to [logging] are threaded by the small
  monad [Py]. *)

From Stdlib Require Import Bool Arith ZArith Lia List String Ascii.
From Stdlib Require Import Sorted Permutation Mergesort Orders.
From Stdlib Require Import Floats Uint63.
From Stdlib Require Import DecimalString.
Import ListNotations.

Local Open Scope string_scope.
Local Open Scope list_scope.

(** ** Python [str] methods used by the module *)

Module Str.

(** [str.isspace] on one character, for code points below 256: the
    characters that [str.strip], [str.rstrip] and the regex class [\s]
    remove or match. *)
Definition isspace (c : ascii) : bool :=
  let n := nat_of_ascii c in
  (((9 <=? n) && (n <=? 13)) || ((28 <=? n) && (n <=? 32))
   || (n =? 133) || (n =? 160))%nat.

(** [c in '0123456789']: the regex class [\d] below code point 256. *)
Definition isdigit (c : ascii) : bool :=
  let n := nat_of_ascii c in ((48 <=? n) && (n <=? 57))%nat.

Definition is_empty (s : string) : bool :=
  match s with EmptyString => true | String _ _ => false end.

(** [s.rstrip()] *)
Fixpoint rstrip (s : string) : string :=
  match s with
  | EmptyString => EmptyString
  | String c s' =>
      let r := rstrip s' in
      if isspace c && is_empty r then EmptyString else String c r
  end.

(** [s.lstrip()] *)
Fixpoint lstrip (s : string) : string :=
  match s with
  | EmptyString => EmptyString
  | String c s' => if isspace c then lstrip s' else s
  end.

(** [s.strip()] *)
Definition strip (s : string) : string := lstrip (rstrip s).

(** [s.startswith(p)] *)
Definition startswith (s p : string) : bool := String.prefix p s.

(** [s[:n]] and [s[n:]] for [0 <= n] *)
Definition take (n : nat) (s : string) : string := String.substring 0 n s.

Fixpoint drop (n : nat) (s : string) : string :=
  match n, s with
  | O, _ => s
  | S _, EmptyString => EmptyString
  | S n', String _ s' => drop n' s'
  end.

(** [s.endswith(p)] *)
Definition endswith (s p : string) : bool :=
  (String.length p <=? String.length s)%nat
  && String.eqb (drop (String.length s - String.length p) s) p.

(** [s[:-n]] for [0 < n]: everything but the last [n] characters (the
    empty string when [s] is shorter). *)
Definition drop_last (n : nat) (s : string) : string :=
  take (String.length s - n) s.

(** [s.replace(old, new)] for a non-empty [old]: the occurrences of [old]
    are found left to right and do not overlap.  [skip] counts the
    characters of a matched occurrence that are still to be passed. *)
Fixpoint replace_from (old new : string) (skip : nat) (s : string) : string :=
  match s with
  | EmptyString => EmptyString
  | String c s' =>
      match skip with
      | S k => replace_from old new k s'
      | O =>
          if String.prefix old s
          then new ++ replace_from old new (String.length old - 1) s'
          else String c (replace_from old new 0 s')
      end
  end.

Definition replace (s old new : string) : string := replace_from old new 0 s.

(** [s.split(sep)] for a one-character separator: always at least one
    piece, empty pieces are kept. *)
Fixpoint split (sep : ascii) (s : string) : list string :=
  match s with
  | EmptyString => [EmptyString]
  | String c s' =>
      if Ascii.eqb c sep then EmptyString :: split sep s'
      else match split sep s' with
           | piece :: rest => String c piece :: rest
           | [] => [String c EmptyString]
           end
  end.

End Str.

(** The double quote, and a way to write texts that hold it: [dq] turns
    every apostrophe of its argument into a double quote. *)
Definition dquote : ascii := "034"%char.
Definition newline : ascii := "010"%char.

Fixpoint dq (s : string) : string :=
  match s with
  | EmptyString => EmptyString
  | String c s' => String (if Ascii.eqb c "'"%char then dquote else c) (dq s')
  end.

(** ** Regular expressions ([re.match])

    The patterns of the module are sequences of literal characters,
    character classes, greedy repetitions of a class, the anchors [^] and
    [$] and groups that do not nest.  A pattern is the list of its items,
    left to right. *)

Module Re.

Inductive item : Type :=
| Chr (c : ascii)                     (* a literal character *)
| In (p : ascii -> bool)              (* one character of a class *)
| Rep (min : nat) (p : ascii -> bool) (* class* is [Rep 0], class+ is [Rep 1] *)
| Bol                                 (* ^ *)
| Eol                                 (* $ *)
| Open                                (* ( *)
| Close.                              (* ) *)

(** A literal text, character by character. *)
Fixpoint lit (s : string) : list item :=
  match s with
  | EmptyString => []
  | String c s' => Chr c :: lit s'
  end.

(** [.] matches every character but the newline. *)
Definition dot (c : ascii) : bool := negb (Ascii.eqb c newline).
(** [\d] and [\s] *)
Definition digit : ascii -> bool := Str.isdigit.
Definition space : ascii -> bool := Str.isspace.
(** [[abc]] and [[^abc]] *)
Definition one_of (cs : string) (c : ascii) : bool :=
  existsb (Ascii.eqb c) (list_ascii_of_string cs).
Definition none_of (cs : string) (c : ascii) : bool := negb (one_of cs c).

(** Number of leading characters of [s] that are in the class [p]. *)
Fixpoint span (p : ascii -> bool) (s : string) : nat :=
  match s with
  | EmptyString => 0
  | String c s' => if p c then S (span p s') else 0
  end.

(** [$] matches at the end of the text and before a newline that ends it. *)
Definition at_end (s : string) : bool :=
  match s with
  | EmptyString => true
  | String c EmptyString => Ascii.eqb c newline
  | _ => false
  end.

(** The backtracking matcher.  [pos] characters of the subject have been
    matched and [s] is what is left of it; [opened] holds, for each group
    that is open, what was left when it opened; [caps] are the texts of the
    groups closed so far, in the order they closed.  A repetition takes as
    many characters as it can and gives them back one at a time while the
    rest of the pattern fails. *)
Fixpoint exec (pat : list item) (pos : nat) (s : string)
         (opened : list string) (caps : list string) : option (list string) :=
  match pat with
  | [] => Some caps
  | Chr c :: pat' =>
      match s with
      | String c' s' =>
          if Ascii.eqb c c' then exec pat' (S pos) s' opened caps else None
      | EmptyString => None
      end
  | In p :: pat' =>
      match s with
      | String c' s' => if p c' then exec pat' (S pos) s' opened caps else None
      | EmptyString => None
      end
  | Rep min p :: pat' =>
      (fix back (k : nat) : option (list string) :=
         if (k <? min)%nat then None
         else match exec pat' (pos + k) (Str.drop k s) opened caps with
              | Some m => Some m
              | None => match k with
                        | O => None
                        | S k' => back k'
                        end
              end) (span p s)
  | Bol :: pat' => if (pos =? 0)%nat then exec pat' pos s opened caps else None
  | Eol :: pat' => if at_end s then exec pat' pos s opened caps else None
  | Open :: pat' => exec pat' pos s (s :: opened) caps
  | Close :: pat' =>
      match opened with
      | s0 :: opened' =>
          exec pat' pos s opened'
               (caps ++ [Str.take (String.length s0 - String.length s) s0])
      | [] => None
      end
  end.

(** Number of groups of a pattern. *)
Fixpoint groups (pat : list item) : nat :=
  match pat with
  | [] => 0
  | Close :: pat' => S (groups pat')
  | _ :: pat' => groups pat'
  end.

(** [re.match(pat, s)]: the match is anchored at the start of [s]; the
    result is [m.groups()] when there is a match. *)
Definition match_ (pat : list item) (s : string) : option (list string) :=
  exec pat 0 s [] [].

End Re.

(** ** [sorted] on lists of [str]

    Strings compare by code point, lexicographically; [sorted] is a stable
    merge sort. *)

Module StrOrder <: TotalLeBool.
Definition t := string.
Definition leb : t -> t -> bool := String.leb.
Definition leb_total : forall a1 a2, leb a1 a2 = true \/ leb a2 a1 = true :=
  String.leb_total.
End StrOrder.

Module StrSort := Sort StrOrder.

Definition sorted (l : list string) : list string := StrSort.sort l.

(** [len(set(l)) == len(l)] *)
Definition set_ (l : list string) : list string := nodup string_dec l.

(** ** Exceptions, logging and the monad of effects *)

(** The exception classes the module can meet.  [FileNotFoundError],
    [URLError] and [HTTPError] are subclasses of [OSError];
    [JSONDecodeError] is a subclass of [ValueError]. *)
Inductive exn_class : Type :=
| OSError | FileNotFoundError | URLError | HTTPError
| ValueError | JSONDecodeError
| KeyError | TypeError | AttributeError | OverflowError.

Inductive exn : Type := Exn (cls : exn_class) (msg : string).

(** [isinstance(e, OSError)]: what [except OSError] catches. *)
Definition is_OSError (e : exn) : bool :=
  match e with
  | Exn (OSError | FileNotFoundError | URLError | HTTPError) _ => true
  | Exn _ _ => false
  end.

Inductive level : Type := DEBUG | INFO | ERROR.

(** What a [logging] call formats into its message. *)
Inductive logarg : Type :=
| AStr (s : string)
| AStrs (l : list string)
| AExn (e : exn).

(** One call of [logging.debug], [logging.info] or [logging.error]: its
    level, the format text and the values given to [format]. *)
Record log_record : Type := Log { lvl : level; fmt : string; args : list logarg }.

Inductive result (A : Type) : Type :=
| Ok (a : A)
| Raise (e : exn).
Arguments Ok {A} a.
Arguments Raise {A} e.

(** A computation returns or raises, and emits log records on the way. *)
Definition Py (A : Type) : Type := (result A * list log_record)%type.

Definition ret {A : Type} (a : A) : Py A := (Ok a, []).

Definition raise {A : Type} (e : exn) : Py A := (Raise e, []).

Definition bind {A B : Type} (m : Py A) (k : A -> Py B) : Py B :=
  match m with
  | (Ok a, l) => let (r, l') := k a in (r, l ++ l')
  | (Raise e, l) => (Raise e, l)
  end.

Declare Scope py_scope.
Delimit Scope py_scope with py.
Notation "x <- m ;; k" := (bind m (fun x => k))
  (at level 61, m at next level, right associativity) : py_scope.
Notation "m ;; k" := (bind m (fun _ => k))
  (at level 61, right associativity) : py_scope.
Local Open Scope py_scope.

(** [try: body except OSError as err: handler err] *)
Definition try_except_OSError {A : Type} (body : Py A) (handler : exn -> Py A) : Py A :=
  match body with
  | (Raise e, l) =>
      if is_OSError e then let (r, l') := handler e in (r, l ++ l')
      else (Raise e, l)
  | (Ok a, l) => (Ok a, l)
  end.

Definition logging_debug (fmt : string) (args : list logarg) : Py unit :=
  (Ok tt, [Log DEBUG fmt args]).

Definition logging_error (fmt : string) (args : list logarg) : Py unit :=
  (Ok tt, [Log ERROR fmt args]).

(** ** Loops *)

Inductive ctl (S : Type) : Type :=
| Next (s : S)            (* the body ran to its end *)
| Break (s : S).          (* the body ran into [break] *)
Arguments Next {S} s.
Arguments Break {S} s.

(** [for x in l: body], the loop variables being the state [s]. *)
Fixpoint for_in {A S : Type} (body : A -> S -> ctl S) (l : list A) (s : S) : S :=
  match l with
  | [] => s
  | x :: l' =>
      match body x s with
      | Next s' => for_in body l' s'
      | Break s' => s'
      end
  end.

(** The same for a body with effects. *)
Fixpoint for_inM {A S : Type} (body : A -> S -> Py (ctl S)) (l : list A) (s : S) : Py S :=
  match l with
  | [] => ret s
  | x :: l' =>
      c <- body x s ;;
      match c with
      | Next s' => for_inM body l' s'
      | Break s' => ret s'
      end
  end.

(** ** Values decoded by [json.loads] *)

#[warnings="-register-all"]
Inductive pyval : Type :=
| PyNone
| PyBool (b : bool)
| PyInt (z : Z)
| PyFloat (f : float)
| PyStr (s : string)
| PyList (l : list pyval)
| PyDict (d : list (string * pyval)).

(** Lookup in a dict: the keys of a dict are distinct, the first entry of
    a key is its entry. *)
Fixpoint lookup (key : string) (d : list (string * pyval)) : option pyval :=
  match d with
  | [] => None
  | (k, v) :: d' => if String.eqb k key then Some v else lookup key d'
  end.

(** [v[key]] for a [str] key: [KeyError] on a dict without the key,
    [TypeError] on a value that is no dict. *)
Definition getitem (v : pyval) (key : string) : Py pyval :=
  match v with
  | PyDict d =>
      match lookup key d with
      | Some x => ret x
      | None => raise (Exn KeyError key)
      end
  | _ => raise (Exn TypeError "not subscriptable by str")
  end.

(** [v.get(key)]: [None] on a dict without the key, [AttributeError] on a
    value that is no dict. *)
Definition get (v : pyval) (key : string) : Py pyval :=
  match v with
  | PyDict d =>
      match lookup key d with
      | Some x => ret x
      | None => ret PyNone
      end
  | _ => raise (Exn AttributeError "get")
  end.

(** [for x in v]: the elements of a list, the keys of a dict, the
    characters of a str; [TypeError] on the other values. *)
Definition iter (v : pyval) : Py (list pyval) :=
  match v with
  | PyList l => ret l
  | PyDict d => ret (map (fun kv => PyStr (fst kv)) d)
  | PyStr s => ret (map (fun c => PyStr (String c EmptyString)) (list_ascii_of_string s))
  | _ => raise (Exn TypeError "not iterable")
  end.

(** ** The world outside the module *)

Record world : Type := World {
  (** [open(path.join(dir, name), 'r')] and the lines that iterating over
      the file yields, each with its line end; [None] when the file cannot
      be opened. *)
  open_lines : string -> string -> option (list string);
  (** [glob.glob(path.join(dir, 'stats_snapshot', '*', 'meta.json'))] *)
  glob_meta_json : string -> list string;
  (** [json.loads(file.read())] on [open(meta_file, 'r')] *)
  load_json : string -> Py pyval;
  (** [json.loads(util.execute_request(url, path, username=user,
      password=password).read())], where [url] is [host] for the cluster
      and ['{}:{}'.format(host, port)] for a node; [util] is not part of
      this file. *)
  request_json : pyval -> option pyval -> string -> pyval -> pyval -> Py pyval;
  (** [time.time()] *)
  time_time : float
}.

(** [with open(path.join(cbcollect_dir, name), 'r') as file] *)
Definition open_r (w : world) (dir name : string) : Py (list string) :=
  match open_lines w dir name with
  | Some file => ret file
  | None => raise (Exn FileNotFoundError name)
  end.

(** ** The configuration dump: [couchbase.log] *)

(** The dict [{'buckets': ...}] the parsers return. *)
Record config : Type := Config { buckets : list string }.

(** [l == []] *)
Definition is_nil {A : Type} (l : list A) : bool :=
  match l with [] => true | _ :: _ => false end.

(** The spaces and the double quotes of [bucket_list] are removed by two
    calls of [replace] and the rest is [split(',')]; this runs when
    [bucket_list != '']. *)
Definition split_bucket_list (bucket_list : string) : list string :=
  if Str.is_empty bucket_list then []
  else Str.split ","%char
         (Str.replace (Str.replace bucket_list " " EmptyString)
                      (String dquote EmptyString) EmptyString).

(** *** [parse_couchbase_ns_config] *)

Module NsConfig.

Record state : Type := State {
  in_config : bool;
  in_buckets : bool;
  buckets : list string;
  section_divider_count : nat
}.

Definition init : state := State false false [] 0.

(** ['^ \{.*,$'] *)
Definition sibling_section : list Re.item :=
  [Re.Bol] ++ Re.lit " {" ++ [Re.Rep 0 Re.dot] ++ Re.lit "," ++ [Re.Eol].

(** The pattern of a bucket line: [^], four spaces, the class of the space
    and the opening bracket, [\{], a double quote, a group holding [.*], a
    double quote, a comma and [$]. *)
Definition bucket_line : list Re.item :=
  [Re.Bol] ++ Re.lit "    " ++ [Re.In (Re.one_of " [")] ++ Re.lit "{"
  ++ [Re.Chr dquote; Re.Open; Re.Rep 0 Re.dot; Re.Close; Re.Chr dquote]
  ++ Re.lit "," ++ [Re.Eol].

(** The body of [for full_line in file]. *)
Definition body (full_line : string) (st : state) : Py (ctl state) :=
  let line := Str.rstrip full_line in
  let config_line := "Couchbase config" in
  if negb (in_config st) && String.eqb (Str.rstrip line) config_line then
    ret (Next (State true (in_buckets st) (buckets st) (section_divider_count st)))
  else if in_config st then
    let divider := Str.startswith (Str.strip line) "==================" in
    let count := if divider then S (section_divider_count st)
                 else section_divider_count st in
    if divider && (count =? 2)%nat then
      ret (Break (State true (in_buckets st) (buckets st) count))
    else if negb (in_buckets st) && String.eqb line " {buckets," then
      ret (Next (State true true (buckets st) count))
    else if in_buckets st then
      match Re.match_ sibling_section line with
      | Some _ => ret (Break (State true true (buckets st) count))
      | None =>
          match Re.match_ bucket_line line with
          | Some groups =>
              let bucket := nth 0 groups EmptyString in
              logging_debug "found bucket:{}" [AStr bucket] ;;
              ret (Next (State true true (buckets st ++ [bucket]) count))
          | None => ret (Next (State true true (buckets st) count))
          end
      end
    else ret (Next (State true false (buckets st) count))
  else ret (Next st).

End NsConfig.

Definition parse_couchbase_ns_config (w : world) (cbcollect_dir : string) : Py config :=
  logging_debug "parsing couchbase.log (Couchbase config)" [] ;;
  file <- open_r w cbcollect_dir "couchbase.log" ;;
  st <- for_inM NsConfig.body file NsConfig.init ;;
  ret (Config (sorted (NsConfig.buckets st))).

(** *** [parse_couchbase_chronicle_older_version] *)

Module ChronicleOlder.

Record state : Type := State {
  in_config : bool;
  in_buckets : bool;
  bucket_list : string
}.

Definition init : state := State false false EmptyString.

(** The body of [for full_line in file]. *)
Definition body (full_line : string) (st : state) : ctl state :=
  let line := Str.rstrip full_line in
  if negb (in_config st) && String.eqb line "Chronicle config" then
    Next (State true (in_buckets st) (bucket_list st))
  else if in_config st then
    let '(in_buckets', possible_buckets) :=
      if negb (in_buckets st) then
        if Str.startswith line " {bucket_names," then
          (true, Str.replace line " {bucket_names,[" EmptyString)
        else (false, EmptyString)
      else (true, line) in
    if negb (Str.is_empty possible_buckets) then
      let '(possible_buckets, end_of_list) :=
        if Str.endswith possible_buckets "]}," then
          (Str.drop_last 3 possible_buckets, true)
        else (possible_buckets, false) in
      let bucket_list' := (bucket_list st ++ possible_buckets)%string in
      if end_of_list then Break (State true in_buckets' bucket_list')
      else Next (State true in_buckets' bucket_list')
    else Next (State true in_buckets' (bucket_list st))
  else Next st.

End ChronicleOlder.

Definition parse_couchbase_chronicle_older_version
    (w : world) (cbcollect_dir : string) : Py config :=
  logging_debug "parsing couchbase.log (Chronicle config)" [] ;;
  file <- open_r w cbcollect_dir "couchbase.log" ;;
  let st := for_in ChronicleOlder.body file ChronicleOlder.init in
  let buckets := split_bucket_list (ChronicleOlder.bucket_list st) in
  ret (Config (sorted buckets)).

(** *** [parse_couchbase_chronicle] *)

Module Chronicle.

Record state : Type := State {
  in_config : bool;
  in_buckets : bool;
  bucket_list : string
}.

Definition init : state := State false false EmptyString.

(** The pattern of the line that opens the list: a first group holding
    [^\s*{bucket_names,{\[] and a second group holding [.*]. *)
Definition bucket_names : list Re.item :=
  [Re.Open; Re.Bol; Re.Rep 0 Re.space] ++ Re.lit "{bucket_names,{["
  ++ [Re.Close; Re.Open; Re.Rep 0 Re.dot; Re.Close].

(** The pattern that finds the closing bracket: [^], a group holding a
    repetition of the class [[^\]]], then [\]] and [.*]. *)
Definition up_to_bracket : list Re.item :=
  [Re.Bol; Re.Open; Re.Rep 0 (Re.none_of "]"); Re.Close] ++ Re.lit "]"
  ++ [Re.Rep 0 Re.dot].

(** The body of [for full_line in file].  Every line read inside the
    section starts with [bucket_list = ''], as the source has it. *)
Definition body (full_line : string) (st : state) : ctl state :=
  let line := Str.rstrip full_line in
  if negb (in_config st) && String.eqb line "Chronicle dump" then
    Next (State true (in_buckets st) (bucket_list st))
  else if in_config st then
    let bucket_list := EmptyString in
    let '(in_buckets', possible_buckets) :=
      if negb (in_buckets st) then
        match Re.match_ bucket_names line with
        | Some groups => (true, nth 1 groups EmptyString)
        | None => (false, EmptyString)
        end
      else (true, line) in
    if negb (Str.is_empty possible_buckets) then
      match Re.match_ up_to_bracket possible_buckets with
      | Some groups =>
          Break (State true in_buckets'
                       (bucket_list ++ nth 0 groups EmptyString)%string)
      | None => Next (State true in_buckets' (bucket_list ++ possible_buckets)%string)
      end
    else Next (State true in_buckets' bucket_list)
  else Next st.

End Chronicle.

Definition parse_couchbase_chronicle (w : world) (cbcollect_dir : string) : Py config :=
  logging_debug "parsing couchbase.log (Chronicle config)" [] ;;
  file <- open_r w cbcollect_dir "couchbase.log" ;;
  let st := for_in Chronicle.body file Chronicle.init in
  let buckets := split_bucket_list (Chronicle.bucket_list st) in
  logging_debug "found buckets:{}" [AStrs buckets] ;;
  ret (Config (sorted buckets)).

(** *** [parse_couchbase_log] *)

Definition parse_couchbase_log (w : world) (cbcollect_dir : string) : Py config :=
  config <- parse_couchbase_chronicle w cbcollect_dir ;;
  if is_nil (buckets config) then
    config <- parse_couchbase_chronicle_older_version w cbcollect_dir ;;
    if is_nil (buckets config) then
      config <- parse_couchbase_ns_config w cbcollect_dir ;;
      ret config
    else ret config
  else ret config.

(** ** Python [float] and the builtins [min] and [max] *)

(** The double of an int of at most 63 bits, through the primitive
    conversion of machine integers: the nearest double, ties to even. *)
Definition float_of_word (z : Z) : float :=
  if (z <? 0)%Z then (- of_uint63 (Uint63.of_Z (- z)))%float
  else of_uint63 (Uint63.of_Z z).

(** [float(z)] as the division [z / 1000.0] makes it: the nearest double,
    ties to even, and [OverflowError] when that is no finite double, which
    cannot be for an int of at most 63 bits. *)
Definition float_of_int (z : Z) : Py float :=
  if (Z.abs z <? 2 ^ 63)%Z then ret (float_of_word z)
  else
    let f := SF2Prim (binary_normalize prec emax z 0 false) in
    if is_infinity f
    then raise (Exn OverflowError "int too large to convert to float")
    else ret f.

(** [v / 1000.0] *)
Definition truediv_1000 (v : pyval) : Py float :=
  match v with
  | PyInt z => f <- float_of_int z ;; ret (f / 1000)%float
  | PyBool b => ret ((if b then 1 else 0) / 1000)%float
  | PyFloat f => ret (f / 1000)%float
  | _ => raise (Exn TypeError "unsupported operand type(s) for /")
  end.

(** [min] and [max] are one function of CPython, [min_max], with the
    comparison [op] set to [<] and to [>]: the first item is kept until an
    item is [op] the one kept; [ValueError] on the empty list (the text of
    its message is the one of CPython 3.8). *)
Definition min_max (name : string) (op : float -> float -> bool) (l : list float)
    : Py float :=
  match l with
  | [] => raise (Exn ValueError (name ++ "() arg is an empty sequence")%string)
  | x :: l' =>
      ret (fold_left (fun maxitem item => if op item maxitem then item else maxitem)
                     l' x)
  end.

Definition min_ : list float -> Py float := min_max "min" (fun a b => (a <? b)%float).

Definition max_ : list float -> Py float := min_max "max" (fun a b => (b <? a)%float).

(** ** [get_prometheus_times] *)

(** The body of [for meta_file in meta_files]. *)
Definition read_meta (w : world) (meta_file : string) (acc : list float * list float)
    : Py (ctl (list float * list float)) :=
  let (min_times, max_times) := acc in
  meta <- load_json w meta_file ;;
  min_time <- (t <- getitem meta "minTime" ;; truediv_1000 t) ;;
  max_time <- (t <- getitem meta "maxTime" ;; truediv_1000 t) ;;
  ret (Next (min_times ++ [min_time], max_times ++ [max_time])).

Definition get_prometheus_times (w : world) (cbcollect_dir : string) : Py (float * float) :=
  let meta_files := glob_meta_json w cbcollect_dir in
  times <- for_inM (read_meta w) meta_files ([], []) ;;
  lo <- min_ (fst times) ;;
  hi <- max_ (snd times) ;;
  ret (lo, hi).

(** ** More of [str], [os.path] and [pathlib] *)

(** [s.find(sub)]: the index of the first place where [sub] starts in
    [s], and [-1] when there is none. *)
Fixpoint find_from (sub s : string) (i : Z) {struct s} : Z :=
  if String.prefix sub s then i
  else match s with
       | EmptyString => (-1)%Z
       | String _ s' => find_from sub s' (i + 1)%Z
       end.

Definition find (s sub : string) : Z := find_from sub s 0.

(** ['{}'.format(n)] for an int. *)
Definition str_of_int (n : Z) : string := NilZero.string_of_int (Z.to_int n).

(** [os.path.join(a, b)] of [posixpath]. *)
Definition path_join (a b : string) : string :=
  if Str.startswith b "/" then b
  else if Str.is_empty a || Str.endswith a "/" then (a ++ b)%string
  else (a ++ "/" ++ b)%string.

(** A [pathlib.Path] is the list of its parts: [Path(name)] for a name
    that holds no separator, as [glob.glob('cbcollect_info*')] gives them,
    has one part, and [p / name] has one part more. *)
Definition Path (name : string) : list string := [name].

Definition Path_div (p : list string) (name : string) : list string := p ++ [name].

(** The disk, as the discovery of the collections reads it. *)
Record disk : Type := Disk {
  (** [glob.glob(pattern)], in the order the system lists the names *)
  glob_glob : string -> list string;
  (** [p.is_dir()] *)
  path_is_dir : list string -> bool;
  (** [p.exists()] *)
  path_exists : list string -> bool;
  (** [os.path.isdir(name)] *)
  os_path_isdir : string -> bool
}.

(** What [CBCollect.maybe_start] takes from outside this file:
    [Source.PROMETHEUS_BIN], which this file does not set,
    [util.get_root_dir()] and [util.start_process(args, log_path)], whose
    result is a process handle or [None]. *)
Record launcher : Type := Launcher {
  PROMETHEUS_BIN : Py string;
  get_root_dir : Py string;
  start_process : list string -> string -> Py (option nat)
}.

Definition logging_info (fmt : string) (args : list logarg) : Py unit :=
  (Ok tt, [Log INFO fmt args]).

Definition STATS_SNAPSHOT_DIR_NAME : string := "stats_snapshot".

(** ** [class CBCollect(Source)] *)

Module CBCollect.

Record t : Type := Make {
  _port : Z;
  _short_name : string;
  _cbcollect_dir : string;
  _config : option config
}.

(** [CBCollect(cbcollect_dir, short_name, prometheus_port)] *)
Definition __init__ (cbcollect_dir short_name : string) (prometheus_port : Z) : t :=
  Make prometheus_port short_name cbcollect_dir None.

Definition short_name (self : t) : string := _short_name self.

Definition host (self : t) : string := "127.0.0.1".

(** [get_buckets] returns the list of buckets and leaves the object in its
    new state. *)
Definition get_buckets (w : world) (self : t) : Py (list string * t) :=
  match _config self with
  | None =>
      config <- parse_couchbase_log w (_cbcollect_dir self) ;;
      let self := Make (_port self) (_short_name self) (_cbcollect_dir self)
                       (Some config) in
      ret (buckets config, self)
  | Some config => ret (buckets config, self)
  end.

Definition get_min_and_max_times (w : world) (self : t) : Py (float * float) :=
  get_prometheus_times w (_cbcollect_dir self).

(** The pattern of the directory names: the text [cbcollect_info_ns_], a
    group of [\d+], [\@], a group of [.*], [_], a group of [\d+], [-] and
    a group of [\d+]. *)
Definition regex : list Re.item :=
  Re.lit "cbcollect_info_ns_" ++ [Re.Open; Re.Rep 1 Re.digit; Re.Close]
  ++ Re.lit "@" ++ [Re.Open; Re.Rep 0 Re.dot; Re.Close]
  ++ Re.lit "_" ++ [Re.Open; Re.Rep 1 Re.digit; Re.Close]
  ++ Re.lit "-" ++ [Re.Open; Re.Rep 1 Re.digit; Re.Close].

(** A format text is its literal parts and its fields [{i}]. *)
Inductive piece : Type :=
| Text (s : string)
| Field (i : nat).

(** [name_format.format( *groups)]; every field of the four formats below
    is one of the four groups of [regex]. *)
Fixpoint format (name_format : list piece) (groups : list string) : string :=
  match name_format with
  | [] => EmptyString
  | Text s :: rest => (s ++ format rest groups)%string
  | Field i :: rest => (nth i groups EmptyString ++ format rest groups)%string
  end.

(** ['{1}', 'ns_{0}@{1}', '{1}-{2}-{3}', 'ns_{0}-{1}-{2}-{3}'] *)
Definition formats : list (list piece) :=
  [ [Field 1];
    [Text "ns_"; Field 0; Text "@"; Field 1];
    [Field 1; Text "-"; Field 2; Text "-"; Field 3];
    [Text "ns_"; Field 0; Text "-"; Field 1; Text "-"; Field 2; Text "-"; Field 3] ].

(** The name one directory gets from a format: the body of the loop of
    [try_get_data_source_names]. *)
Definition data_source_name (pattern : list Re.item) (name_format : list piece)
    (cbcollect : string) : string :=
  match Re.match_ pattern cbcollect with
  | Some groups => format name_format groups
  | None => cbcollect
  end.

(** [None] is [None]; a list is [Some]. *)
Definition try_get_data_source_names (cbcollect_dirs : list string)
    (pattern : list Re.item) (name_format : list piece) : option (list string) :=
  let data_sources := map (data_source_name pattern name_format) cbcollect_dirs in
  if (List.length (set_ data_sources) =? List.length data_sources)%nat
  then Some data_sources
  else None.

(** [for fmt in formats: ... if result: return result], then
    [return cbcollect_dirs]; an empty list is not true. *)
Fixpoint first_result (cbcollect_dirs : list string) (fmts : list (list piece))
    : list string :=
  match fmts with
  | [] => cbcollect_dirs
  | fmt :: rest =>
      match try_get_data_source_names cbcollect_dirs regex fmt with
      | Some (name :: names) => name :: names
      | Some [] | None => first_result cbcollect_dirs rest
      end
  end.

Definition get_data_source_names (cbcollect_dirs : list string) : list string :=
  first_result cbcollect_dirs formats.

(** [maybe_start]: the Prometheus server of the collection is started. *)
Definition maybe_start (u : launcher) (self : t) (log_dir : string) : Py (option nat) :=
  let log_path := path_join log_dir ("prom-" ++ _short_name self ++ ".log")%string in
  let listen_addr := ("0.0.0.0:" ++ str_of_int (_port self))%string in
  bin <- PROMETHEUS_BIN u ;;
  root <- get_root_dir u ;;
  let args := [bin;
               "--config.file"; path_join root "noscrape.yml";
               "--storage.tsdb.path"; path_join (_cbcollect_dir self) "stats_snapshot";
               "--storage.tsdb.no-lockfile";
               "--storage.tsdb.retention.time"; "10y";
               "--query.lookback-delta"; "600s";
               "--web.listen-address"; listen_addr] in
  logging_info "starting prometheus server on {} against {}; logging to {}"
               [AStr listen_addr;
                AStr (path_join (_cbcollect_dir self) "stats_snapshot");
                AStr log_path] ;;
  start_process u args log_path.

(** [candidate_cbcollect_dir / '{}'.format(STATS_SNAPSHOT_DIR_NAME)] *)
Definition make_snapshot_dir_path (candidate_cbcollect_dir : list string) : list string :=
  Path_div candidate_cbcollect_dir STATS_SNAPSHOT_DIR_NAME.

Definition snapshot_dir_exists (d : disk) (candidate_cbcollect_dir : list string) : bool :=
  path_exists d (make_snapshot_dir_path candidate_cbcollect_dir).

Definition is_cbcollect_dir (d : disk) (candidate_path : list string) : bool :=
  path_is_dir d candidate_path && snapshot_dir_exists d candidate_path.

Definition find_cbcollect_dirs (d : disk) : list string :=
  let cbcollects := sorted (glob_glob d "cbcollect_info*") in
  filter (fun f => is_cbcollect_dir d (Path f)) cbcollects.

(** [filename.find('/stats_snapshot/') >= 0] *)
Definition is_stats_snapshot_file (filename : string) : bool :=
  (0 <=? find filename ("/" ++ STATS_SNAPSHOT_DIR_NAME ++ "/")%string)%Z.

(** [get_cbcollect_dirs]: [extract_zips] stands for the loop over the zip
    files, which extracts what is missing and leaves the disk it returns;
    the directories are then found on that disk. *)
Definition get_cbcollect_dirs (extract_zips : Py disk) : Py (list string * disk) :=
  d <- extract_zips ;;
  ret (find_cbcollect_dirs d, d).

(** The body of [for idx in range(len(cbcollects))].  [idx] is below the
    length of [cbcollects], and [data_source_names] has that length. *)
Definition add_source (cbcollects data_source_names : list string) (base_port : Z)
    (idx : nat) (result : list t) : ctl (list t) :=
  let cbcollect_dir := nth idx cbcollects EmptyString in
  let name := nth idx data_source_names EmptyString in
  let source := __init__ cbcollect_dir name (base_port + Z.of_nat idx)%Z in
  Next (result ++ [source]).

(** The end of [get_stats_sources], from [data_source_names = ...] on. *)
Definition make_sources (cbcollects : list string) (base_port : Z) : list t :=
  let data_source_names := get_data_source_names cbcollects in
  for_in (add_source cbcollects data_source_names base_port)
         (seq 0 (List.length cbcollects)) [].

(** [get_stats_sources(base_port)], the second definition of that name in
    the class, which is the one the class keeps. *)
Definition get_stats_sources (extract_zips : Py disk) (base_port : Z) : Py (list t) :=
  r <- get_cbcollect_dirs extract_zips ;;
  let (cbcollects, d) := r in
  if (List.length cbcollects =? 0)%nat then
    if os_path_isdir d STATS_SNAPSHOT_DIR_NAME then
      ret (make_sources (cbcollects ++ ["."]) base_port)
    else
      logging_error
        (dq "error: no 'collectinfo*.zip' files or 'cbcollect_info*' directories or '{}' directory found")
        [AStr STATS_SNAPSHOT_DIR_NAME] ;;
      ret []
  else ret (make_sources cbcollects base_port).

End CBCollect.

(** ** [class ServerNode(Source)] *)

Module ServerNode.

Record t : Type := Make {
  _port : pyval;
  _cluster_host : pyval;
  _user : pyval;
  _password : pyval
}.

(** [ServerNode(cluster_host, cluster_port, user, password)] *)
Definition __init__ (cluster_host cluster_port user password : pyval) : t :=
  Make cluster_port cluster_host user password.

Definition port (self : t) : pyval := _port self.

Definition host (self : t) : pyval := _cluster_host self.

(** The body of [for bucket in bucket_list]. *)
Definition add_bucket (bucket : pyval) (result : list pyval) : Py (ctl (list pyval)) :=
  name <- getitem bucket "name" ;;
  ret (Next (result ++ [name])).

Definition get_buckets (w : world) (self : t) : Py (list pyval) :=
  bucket_list <- request_json w (host self) (Some (port self))
                   "pools/default/buckets" (_user self) (_password self) ;;
  items <- iter bucket_list ;;
  for_inM add_bucket items [].

Definition get_min_and_max_times (w : world) (self : t) : Py (float * float) :=
  let current := time_time w in
  ret ((current - 3600)%float, current).

(** The body of [for node in node_services['nodesExt']]. *)
Definition add_node (user password : pyval) (node : pyval) (result : list t)
    : Py (ctl (list t)) :=
  host <- get node "hostname" ;;
  let host := match host with
              | PyNone => PyStr "127.0.0.1"
              | _ => host
              end in
  services <- getitem node "services" ;;
  port <- getitem services "mgmt" ;;
  let source := __init__ host port user password in
  ret (Next (result ++ [source])).

Definition get_stats_sources (w : world) (cluster user password : pyval) : Py (list t) :=
  try_except_OSError
    (node_services <- request_json w cluster None
                        "pools/default/nodeServices" user password ;;
     nodesExt <- getitem node_services "nodesExt" ;;
     nodes <- iter nodesExt ;;
     for_inM (add_node user password) nodes [])
    (fun err =>
       logging_error "error: can't access cluster: {}" [AExn err] ;;
       ret []).

(** [maybe_start]: nothing to do, the server is taken to be running. *)
Definition maybe_start (self : t) (log_dir : string) : Py (option nat) := ret None.

End ServerNode.

(** ** Sources of either class *)

Inductive source : Type :=
| OfCBCollect (c : CBCollect.t)
| OfServerNode (n : ServerNode.t).

(** [s.get_min_and_max_times()] *)
Definition get_min_and_max_times (w : world) (s : source) : Py (float * float) :=
  match s with
  | OfCBCollect c => CBCollect.get_min_and_max_times w c
  | OfServerNode n => ServerNode.get_min_and_max_times w n
  end.

(** [times = [s.get_min_and_max_times() for s in sources]] *)
Fixpoint all_times (w : world) (sources : list source) : Py (list (float * float)) :=
  match sources with
  | [] => ret []
  | s :: rest =>
      t <- get_min_and_max_times w s ;;
      ts <- all_times w rest ;;
      ret (t :: ts)
  end.

(** [CBCollect.compute_min_and_max_times] *)
Definition compute_min_and_max_times (w : world) (sources : list source) : Py (float * float) :=
  times <- all_times w sources ;;
  lo <- min_ (map fst times) ;;
  hi <- max_ (map snd times) ;;
  ret (lo, hi).

(** [stats_source.maybe_start(log_dir)] *)
Definition maybe_start (u : launcher) (s : source) (log_dir : string) : Py (option nat) :=
  match s with
  | OfCBCollect c => CBCollect.maybe_start u c log_dir
  | OfServerNode n => ServerNode.maybe_start n log_dir
  end.

(** The body of the loop of [Source.maybe_start_stats_servers]. *)
Definition add_started (u : launcher) (log_dir : string) (stats_source : source)
    (nodes : list nat) : Py (ctl (list nat)) :=
  node <- maybe_start u stats_source log_dir ;;
  match node with
  | Some n => ret (Next (nodes ++ [n]))
  | None => ret (Next nodes)
  end.

(** [Source.maybe_start_stats_servers] *)
Definition maybe_start_stats_servers (u : launcher) (stats_sources : list source)
    (log_dir : string) : Py (list nat) :=
  for_inM (add_started u log_dir) stats_sources [].

(** ** Fixtures: worlds and files used by the examples below *)

(** A line of a text file: [dq] of the text, and the line end. *)
Definition ln (s : string) : string := (dq s ++ String newline EmptyString)%string.

(** A world in which every directory holds the same [couchbase.log], no
    snapshot has a shard, and the cluster refuses every connection. *)
Definition world_of_file (file : list string) : world :=
  World (fun _ _ => Some file)
        (fun _ => [])
        (fun name => raise (Exn FileNotFoundError name))
        (fun _ _ _ _ _ => raise (Exn URLError "Connection refused"))
        0%float.

(** A Chronicle dump whose list of bucket names is on one line. *)
Definition chronicle_dump_one_line : list string :=
  map ln ["Chronicle dump";
          " {bucket_names,{['b2','b1'],{<<'f9e4'>>,5}}},";
          " {other,1}"].

(** A Chronicle dump whose list of bucket names is on two lines. *)
Definition chronicle_dump_two_lines : list string :=
  map ln ["Chronicle dump";
          " {bucket_names,{['b1',";
          "  'b2'],{<<'f9e4'>>,5}}},";
          " {other,1}"].

(** The same list in a Chronicle config section. *)
Definition chronicle_config_two_lines : list string :=
  map ln ["Chronicle config";
          " {bucket_names,['b1',";
          "               'b2']},";
          " {other,1}"].

(** A file with none of the three sections. *)
Definition no_section : list string := map ln ["ns_server log"; " {buckets,"; "     {'b1',"].

(** [get_buckets] called once in each of the worlds [ws], one after the
    other, on the same object: the results of the calls and the object
    after the last one. *)
Fixpoint get_buckets_calls (ws : list world) (self : CBCollect.t)
    : Py (list (list string) * CBCollect.t) :=
  match ws with
  | [] => ret ([], self)
  | w :: ws' =>
      r <- CBCollect.get_buckets w self ;;
      rs <- get_buckets_calls ws' (snd r) ;;
      ret (fst r :: fst rs, snd rs)
  end.

(** Milliseconds as seconds: the double of [ms], divided by [1000.0]. *)
Definition seconds (ms : Z) : float := (float_of_word ms / 1000)%float.

(** The metadata file [meta_file] holds a dict whose [minTime] and
    [maxTime] are the ints [lo] and [hi], milliseconds of at most 63 bits
    and a sign. *)
Definition shard_meta (w : world) (meta_file : string) (lo hi : Z) : Prop :=
  exists d l,
    load_json w meta_file = (Ok (PyDict d), l) /\
    lookup "minTime" d = Some (PyInt lo) /\
    lookup "maxTime" d = Some (PyInt hi) /\
    (Z.abs lo < 2 ^ 63)%Z /\ (Z.abs hi < 2 ^ 63)%Z.

(** A snapshot of two shards, with the times of the example of the
    specification. *)
Definition two_shards : world :=
  World (fun _ _ => None)
        (fun _ => ["collect/stats_snapshot/01A/meta.json";
                   "collect/stats_snapshot/01B/meta.json"])
        (fun meta_file =>
           if String.eqb meta_file "collect/stats_snapshot/01A/meta.json"
           then ret (PyDict [("ulid", PyStr "01A"); ("minTime", PyInt 1000);
                             ("maxTime", PyInt 5000)])
           else ret (PyDict [("ulid", PyStr "01B"); ("minTime", PyInt 2000);
                             ("maxTime", PyInt 9000)]))
        (fun _ _ _ _ _ => raise (Exn URLError "Connection refused"))
        0%float.

(** An entry of [nodesExt] that has a [services] dict with a [mgmt] entry. *)
Definition has_mgmt_port (node : pyval) : Prop :=
  exists nd sd port,
    node = PyDict nd /\ lookup "services" nd = Some (PyDict sd) /\
    lookup "mgmt" sd = Some port.

(** The host that [get_stats_sources] gives the node of an entry. *)
Definition host_of_entry (nd : list (string * pyval)) : pyval :=
  match lookup "hostname" nd with
  | Some PyNone | None => PyStr "127.0.0.1"
  | Some host => host
  end.

(** A cluster of two nodes, the second without a host name. *)
Definition two_nodes : world :=
  World (fun _ _ => None)
        (fun _ => [])
        (fun name => raise (Exn FileNotFoundError name))
        (fun _ _ _ _ _ =>
           ret (PyDict
                  [("rev", PyInt 42);
                   ("nodesExt",
                    PyList
                      [PyDict [("services", PyDict [("mgmt", PyInt 8091)]);
                               ("hostname", PyStr "10.0.0.2")];
                       PyDict [("services", PyDict [("mgmt", PyInt 9000)]);
                               ("thisNode", PyBool true)]])]))
        0%float.

(** The file holds the header line of a section. *)
Definition has_section (header : string) (file : list string) : Prop :=
  exists full_line, In full_line file /\ Str.rstrip full_line = header.

(** A list of [str] in the order of [sorted]. *)
Definition is_sorted (l : list string) : Prop :=
  StronglySorted (fun a b => String.leb a b = true) l.

(** ** More fixtures *)

(** A working directory with two collections of one host, listed out of
    order, and a file whose name starts like theirs. *)
Definition disk_two_collections : disk :=
  Disk (fun pattern =>
          if String.eqb pattern "cbcollect_info*"
          then ["cbcollect_info_ns_2@nodeA_100-200";
                "cbcollect_info_ns_1@nodeA_100-200";
                "cbcollect_info_notes.txt"]
          else [])
       (fun p => match p with
                 | [name] => negb (String.eqb name "cbcollect_info_notes.txt")
                 | _ => true
                 end)
       (fun p => match p with
                 | [name; "stats_snapshot"] =>
                     negb (String.eqb name "cbcollect_info_notes.txt")
                 | _ => false
                 end)
       (fun _ => false).

(** A working directory that is itself an unpacked collection, and one
    that holds nothing. *)
Definition disk_unpacked : disk :=
  Disk (fun _ => []) (fun _ => false) (fun _ => false)
       (fun name => String.eqb name "stats_snapshot").

Definition disk_empty : disk :=
  Disk (fun _ => []) (fun _ => false) (fun _ => false) (fun _ => false).

(** A world whose cluster gives every request the same answer. *)
Definition world_of_answer (answer : Py pyval) : world :=
  World (fun _ _ => None)
        (fun _ => [])
        (fun name => raise (Exn FileNotFoundError name))
        (fun _ _ _ _ _ => answer)
        0%float.

(** A launcher that starts every server, as the process 4242. *)
Definition launcher_4242 : launcher :=
  Launcher (ret "prometheus") (ret "/opt/promtimer") (fun _ _ => ret (Some 4242)).

(** A launcher without [Source.PROMETHEUS_BIN]. *)
Definition launcher_unset : launcher :=
  Launcher (raise (Exn AttributeError "PROMETHEUS_BIN")) (ret "/opt/promtimer")
           (fun _ _ => ret (Some 4242)).

Definition node_10_0_0_1 : ServerNode.t :=
  ServerNode.__init__ (PyStr "10.0.0.1") (PyInt 8091) (PyStr "admin") (PyStr "secret").

Definition collect_nodeA : CBCollect.t := CBCollect.__init__ "collect" "nodeA" 9090.

(** An ns_config section with two buckets, after a line of another
    section. *)
Definition ns_config_pre : list string := [ln "Manifest"].

Definition ns_config_mid : list string :=
  [ln "=============================================================================";
   ln "[{{node,'ns_1@nodeA',membership},active},"].

(** A snapshot of two shards, the second without [minTime]. *)
Definition shard_without_minTime : world :=
  World (fun _ _ => None)
        (fun _ => ["collect/stats_snapshot/01A/meta.json";
                   "collect/stats_snapshot/01B/meta.json"])
        (fun meta_file =>
           if String.eqb meta_file "collect/stats_snapshot/01A/meta.json"
           then ret (PyDict [("minTime", PyInt 1000); ("maxTime", PyInt 5000)])
           else ret (PyDict [("maxTime", PyInt 9000)]))
        (fun _ _ _ _ _ => raise (Exn URLError "Connection refused"))
        0%float.

(** ** The lines of an ns_config section *)

(** The line counts as a section divider for [parse_couchbase_ns_config]. *)
Definition is_divider (full_line : string) : bool :=
  Str.startswith (Str.strip (Str.rstrip full_line)) "==================".

(** The line of the dump that starts the entry of the bucket [name]: four
    spaces, [opening] (a space, or the bracket that opens the list), a
    brace, the name between double quotes, a comma and the line end. *)
Definition ns_bucket_line (opening : ascii) (name : string) : string :=
  ("    " ++ String opening
                (String "{" (String dquote
                   (name ++ String dquote (String "," (String newline EmptyString))))))%string.

(** The text holds no line end. *)
Definition one_line (s : string) : Prop := ~ In newline (list_ascii_of_string s).

(** ** The list of bucket names of a Chronicle section *)

(** The names between double quotes, with commas between them. *)
Definition bucket_tokens (names : list string) : string :=
  String.concat "," (map (fun n => String dquote (n ++ String dquote EmptyString)) names).

(** The character is none of those that the list syntax uses. *)
Definition plain (c : ascii) : bool :=
  negb (Ascii.eqb c " " || Ascii.eqb c dquote || Ascii.eqb c ","
        || Ascii.eqb c "]" || Ascii.eqb c newline).

(** A bucket name made of plain characters. *)
Definition plain_name (n : string) : Prop :=
  forallb plain (list_ascii_of_string n) = true.

(** A text made of white space. *)
Definition blank (s : string) : Prop :=
  forallb Str.isspace (list_ascii_of_string s) = true.

(** The names of a line that the list goes on after: each between double
    quotes and followed by a comma. *)
Fixpoint open_tokens (names : list string) : string :=
  match names with
  | [] => EmptyString
  | n :: names' => String dquote (n ++ String dquote (String "," (open_tokens names')))
  end.

(** A text made of spaces. *)
Definition spaces (s : string) : Prop :=
  forallb (Ascii.eqb " ") (list_ascii_of_string s) = true.

(** The lines of a list that goes on over several lines, after the line
    that opens it: each has an indentation and some names; the last one of
    the list is not among them. *)
Definition continuation (chunk : string * list string) : string :=
  (fst chunk ++ open_tokens (snd chunk))%string.

(** * Properties *)

(** ** Sanity checks of the string methods and of the matcher *)

Example rstrip_line : Str.rstrip (ln "  a b  ") = "  a b".
Proof. reflexivity. Qed.

Example strip_line : Str.strip (ln "  == x ") = "== x".
Proof. reflexivity. Qed.

Example replace_spaces : Str.replace " a, b ,c" " " EmptyString = "a,b,c".
Proof. reflexivity. Qed.

Example replace_leftmost : Str.replace "aaa" "aa" "b" = "ba".
Proof. reflexivity. Qed.

Example split_keeps_empty : Str.split ","%char "a,,b," = ["a"; EmptyString; "b"; EmptyString].
Proof. reflexivity. Qed.

Example endswith_closer :
  Str.endswith "'b1']}," "]}," = true /\ Str.drop_last 3 "'b1']}," = "'b1'".
Proof. split; reflexivity. Qed.

Example regex_backtracks :
  Re.match_ CBCollect.regex "cbcollect_info_ns_1@10.1.2_3-4_20210101-120000.zip"
  = Some ["1"; "10.1.2_3-4"; "20210101"; "120000"].
Proof. reflexivity. Qed.

Example regex_needs_prefix :
  Re.match_ CBCollect.regex "x_cbcollect_info_ns_1@h_1-2" = None.
Proof. reflexivity. Qed.

Example bucket_line_matches :
  Re.match_ NsConfig.bucket_line (dq "    [{'travel-sample',") = Some ["travel-sample"]
  /\ Re.match_ NsConfig.bucket_line (dq "     {'beer',") = Some ["beer"]
  /\ Re.match_ NsConfig.bucket_line (dq "      [{num_replicas,1},") = None.
Proof. repeat split; reflexivity. Qed.

Example sibling_section_matches :
  Re.match_ NsConfig.sibling_section " {memory_quota," = Some []
  /\ Re.match_ NsConfig.sibling_section "  {x," = None.
Proof. split; reflexivity. Qed.

(** A successful match fills every group of its pattern. *)
Lemma exec_groups (pat : list Re.item) :
  forall pos s opened caps m,
    Re.exec pat pos s opened caps = Some m ->
    List.length m = List.length caps + Re.groups pat.
Proof.
  induction pat as [|it pat IH]; intros pos s opened caps m; simpl.
  - intros [= <-]. lia.
  - destruct it as [c|p|min p| | | | ].
    + destruct s as [|c' s']; [discriminate|].
      destruct (Ascii.eqb c c'); [apply IH|discriminate].
    + destruct s as [|c' s']; [discriminate|].
      destruct (p c'); [apply IH|discriminate].
    + generalize (Re.span p s). intros k. induction k as [|k IHk].
      * destruct (0 <? min)%nat; [discriminate|].
        destruct (Re.exec pat (pos + 0) (Str.drop 0 s) opened caps) eqn:E;
          [|discriminate].
        intros [= <-]. exact (IH _ _ _ _ _ E).
      * destruct (S k <? min)%nat; [discriminate|].
        destruct (Re.exec pat (pos + S k) (Str.drop (S k) s) opened caps) eqn:E.
        -- intros [= <-]. exact (IH _ _ _ _ _ E).
        -- exact IHk.
    + destruct (pos =? 0)%nat; [apply IH|discriminate].
    + destruct (Re.at_end s); [apply IH|discriminate].
    + apply IH.
    + destruct opened as [|s0 opened]; [discriminate|].
      intros H. apply IH in H. rewrite length_app in H. simpl in H. lia.
Qed.

(** The fields 0 to 3 of the formats are the four groups of [regex]. *)
Lemma regex_four_groups (cbcollect : string) (groups : list string) :
  Re.match_ CBCollect.regex cbcollect = Some groups -> List.length groups = 4.
Proof. intros H. exact (exec_groups _ _ _ _ _ _ H). Qed.

(** ** Strings *)

Lemma rstrip_idempotent (s : string) : Str.rstrip (Str.rstrip s) = Str.rstrip s.
Proof.
  induction s as [|c s IH]; simpl; [reflexivity|].
  destruct (Str.isspace c && Str.is_empty (Str.rstrip s)) eqn:E; simpl.
  - reflexivity.
  - rewrite IH, E. reflexivity.
Qed.

Lemma string_leb_trans (a b c : string) :
  String.leb a b = true -> String.leb b c = true -> String.leb a c = true.
Proof.
  unfold String.leb. revert b c.
  induction a as [|x a IH]; intros [|y b] [|z c]; simpl; try congruence.
  unfold Ascii.compare.
  destruct (N.compare_spec (N_of_ascii x) (N_of_ascii y)) as [Hxy|Hxy|Hxy];
    destruct (N.compare_spec (N_of_ascii y) (N_of_ascii z)) as [Hyz|Hyz|Hyz];
    try congruence; intros H1 H2.
  - rewrite Hxy, Hyz, N.compare_refl. now apply (IH b c).
  - rewrite Hxy. now rewrite (proj2 (N.compare_lt_iff _ _) Hyz).
  - rewrite <- Hyz. now rewrite (proj2 (N.compare_lt_iff _ _) Hxy).
  - assert (H : (N_of_ascii x < N_of_ascii z)%N) by lia.
    now rewrite (proj2 (N.compare_lt_iff _ _) H).
Qed.

Lemma sorted_is_sorted (l : list string) : is_sorted (sorted l).
Proof.
  unfold is_sorted, sorted.
  apply (StrSort.StronglySorted_sort l).
  intros a b c Hab Hbc. unfold is_true in *. exact (string_leb_trans a b c Hab Hbc).
Qed.

Lemma nodup_length_le (l : list string) : List.length (set_ l) <= List.length l.
Proof.
  unfold set_. induction l as [|a l IH]; simpl; [lia|].
  destruct (in_dec string_dec a l); simpl; lia.
Qed.

Lemma set_same_length_NoDup (l : list string) :
  List.length (set_ l) = List.length l -> NoDup l.
Proof.
  induction l as [|a l IH]; intros H; [constructor|].
  unfold set_ in *. simpl in H.
  destruct (in_dec string_dec a l) as [Hin|Hnin].
  - pose proof (nodup_length_le l) as Hle. unfold set_ in Hle. simpl in H. lia.
  - simpl in H. constructor; [assumption|]. apply IH. lia.
Qed.

(** ** The monad and the loops *)

(** A loop whose body never leaves the state it is given stays there. *)
Lemma for_in_fixed {A S : Type} (body : A -> S -> ctl S) (l : list A) (s : S) :
  (forall x, In x l -> body x s = Next s) -> for_in body l s = s.
Proof.
  induction l as [|x l IH]; intros H; simpl; [reflexivity|].
  rewrite (H x (or_introl eq_refl)). apply IH. intros y Hy. apply H. now right.
Qed.

Lemma for_inM_fixed {A S : Type} (body : A -> S -> Py (ctl S)) (l : list A) (s : S) :
  (forall x, In x l -> body x s = ret (Next s)) -> for_inM body l s = ret s.
Proof.
  induction l as [|x l IH]; intros H; simpl; [reflexivity|].
  rewrite (H x (or_introl eq_refl)). simpl.
  rewrite IH; [reflexivity|]. intros y Hy. apply H. now right.
Qed.

(** ** The three parsers return *)

Lemma ns_body_returns (full_line : string) (st : NsConfig.state) :
  exists c l, NsConfig.body full_line st = (Ok c, l).
Proof.
  unfold NsConfig.body.
  repeat match goal with
         | |- context [if ?b then _ else _] => destruct b
         | |- context [match Re.match_ ?p ?s with _ => _ end] => destruct (Re.match_ p s)
         end; cbv [bind ret logging_debug]; eauto.
Qed.

Lemma ns_loop_returns (file : list string) (st : NsConfig.state) :
  exists st' l, for_inM NsConfig.body file st = (Ok st', l).
Proof.
  revert st. induction file as [|x file IH]; intros st; simpl.
  - now exists st, [].
  - destruct (ns_body_returns x st) as (c & l & ->). simpl.
    destruct c as [s|s]; simpl.
    + destruct (IH s) as (st' & l' & ->). eauto.
    + eauto.
Qed.

Lemma parse_couchbase_chronicle_run (w : world) (dir : string) (file : list string) :
  open_lines w dir "couchbase.log" = Some file ->
  parse_couchbase_chronicle w dir =
    (Ok (Config (sorted (split_bucket_list
                           (Chronicle.bucket_list
                              (for_in Chronicle.body file Chronicle.init))))),
     [Log DEBUG "parsing couchbase.log (Chronicle config)" [];
      Log DEBUG "found buckets:{}"
          [AStrs (split_bucket_list
                    (Chronicle.bucket_list
                       (for_in Chronicle.body file Chronicle.init)))]]).
Proof.
  intros H. unfold parse_couchbase_chronicle, open_r. rewrite H. reflexivity.
Qed.

Lemma parse_couchbase_chronicle_older_version_run
    (w : world) (dir : string) (file : list string) :
  open_lines w dir "couchbase.log" = Some file ->
  parse_couchbase_chronicle_older_version w dir =
    (Ok (Config (sorted (split_bucket_list
                           (ChronicleOlder.bucket_list
                              (for_in ChronicleOlder.body file ChronicleOlder.init))))),
     [Log DEBUG "parsing couchbase.log (Chronicle config)" []]).
Proof.
  intros H. unfold parse_couchbase_chronicle_older_version, open_r. rewrite H.
  reflexivity.
Qed.

Lemma parse_couchbase_ns_config_run (w : world) (dir : string) (file : list string) :
  open_lines w dir "couchbase.log" = Some file ->
  exists st l,
    for_inM NsConfig.body file NsConfig.init = (Ok st, l) /\
    parse_couchbase_ns_config w dir =
      (Ok (Config (sorted (NsConfig.buckets st))),
       Log DEBUG "parsing couchbase.log (Couchbase config)" [] :: l).
Proof.
  intros H. destruct (ns_loop_returns file NsConfig.init) as (st & l & Hl).
  exists st, l. split; [assumption|].
  unfold parse_couchbase_ns_config, open_r. rewrite H. simpl. rewrite Hl. simpl.
  now rewrite !app_nil_r.
Qed.

(** With their section header missing, the loops leave their state as it
    started. *)

Lemma chronicle_no_section (file : list string) :
  ~ has_section "Chronicle dump" file ->
  for_in Chronicle.body file Chronicle.init = Chronicle.init.
Proof.
  intros H. apply for_in_fixed. intros x Hx. unfold Chronicle.body. simpl.
  destruct (String.eqb_spec (Str.rstrip x) "Chronicle dump") as [E|E]; [|reflexivity].
  exfalso. apply H. now exists x.
Qed.

Lemma chronicle_older_no_section (file : list string) :
  ~ has_section "Chronicle config" file ->
  for_in ChronicleOlder.body file ChronicleOlder.init = ChronicleOlder.init.
Proof.
  intros H. apply for_in_fixed. intros x Hx. unfold ChronicleOlder.body. simpl.
  destruct (String.eqb_spec (Str.rstrip x) "Chronicle config") as [E|E]; [|reflexivity].
  exfalso. apply H. now exists x.
Qed.

Lemma ns_config_no_section (file : list string) :
  ~ has_section "Couchbase config" file ->
  for_inM NsConfig.body file NsConfig.init = ret NsConfig.init.
Proof.
  intros H. apply for_inM_fixed. intros x Hx. unfold NsConfig.body. simpl.
  rewrite rstrip_idempotent.
  destruct (String.eqb_spec (Str.rstrip x) "Couchbase config") as [E|E]; [|reflexivity].
  exfalso. apply H. now exists x.
Qed.

(** ** [parse_couchbase_log] *)

Lemma parse_couchbase_log_run (w : world) (dir : string)
    (c1 c2 c3 : config) (l1 l2 l3 : list log_record) :
  parse_couchbase_chronicle w dir = (Ok c1, l1) ->
  parse_couchbase_chronicle_older_version w dir = (Ok c2, l2) ->
  parse_couchbase_ns_config w dir = (Ok c3, l3) ->
  parse_couchbase_log w dir =
    if negb (is_nil (buckets c1)) then (Ok c1, l1)
    else if negb (is_nil (buckets c2)) then (Ok c2, l1 ++ l2)
    else (Ok c3, l1 ++ l2 ++ l3).
Proof.
  intros H1 H2 H3. unfold parse_couchbase_log. rewrite H1. simpl.
  destruct (is_nil (buckets c1)); simpl.
  - rewrite H2. simpl. destruct (is_nil (buckets c2)); simpl.
    + rewrite H3. simpl. now rewrite !app_nil_r.
    + now rewrite !app_nil_r.
  - now rewrite app_nil_r.
Qed.

Lemma parsers_return (w : world) (dir : string) (file : list string) :
  open_lines w dir "couchbase.log" = Some file ->
  exists c1 l1 c2 l2 c3 l3,
    parse_couchbase_chronicle w dir = (Ok c1, l1) /\
    parse_couchbase_chronicle_older_version w dir = (Ok c2, l2) /\
    parse_couchbase_ns_config w dir = (Ok c3, l3) /\
    is_sorted (buckets c1) /\ is_sorted (buckets c2) /\ is_sorted (buckets c3) /\
    (~ has_section "Chronicle dump" file -> buckets c1 = []) /\
    (~ has_section "Chronicle config" file -> buckets c2 = []) /\
    (~ has_section "Couchbase config" file -> buckets c3 = []).
Proof.
  intros H.
  destruct (parse_couchbase_ns_config_run w dir file H) as (st & l & Hl & H3).
  do 6 eexists.
  split; [exact (parse_couchbase_chronicle_run w dir file H)|].
  split; [exact (parse_couchbase_chronicle_older_version_run w dir file H)|].
  split; [exact H3|]. simpl.
  repeat split; try apply sorted_is_sorted; intros Hno.
  - now rewrite (chronicle_no_section file Hno).
  - now rewrite (chronicle_older_no_section file Hno).
  - rewrite (ns_config_no_section file Hno) in Hl. injection Hl as <- _. reflexivity.
Qed.

Lemma no_section_of_nil (header : string) : ~ has_section header [].
Proof. intros (x & [] & _). Qed.

(** C1: for every configuration dump, [parse_couchbase_log] runs the
    Chronicle-dump parser, then the Chronicle-config parser, then the
    ns_config parser, stops at the first whose bucket list is not empty and
    returns its result (the log shows which parsers ran); a dump with none
    of the three sections gives the empty bucket list, not an error. *)
Theorem parse_couchbase_log_first_non_empty
    (w : world) (dir : string) (file : list string) :
  open_lines w dir "couchbase.log" = Some file ->
  exists c1 l1 c2 l2 c3 l3,
    parse_couchbase_chronicle w dir = (Ok c1, l1) /\
    parse_couchbase_chronicle_older_version w dir = (Ok c2, l2) /\
    parse_couchbase_ns_config w dir = (Ok c3, l3) /\
    parse_couchbase_log w dir =
      (if negb (is_nil (buckets c1)) then (Ok c1, l1)
       else if negb (is_nil (buckets c2)) then (Ok c2, l1 ++ l2)
       else (Ok c3, l1 ++ l2 ++ l3)) /\
    (~ has_section "Chronicle dump" file ->
     ~ has_section "Chronicle config" file ->
     ~ has_section "Couchbase config" file ->
     parse_couchbase_log w dir = (Ok (Config []), l1 ++ l2 ++ l3)).
Proof.
  intros H.
  destruct (parsers_return w dir file H)
    as (c1 & l1 & c2 & l2 & c3 & l3 & H1 & H2 & H3 & _ & _ & _ & E1 & E2 & E3).
  exists c1, l1, c2, l2, c3, l3.
  pose proof (parse_couchbase_log_run w dir c1 c2 c3 l1 l2 l3 H1 H2 H3) as Hrun.
  repeat split; try assumption.
  intros N1 N2 N3. rewrite Hrun, (E1 N1), (E2 N2). simpl.
  destruct c3 as [b3]. simpl in E3. now rewrite (E3 N3).
Qed.

(** C8: the bucket list of each of the three parsers, and so the one of
    [parse_couchbase_log], is sorted; the empty list is a result like any
    other (an empty dump gives it), not an error. *)
Theorem bucket_lists_sorted (w : world) (dir : string) (file : list string) :
  open_lines w dir "couchbase.log" = Some file ->
  exists c1 l1 c2 l2 c3 l3 c l,
    parse_couchbase_chronicle w dir = (Ok c1, l1) /\ is_sorted (buckets c1) /\
    parse_couchbase_chronicle_older_version w dir = (Ok c2, l2) /\
    is_sorted (buckets c2) /\
    parse_couchbase_ns_config w dir = (Ok c3, l3) /\ is_sorted (buckets c3) /\
    parse_couchbase_log w dir = (Ok c, l) /\ is_sorted (buckets c) /\
    (file = [] ->
     buckets c1 = [] /\ buckets c2 = [] /\ buckets c3 = [] /\ buckets c = []).
Proof.
  intros H.
  destruct (parsers_return w dir file H)
    as (c1 & l1 & c2 & l2 & c3 & l3 & H1 & H2 & H3 & S1 & S2 & S3 & E1 & E2 & E3).
  pose proof (parse_couchbase_log_run w dir c1 c2 c3 l1 l2 l3 H1 H2 H3) as Hrun.
  exists c1, l1, c2, l2, c3, l3.
  assert (Hc : exists c l, parse_couchbase_log w dir = (Ok c, l) /\
                           is_sorted (buckets c) /\
                           (buckets c1 = [] -> buckets c2 = [] -> c = c3)).
  { rewrite Hrun.
    destruct (buckets c1) eqn:B1; simpl;
      [destruct (buckets c2) eqn:B2; simpl|];
      do 2 eexists; (split; [reflexivity|]); split;
        solve [assumption | congruence | reflexivity]. }
  destruct Hc as (c & l & Hc & Sc & Ec).
  exists c, l. repeat split; try assumption.
  - subst file. apply E1, no_section_of_nil.
  - subst file. apply E2, no_section_of_nil.
  - subst file. apply E3, no_section_of_nil.
  - subst file. rewrite Ec.
    + apply E3, no_section_of_nil.
    + apply E1, no_section_of_nil.
    + apply E2, no_section_of_nil.
Qed.

(** The theorem on a file that has none of the three sections. *)
Lemma parse_couchbase_log_first_non_empty_witness :
  open_lines (world_of_file no_section) "collect" "couchbase.log" = Some no_section /\
  exists c1 l1 c2 l2 c3 l3,
    parse_couchbase_chronicle (world_of_file no_section) "collect" = (Ok c1, l1) /\
    parse_couchbase_chronicle_older_version (world_of_file no_section) "collect"
      = (Ok c2, l2) /\
    parse_couchbase_ns_config (world_of_file no_section) "collect" = (Ok c3, l3) /\
    parse_couchbase_log (world_of_file no_section) "collect" =
      (if negb (is_nil (buckets c1)) then (Ok c1, l1)
       else if negb (is_nil (buckets c2)) then (Ok c2, l1 ++ l2)
       else (Ok c3, l1 ++ l2 ++ l3)) /\
    (~ has_section "Chronicle dump" no_section ->
     ~ has_section "Chronicle config" no_section ->
     ~ has_section "Couchbase config" no_section ->
     parse_couchbase_log (world_of_file no_section) "collect"
       = (Ok (Config []), l1 ++ l2 ++ l3)).
Proof.
  split; [reflexivity|].
  apply (parse_couchbase_log_first_non_empty
           (world_of_file no_section) "collect" no_section).
  reflexivity.
Defined.

(** The theorem on a Chronicle dump naming two buckets. *)
Lemma bucket_lists_sorted_witness :
  open_lines (world_of_file chronicle_dump_one_line) "collect" "couchbase.log"
    = Some chronicle_dump_one_line /\
  exists c1 l1 c2 l2 c3 l3 c l,
    parse_couchbase_chronicle (world_of_file chronicle_dump_one_line) "collect"
      = (Ok c1, l1) /\ is_sorted (buckets c1) /\
    parse_couchbase_chronicle_older_version
      (world_of_file chronicle_dump_one_line) "collect" = (Ok c2, l2) /\
    is_sorted (buckets c2) /\
    parse_couchbase_ns_config (world_of_file chronicle_dump_one_line) "collect"
      = (Ok c3, l3) /\ is_sorted (buckets c3) /\
    parse_couchbase_log (world_of_file chronicle_dump_one_line) "collect"
      = (Ok c, l) /\ is_sorted (buckets c) /\
    (chronicle_dump_one_line = [] ->
     buckets c1 = [] /\ buckets c2 = [] /\ buckets c3 = [] /\ buckets c = []).
Proof.
  split; [reflexivity|].
  apply (bucket_lists_sorted
           (world_of_file chronicle_dump_one_line) "collect" chronicle_dump_one_line).
  reflexivity.
Defined.

(** The fixtures, run. *)

Example chronicle_dump_one_line_parsed :
  fst (parse_couchbase_log (world_of_file chronicle_dump_one_line) "collect")
  = Ok (Config ["b1"; "b2"]).
Proof. reflexivity. Qed.

Example chronicle_config_two_lines_parsed :
  fst (parse_couchbase_log (world_of_file chronicle_config_two_lines) "collect")
  = Ok (Config ["b1"; "b2"]).
Proof. reflexivity. Qed.

Example no_section_parsed :
  fst (parse_couchbase_log (world_of_file no_section) "collect") = Ok (Config []).
Proof. reflexivity. Qed.

(** C3: a Chronicle dump whose list of bucket names is on two lines, the
    first holding b1 and the second b2 and the closing bracket:
    [parse_couchbase_chronicle] returns b2 alone, the bucket of the first
    line is lost (the body of the loop empties [bucket_list] at every line
    of the section); the older parser, on the same list in its own section,
    returns both. *)
Theorem parse_couchbase_chronicle_keeps_last_line_only :
  fst (parse_couchbase_chronicle (world_of_file chronicle_dump_two_lines) "collect")
    = Ok (Config ["b2"]) /\
  fst (parse_couchbase_chronicle_older_version
         (world_of_file chronicle_config_two_lines) "collect")
    = Ok (Config ["b1"; "b2"]).
Proof. split; reflexivity. Qed.

(** ** Names of data sources *)

Lemma try_get_data_source_names_Some
    (dirs : list string) (pattern : list Re.item) (fmt : list CBCollect.piece)
    (names : list string) :
  CBCollect.try_get_data_source_names dirs pattern fmt = Some names ->
  names = map (CBCollect.data_source_name pattern fmt) dirs /\ NoDup names.
Proof.
  unfold CBCollect.try_get_data_source_names.
  destruct (Nat.eqb_spec
              (List.length (set_ (map (CBCollect.data_source_name pattern fmt) dirs)))
              (List.length (map (CBCollect.data_source_name pattern fmt) dirs)))
    as [E|E]; [|discriminate].
  intros [= <-]. split; [reflexivity|]. now apply set_same_length_NoDup.
Qed.

Lemma first_result_spec (dirs : list string) (fmts : list (list CBCollect.piece)) :
  CBCollect.first_result dirs fmts = dirs \/
  exists fmt, In fmt fmts /\
    CBCollect.first_result dirs fmts
      = map (CBCollect.data_source_name CBCollect.regex fmt) dirs /\
    NoDup (CBCollect.first_result dirs fmts).
Proof.
  induction fmts as [|fmt fmts IH]; simpl; [now left|].
  destruct (CBCollect.try_get_data_source_names dirs CBCollect.regex fmt)
    as [[|name names]|] eqn:E.
  - destruct IH as [IH|(f & Hf & IH)]; [now left|right]. exists f. split; [now right|exact IH].
  - apply try_get_data_source_names_Some in E. destruct E as [E N].
    right. exists fmt. split; [now left|]. now split.
  - destruct IH as [IH|(f & Hf & IH)]; [now left|right]. exists f. split; [now right|exact IH].
Qed.

(** C2: on a list of directory names without duplicates,
    [get_data_source_names] returns a list of the same length and without
    duplicates, whose i-th name is the name of the i-th directory: the
    directory itself, or what one of the four formats makes of it (the same
    format for the whole list). *)
Theorem get_data_source_names_unique (cbcollect_dirs : list string) :
  NoDup cbcollect_dirs ->
  let names := CBCollect.get_data_source_names cbcollect_dirs in
  List.length names = List.length cbcollect_dirs /\
  NoDup names /\
  (names = cbcollect_dirs \/
   exists fmt, In fmt CBCollect.formats /\
     names = map (CBCollect.data_source_name CBCollect.regex fmt) cbcollect_dirs) /\
  (forall i dir, nth_error cbcollect_dirs i = Some dir ->
     exists name, nth_error names i = Some name /\
       (name = dir \/
        exists fmt groups, In fmt CBCollect.formats /\
          Re.match_ CBCollect.regex dir = Some groups /\
          name = CBCollect.format fmt groups)).
Proof.
  intros Hdirs names. subst names. unfold CBCollect.get_data_source_names.
  destruct (first_result_spec cbcollect_dirs CBCollect.formats)
    as [E|(fmt & Hfmt & E & N)].
  - rewrite E. repeat split; [assumption|now left|].
    intros i dir Hi. exists dir. split; [assumption|now left].
  - rewrite E in *. repeat split.
    + apply length_map.
    + assumption.
    + right. now exists fmt.
    + intros i dir Hi. exists (CBCollect.data_source_name CBCollect.regex fmt dir).
      split; [now apply map_nth_error|].
      unfold CBCollect.data_source_name.
      destruct (Re.match_ CBCollect.regex dir) as [groups|] eqn:M; [right|now left].
      now exists fmt, groups.
Qed.

(** The theorem on two collections of one node, taken at different times. *)
Lemma get_data_source_names_unique_witness :
  NoDup ["cbcollect_info_ns_1@nodeA_100-200"; "cbcollect_info_ns_1@nodeA_100-300"] /\
  let cbcollect_dirs :=
    ["cbcollect_info_ns_1@nodeA_100-200"; "cbcollect_info_ns_1@nodeA_100-300"] in
  let names := CBCollect.get_data_source_names cbcollect_dirs in
  List.length names = List.length cbcollect_dirs /\
  NoDup names /\
  (names = cbcollect_dirs \/
   exists fmt, In fmt CBCollect.formats /\
     names = map (CBCollect.data_source_name CBCollect.regex fmt) cbcollect_dirs) /\
  (forall i dir, nth_error cbcollect_dirs i = Some dir ->
     exists name, nth_error names i = Some name /\
       (name = dir \/
        exists fmt groups, In fmt CBCollect.formats /\
          Re.match_ CBCollect.regex dir = Some groups /\
          name = CBCollect.format fmt groups)).
Proof.
  assert (N : NoDup ["cbcollect_info_ns_1@nodeA_100-200";
                     "cbcollect_info_ns_1@nodeA_100-300"]).
  { repeat constructor; simpl; intuition discriminate. }
  split; [exact N|].
  exact (get_data_source_names_unique _ N).
Defined.

(** C7, as the claim has it: on the two names of the claim the pattern does
    not match (they do not start with [cbcollect_info_ns_]), so the first
    format already gives two distinct names, the directory names
    themselves, and these are returned; the names [node-1@nodeA] and
    [node-2@nodeA] are not. *)
Lemma cb_ns_names_returned_unchanged :
  let dirs := ["cb_ns_1@nodeA_100-200"; "cb_ns_2@nodeA_100-200"] in
  Re.match_ CBCollect.regex "cb_ns_1@nodeA_100-200" = None /\
  CBCollect.try_get_data_source_names dirs CBCollect.regex [CBCollect.Field 1]
    = Some dirs /\
  CBCollect.get_data_source_names dirs = dirs /\
  CBCollect.get_data_source_names dirs <> ["node-1@nodeA"; "node-2@nodeA"].
Proof. repeat split; try reflexivity. discriminate. Qed.

(** C7, amended: on the names [cbcollect_info_ns_1@nodeA_100-200] and
    [cbcollect_info_ns_2@nodeA_100-200] the first format gives both
    directories the name [nodeA] and is not selected; the second format is,
    and the names returned are [ns_1@nodeA] and [ns_2@nodeA], which are
    distinct. *)
Theorem same_host_names_use_second_format :
  let dirs := ["cbcollect_info_ns_1@nodeA_100-200";
               "cbcollect_info_ns_2@nodeA_100-200"] in
  map (CBCollect.data_source_name CBCollect.regex [CBCollect.Field 1]) dirs
    = ["nodeA"; "nodeA"] /\
  CBCollect.try_get_data_source_names dirs CBCollect.regex [CBCollect.Field 1]
    = None /\
  nth_error CBCollect.formats 1
    = Some [CBCollect.Text "ns_"; CBCollect.Field 0; CBCollect.Text "@";
            CBCollect.Field 1] /\
  CBCollect.try_get_data_source_names dirs CBCollect.regex
      [CBCollect.Text "ns_"; CBCollect.Field 0; CBCollect.Text "@"; CBCollect.Field 1]
    = Some ["ns_1@nodeA"; "ns_2@nodeA"] /\
  CBCollect.get_data_source_names dirs = ["ns_1@nodeA"; "ns_2@nodeA"] /\
  NoDup (CBCollect.get_data_source_names dirs).
Proof.
  repeat split; try reflexivity.
  repeat constructor; simpl; intuition discriminate.
Qed.

(** ** Python [float]: the order [<] *)

Lemma SFltb_irrefl (x : spec_float) : SFltb x x = false.
Proof.
  unfold SFltb, SFcompare.
  destruct x as [s|s| |s m e]; try destruct s; try reflexivity;
    rewrite Z.compare_refl; change (Pos.compare_cont Eq m m) with (Pos.compare m m);
    now rewrite Pos.compare_refl.
Qed.

Lemma SFltb_trans (x y z : spec_float) :
  SFltb x y = true -> SFltb y z = true -> SFltb x z = true.
Proof.
  unfold SFltb, SFcompare.
  destruct x as [sx|sx| |sx mx ex]; destruct y as [sy|sy| |sy my ey];
    destruct z as [sz|sz| |sz mz ez];
    try destruct sx; try destruct sy; try destruct sz;
    try discriminate; try reflexivity;
    change (Pos.compare_cont Eq mx my) with (Pos.compare mx my);
    change (Pos.compare_cont Eq my mz) with (Pos.compare my mz);
    change (Pos.compare_cont Eq mx mz) with (Pos.compare mx mz);
    destruct (Z.compare_spec ex ey); destruct (Z.compare_spec ey ez);
    destruct (Z.compare_spec ex ez); try discriminate; try reflexivity; try lia;
    destruct (Pos.compare_spec mx my); destruct (Pos.compare_spec my mz);
    destruct (Pos.compare_spec mx mz); simpl; try discriminate; try reflexivity;
    lia.
Qed.

Lemma float_ltb_irrefl (x : float) : (x <? x)%float = false.
Proof. rewrite FloatAxioms.ltb_spec. apply SFltb_irrefl. Qed.

Lemma float_ltb_trans (x y z : float) :
  (x <? y)%float = true -> (y <? z)%float = true -> (x <? z)%float = true.
Proof. rewrite !FloatAxioms.ltb_spec. apply SFltb_trans. Qed.

(** ** [min] and [max] *)

Section MinMax.

Variable op : float -> float -> bool.
Hypothesis op_irrefl : forall x, op x x = false.
Hypothesis op_trans : forall x y z, op x y = true -> op y z = true -> op x z = true.

Let keep (maxitem item : float) : float := if op item maxitem then item else maxitem.

Lemma keep_least (l : list float) (x : float) :
  fold_left keep l x = x \/ op (fold_left keep l x) x = true.
Proof.
  revert x. induction l as [|y l IH]; intros x; simpl; [now left|].
  replace (keep x y) with (if op y x then y else x) by reflexivity.
  destruct (op y x) eqn:E.
  - destruct (IH y) as [-> | H]; right; [assumption|]. now apply (op_trans _ y).
  - apply IH.
Qed.

Lemma keep_in (l : list float) (x : float) : In (fold_left keep l x) (x :: l).
Proof.
  revert x. induction l as [|y l IH]; intros x; simpl; [now left|].
  replace (keep x y) with (if op y x then y else x) by reflexivity.
  destruct (op y x).
  - right. apply IH.
  - destruct (IH x) as [H|H]; [now left|right; now right].
Qed.

Lemma keep_none_below (l : list float) (x y : float) :
  In y (x :: l) -> op y (fold_left keep l x) = false.
Proof.
  revert x. induction l as [|z l IH]; intros x Hy.
  - destruct Hy as [<- | []]. apply op_irrefl.
  - simpl. replace (keep x z) with (if op z x then z else x) by reflexivity.
    assert (Hstep : forall u v, op u v = false ->
              op u (fold_left keep l v) = false).
    { intros u v Huv. destruct (keep_least l v) as [-> | H]; [assumption|].
      destruct (op u (fold_left keep l v)) eqn:E; [|reflexivity].
      rewrite (op_trans _ _ _ E H) in Huv. discriminate. }
    destruct (op z x) eqn:E.
    + destruct Hy as [<- | [<- | Hy]].
      * apply Hstep. destruct (op x z) eqn:E'; [|reflexivity].
        rewrite <- (op_irrefl z). symmetry. now apply (op_trans _ x).
      * apply Hstep, op_irrefl.
      * apply IH. now right.
    + destruct Hy as [<- | [<- | Hy]].
      * apply Hstep, op_irrefl.
      * now apply Hstep.
      * apply IH. now right.
Qed.

Lemma min_max_spec (name : string) (l : list float) :
  l <> [] ->
  exists r, min_max name op l = (Ok r, []) /\ In r l /\
            forall y, In y l -> op y r = false.
Proof.
  destruct l as [|x l]; [congruence|]. intros _.
  exists (fold_left keep l x). split; [reflexivity|]. split.
  - apply keep_in.
  - intros y. apply keep_none_below.
Qed.

End MinMax.

Lemma min_spec (l : list float) :
  l <> [] ->
  exists r, min_ l = (Ok r, []) /\ In r l /\ forall y, In y l -> (y <? r)%float = false.
Proof.
  apply min_max_spec.
  - apply float_ltb_irrefl.
  - apply float_ltb_trans.
Qed.

Lemma max_spec (l : list float) :
  l <> [] ->
  exists r, max_ l = (Ok r, []) /\ In r l /\ forall y, In y l -> (r <? y)%float = false.
Proof.
  apply (min_max_spec (fun a b => (b <? a)%float)).
  - apply float_ltb_irrefl.
  - intros x y z H1 H2. now apply (float_ltb_trans z y x).
Qed.

(** ** [get_prometheus_times] *)

Lemma float_of_int_63 (z : Z) :
  (Z.abs z < 2 ^ 63)%Z -> float_of_int z = ret (float_of_word z).
Proof.
  intros H. unfold float_of_int. now rewrite (proj2 (Z.ltb_lt _ _) H).
Qed.

Lemma truediv_1000_63 (z : Z) :
  (Z.abs z < 2 ^ 63)%Z -> truediv_1000 (PyInt z) = ret (seconds z).
Proof. intros H. unfold truediv_1000. now rewrite (float_of_int_63 z H). Qed.

Arguments truediv_1000 : simpl never.

Lemma meta_loop_run (w : world) (files : list string) (shards : list (Z * Z)) :
  Forall2 (fun f s => shard_meta w f (fst s) (snd s)) files shards ->
  forall mins maxs, exists l,
    for_inM (read_meta w) files (mins, maxs)
    = (Ok (mins ++ map (fun s => seconds (fst s)) shards,
           maxs ++ map (fun s => seconds (snd s)) shards), l).
Proof.
  induction 1 as [|f [lo hi] files shards (d & l0 & Hload & Hlo & Hhi & Rlo & Rhi) _ IH];
    intros mins maxs; simpl.
  - exists []. now rewrite !app_nil_r.
  - rewrite Hload. simpl. rewrite Hlo, Hhi. simpl.
    rewrite (truediv_1000_63 lo Rlo), (truediv_1000_63 hi Rhi). simpl.
    destruct (IH (mins ++ [seconds lo]) (maxs ++ [seconds hi])) as (l & ->).
    eexists. rewrite <- !app_assoc. reflexivity.
Qed.

(** C5: when the snapshot has at least one metadata file and each holds
    [minTime] and [maxTime] in milliseconds, [get_prometheus_times] returns
    a pair of seconds: its first component is the [minTime] of a shard, in
    seconds, and no shard has a smaller one; its second component is the
    [maxTime] of a shard, in seconds, and no shard has a greater one.  For
    the two shards (1000, 5000) and (2000, 9000) the pair is (1.0, 9.0). *)
Theorem get_prometheus_times_min_of_mins_max_of_maxes :
  (forall (w : world) (cbcollect_dir : string) (shards : list (Z * Z)),
     shards <> [] ->
     Forall2 (fun meta_file s => shard_meta w meta_file (fst s) (snd s))
             (glob_meta_json w cbcollect_dir) shards ->
     exists tmin tmax l,
       get_prometheus_times w cbcollect_dir = (Ok (tmin, tmax), l) /\
       In tmin (map (fun s => seconds (fst s)) shards) /\
       (forall s, In s shards -> (seconds (fst s) <? tmin)%float = false) /\
       In tmax (map (fun s => seconds (snd s)) shards) /\
       (forall s, In s shards -> (tmax <? seconds (snd s))%float = false)) /\
  get_prometheus_times two_shards "collect" = (Ok (1%float, 9%float), []).
Proof.
  split; [|reflexivity].
  intros w dir shards Hne Hmeta. unfold get_prometheus_times.
  destruct (meta_loop_run w _ shards Hmeta [] []) as (l & ->). simpl.
  assert (Hmin : map (fun s => seconds (fst s)) shards <> [])
    by (destruct shards; [congruence|discriminate]).
  assert (Hmax : map (fun s => seconds (snd s)) shards <> [])
    by (destruct shards; [congruence|discriminate]).
  destruct (min_spec _ Hmin) as (tmin & -> & Imin & Lmin).
  destruct (max_spec _ Hmax) as (tmax & -> & Imax & Lmax). simpl.
  exists tmin, tmax. eexists. split; [reflexivity|].
  repeat split; try assumption.
  - intros s Hs. apply Lmin. now apply (in_map (fun s => seconds (fst s))).
  - intros s Hs. apply Lmax. now apply (in_map (fun s => seconds (snd s))).
Qed.

(** The first part of the theorem on the snapshot of two shards. *)
Lemma get_prometheus_times_two_shards_witness :
  [(1000, 5000); (2000, 9000)]%Z <> [] /\
  Forall2 (fun meta_file s => shard_meta two_shards meta_file (fst s) (snd s))
          (glob_meta_json two_shards "collect") [(1000, 5000); (2000, 9000)]%Z /\
  exists tmin tmax l,
    get_prometheus_times two_shards "collect" = (Ok (tmin, tmax), l) /\
    In tmin (map (fun s => seconds (fst s)) [(1000, 5000); (2000, 9000)]%Z) /\
    (forall s, In s [(1000, 5000); (2000, 9000)]%Z ->
               (seconds (fst s) <? tmin)%float = false) /\
    In tmax (map (fun s => seconds (snd s)) [(1000, 5000); (2000, 9000)]%Z) /\
    (forall s, In s [(1000, 5000); (2000, 9000)]%Z ->
               (tmax <? seconds (snd s))%float = false).
Proof.
  assert (H1 : [(1000, 5000); (2000, 9000)]%Z <> []) by discriminate.
  assert (H2 : Forall2
                 (fun meta_file s => shard_meta two_shards meta_file (fst s) (snd s))
                 (glob_meta_json two_shards "collect")
                 [(1000, 5000); (2000, 9000)]%Z).
  { repeat constructor; unfold shard_meta; simpl; do 2 eexists;
      (split; [reflexivity|]); (split; [reflexivity|]); (split; [reflexivity|]);
      split; reflexivity. }
  split; [exact H1|]. split; [exact H2|].
  exact (proj1 get_prometheus_times_min_of_mins_max_of_maxes
               two_shards "collect" _ H1 H2).
Defined.

(** C6: a snapshot without metadata files: [get_prometheus_times] ends in
    the [ValueError] that [min] raises on an empty list; nothing handles
    it, and [get_min_and_max_times] and [compute_min_and_max_times] end in
    the same exception. *)
Theorem get_prometheus_times_no_metadata_raises
    (w : world) (cbcollect_dir short_name : string) (port : Z) :
  glob_meta_json w cbcollect_dir = [] ->
  let e := Exn ValueError "min() arg is an empty sequence" in
  get_prometheus_times w cbcollect_dir = (Raise e, []) /\
  CBCollect.get_min_and_max_times
    w (CBCollect.__init__ cbcollect_dir short_name port) = (Raise e, []) /\
  compute_min_and_max_times
    w [OfCBCollect (CBCollect.__init__ cbcollect_dir short_name port)]
    = (Raise e, []).
Proof.
  intros H e.
  assert (G : get_prometheus_times w cbcollect_dir = (Raise e, [])).
  { unfold get_prometheus_times. rewrite H. reflexivity. }
  repeat split.
  - exact G.
  - exact G.
  - unfold compute_min_and_max_times. simpl.
    unfold CBCollect.get_min_and_max_times. simpl. rewrite G. reflexivity.
Qed.

(** The theorem on a snapshot without shards. *)
Lemma get_prometheus_times_no_metadata_raises_witness :
  glob_meta_json (world_of_file []) "collect" = [] /\
  get_prometheus_times (world_of_file []) "collect"
    = (Raise (Exn ValueError "min() arg is an empty sequence"), []) /\
  CBCollect.get_min_and_max_times
    (world_of_file []) (CBCollect.__init__ "collect" "nodeA" 9090)
    = (Raise (Exn ValueError "min() arg is an empty sequence"), []) /\
  compute_min_and_max_times
    (world_of_file []) [OfCBCollect (CBCollect.__init__ "collect" "nodeA" 9090)]
    = (Raise (Exn ValueError "min() arg is an empty sequence"), []).
Proof.
  split; [reflexivity|].
  exact (get_prometheus_times_no_metadata_raises
           (world_of_file []) "collect" "nodeA" 9090 eq_refl).
Defined.

(** ** [CBCollect.get_buckets]: the parsed configuration is kept *)

Lemma parse_couchbase_log_returns (w : world) (dir : string) (file : list string) :
  open_lines w dir "couchbase.log" = Some file ->
  exists config l, parse_couchbase_log w dir = (Ok config, l).
Proof.
  intros H.
  destruct (parsers_return w dir file H)
    as (c1 & l1 & c2 & l2 & c3 & l3 & H1 & H2 & H3 & _).
  rewrite (parse_couchbase_log_run w dir c1 c2 c3 l1 l2 l3 H1 H2 H3).
  destruct (negb (is_nil (buckets c1))); [eauto|].
  destruct (negb (is_nil (buckets c2))); eauto.
Qed.

Lemma get_buckets_cached (w : world) (self : CBCollect.t) (config : config) :
  CBCollect._config self = Some config ->
  CBCollect.get_buckets w self = (Ok (buckets config, self), []).
Proof. intros H. unfold CBCollect.get_buckets. now rewrite H. Qed.

Lemma get_buckets_calls_cached (ws : list world) (self : CBCollect.t) (config : config) :
  CBCollect._config self = Some config ->
  get_buckets_calls ws self
    = (Ok (repeat (buckets config) (List.length ws), self), []).
Proof.
  intros H. induction ws as [|w ws IH]; simpl; [reflexivity|].
  rewrite (get_buckets_cached w self config H). simpl. rewrite IH. reflexivity.
Qed.

(** C9: the configuration dump of a source is parsed at most once.  On a
    new source whose dump can be opened, the first [get_buckets] runs
    [parse_couchbase_log] and keeps its result, also when the bucket list
    is empty; every later call, whatever has become of the files, returns
    the bucket list kept, leaves the object as it is and logs nothing, so
    the log of all the calls is the log of the one run of the parser. *)
Theorem get_buckets_parses_once
    (w : world) (cbcollect_dir short_name : string) (port : Z) (file : list string) :
  open_lines w cbcollect_dir "couchbase.log" = Some file ->
  exists config l,
    parse_couchbase_log w cbcollect_dir = (Ok config, l) /\
    let self := CBCollect.__init__ cbcollect_dir short_name port in
    let self' := CBCollect.Make port short_name cbcollect_dir (Some config) in
    CBCollect.get_buckets w self = (Ok (buckets config, self'), l) /\
    (forall w', CBCollect.get_buckets w' self' = (Ok (buckets config, self'), [])) /\
    (forall ws, get_buckets_calls (w :: ws) self
                = (Ok (repeat (buckets config) (S (List.length ws)), self'), l)).
Proof.
  intros H. destruct (parse_couchbase_log_returns w _ file H) as (config & l & Hp).
  exists config, l. split; [assumption|]. intros self self'.
  assert (First : CBCollect.get_buckets w self = (Ok (buckets config, self'), l)).
  { unfold CBCollect.get_buckets. simpl. rewrite Hp. simpl. now rewrite app_nil_r. }
  split; [|split].
  - exact First.
  - intros w'. now apply get_buckets_cached.
  - intros ws. simpl. rewrite First. simpl.
    rewrite (get_buckets_calls_cached ws self' config eq_refl). simpl.
    now rewrite !app_nil_r.
Qed.

(** The theorem on a source whose dump has no buckets. *)
Lemma get_buckets_parses_once_witness :
  open_lines (world_of_file no_section) "collect" "couchbase.log" = Some no_section /\
  exists config l,
    parse_couchbase_log (world_of_file no_section) "collect" = (Ok config, l) /\
    CBCollect.get_buckets (world_of_file no_section)
        (CBCollect.__init__ "collect" "nodeA" 9090)
      = (Ok (buckets config, CBCollect.Make 9090 "nodeA" "collect" (Some config)), l) /\
    (forall w', CBCollect.get_buckets w'
                  (CBCollect.Make 9090 "nodeA" "collect" (Some config))
                = (Ok (buckets config,
                       CBCollect.Make 9090 "nodeA" "collect" (Some config)), [])) /\
    (forall ws, get_buckets_calls (world_of_file no_section :: ws)
                  (CBCollect.__init__ "collect" "nodeA" 9090)
                = (Ok (repeat (buckets config) (S (List.length ws)),
                       CBCollect.Make 9090 "nodeA" "collect" (Some config)), l)).
Proof.
  split; [reflexivity|].
  exact (get_buckets_parses_once
           (world_of_file no_section) "collect" "nodeA" 9090 no_section eq_refl).
Defined.

(** An empty bucket list is kept like any other: the second call does not
    see the buckets that the dump has by then. *)
Example empty_bucket_list_is_kept :
  fst (get_buckets_calls
         [world_of_file no_section; world_of_file chronicle_dump_one_line]
         (CBCollect.__init__ "collect" "nodeA" 9090))
  = Ok ([[]; []],
        CBCollect.Make 9090 "nodeA" "collect" (Some (Config []))).
Proof. reflexivity. Qed.

(** ** [ServerNode] *)

(** C4: when the request for the buckets fails, [ServerNode.get_buckets]
    ends in the exception of the request: it logs nothing of its own and
    returns no list.  [ServerNode.get_stats_sources], whose request is
    inside [try ... except OSError], logs the error and returns the empty
    list on the same failure. *)
Theorem get_buckets_request_failure_propagates
    (w : world) (self : ServerNode.t) (e : exn) (l : list log_record) :
  request_json w (ServerNode.host self) (Some (ServerNode.port self))
    "pools/default/buckets" (ServerNode._user self) (ServerNode._password self)
    = (Raise e, l) ->
  ServerNode.get_buckets w self = (Raise e, l).
Proof. intros H. unfold ServerNode.get_buckets. rewrite H. reflexivity. Qed.

(** The theorem on a node of a cluster that refuses the connection. *)
Lemma get_buckets_request_failure_propagates_witness :
  request_json (world_of_file [])
    (ServerNode.host (ServerNode.__init__ (PyStr "10.0.0.1") (PyInt 8091)
                                          (PyStr "admin") (PyStr "secret")))
    (Some (ServerNode.port (ServerNode.__init__ (PyStr "10.0.0.1") (PyInt 8091)
                                                (PyStr "admin") (PyStr "secret"))))
    "pools/default/buckets"
    (ServerNode._user (ServerNode.__init__ (PyStr "10.0.0.1") (PyInt 8091)
                                           (PyStr "admin") (PyStr "secret")))
    (ServerNode._password (ServerNode.__init__ (PyStr "10.0.0.1") (PyInt 8091)
                                               (PyStr "admin") (PyStr "secret")))
    = (Raise (Exn URLError "Connection refused"), []) /\
  ServerNode.get_buckets (world_of_file [])
    (ServerNode.__init__ (PyStr "10.0.0.1") (PyInt 8091) (PyStr "admin") (PyStr "secret"))
    = (Raise (Exn URLError "Connection refused"), []).
Proof.
  split; [reflexivity|].
  exact (get_buckets_request_failure_propagates (world_of_file []) _ _ _ eq_refl).
Defined.

Example get_stats_sources_request_failure_handled :
  ServerNode.get_stats_sources (world_of_file [])
    (PyStr "10.0.0.1:8091") (PyStr "admin") (PyStr "secret")
  = (Ok [], [Log ERROR "error: can't access cluster: {}"
                 [AExn (Exn URLError "Connection refused")]]).
Proof. reflexivity. Qed.

Lemma nodes_loop_run (user password : pyval) (entries : list pyval) :
  Forall has_mgmt_port entries ->
  forall acc, exists sources,
    for_inM (ServerNode.add_node user password) entries acc
    = (Ok (acc ++ sources), []) /\
    Forall2 (fun node source =>
               exists nd sd port,
                 node = PyDict nd /\ lookup "services" nd = Some (PyDict sd) /\
                 lookup "mgmt" sd = Some port /\
                 source = ServerNode.__init__ (host_of_entry nd) port user password)
            entries sources.
Proof.
  induction 1 as [|node entries (nd & sd & port & -> & Hs & Hm) _ IH]; intros acc.
  - exists []. simpl. rewrite app_nil_r. split; [reflexivity|constructor].
  - destruct (IH (acc ++ [ServerNode.__init__ (host_of_entry nd) port user password]))
      as (sources & Hrun & Hall).
    exists (ServerNode.__init__ (host_of_entry nd) port user password :: sources).
    split.
    + simpl. unfold ServerNode.add_node at 1. simpl. unfold host_of_entry in *.
      destruct (lookup "hostname" nd) as [h|]; simpl; rewrite Hs; simpl; rewrite Hm;
        simpl; rewrite Hrun; rewrite <- app_assoc; reflexivity.
    + constructor; [|assumption]. now exists nd, sd, port.
Qed.

(** C10: when the cluster answers with a [nodesExt] list whose entries all
    have [services.mgmt], [get_stats_sources] returns one [ServerNode] per
    entry, in order; for the node of an entry without [hostname], [host()]
    is ['127.0.0.1'], [port()] is the entry's [services.mgmt], and the
    user and the password are those of the call. *)
Theorem nodes_without_hostname_are_local
    (w : world) (cluster user password : pyval)
    (d : list (string * pyval)) (entries : list pyval) (l : list log_record) :
  request_json w cluster None "pools/default/nodeServices" user password
    = (Ok (PyDict d), l) ->
  lookup "nodesExt" d = Some (PyList entries) ->
  Forall has_mgmt_port entries ->
  exists result,
    ServerNode.get_stats_sources w cluster user password = (Ok result, l) /\
    List.length result = List.length entries /\
    forall i nd,
      nth_error entries i = Some (PyDict nd) ->
      lookup "hostname" nd = None ->
      exists sd port source,
        lookup "services" nd = Some (PyDict sd) /\
        lookup "mgmt" sd = Some port /\
        nth_error result i = Some source /\
        ServerNode.host source = PyStr "127.0.0.1" /\
        ServerNode.port source = port /\
        ServerNode._user source = user /\
        ServerNode._password source = password.
Proof.
  intros Hreq Hnodes Hall.
  destruct (nodes_loop_run user password entries Hall []) as (result & Hrun & H2).
  exists result. split; [|split].
  - unfold ServerNode.get_stats_sources. rewrite Hreq. simpl. rewrite Hnodes. simpl.
    rewrite Hrun. simpl. now rewrite !app_nil_r.
  - symmetry. exact (Forall2_length H2).
  - clear Hrun Hall Hnodes. induction H2 as [|node source entries result Hx _ IH];
      intros i nd Hi Hhost.
    + destruct i; discriminate.
    + destruct i as [|i]; simpl in *.
      * destruct Hx as (nd' & sd & port & E & Hs & Hm & ->).
        injection Hi as ->. injection E as <-.
        exists sd, port,
          (ServerNode.__init__ (host_of_entry nd) port user password).
        split; [assumption|]. split; [assumption|]. split; [reflexivity|].
        unfold host_of_entry. rewrite Hhost.
        split; [reflexivity|]. split; [reflexivity|]. split; reflexivity.
      * now apply IH.
Qed.

(** The theorem on the cluster of two nodes. *)
Lemma nodes_without_hostname_are_local_witness :
  request_json two_nodes (PyStr "10.0.0.2:8091") None "pools/default/nodeServices"
      (PyStr "admin") (PyStr "secret")
    = (Ok (PyDict
             [("rev", PyInt 42);
              ("nodesExt",
               PyList
                 [PyDict [("services", PyDict [("mgmt", PyInt 8091)]);
                          ("hostname", PyStr "10.0.0.2")];
                  PyDict [("services", PyDict [("mgmt", PyInt 9000)]);
                          ("thisNode", PyBool true)]])]), []) /\
  exists result,
    ServerNode.get_stats_sources two_nodes (PyStr "10.0.0.2:8091")
        (PyStr "admin") (PyStr "secret") = (Ok result, []) /\
    List.length result = 2 /\
    forall i nd,
      nth_error [PyDict [("services", PyDict [("mgmt", PyInt 8091)]);
                         ("hostname", PyStr "10.0.0.2")];
                 PyDict [("services", PyDict [("mgmt", PyInt 9000)]);
                         ("thisNode", PyBool true)]] i = Some (PyDict nd) ->
      lookup "hostname" nd = None ->
      exists sd port source,
        lookup "services" nd = Some (PyDict sd) /\
        lookup "mgmt" sd = Some port /\
        nth_error result i = Some source /\
        ServerNode.host source = PyStr "127.0.0.1" /\
        ServerNode.port source = port /\
        ServerNode._user source = PyStr "admin" /\
        ServerNode._password source = PyStr "secret".
Proof.
  split; [reflexivity|].
  apply (nodes_without_hostname_are_local two_nodes (PyStr "10.0.0.2:8091")
           (PyStr "admin") (PyStr "secret") _ _ [] eq_refl eq_refl).
  repeat constructor; unfold has_mgmt_port; do 3 eexists;
    (split; [reflexivity|]); split; reflexivity.
Defined.

Example two_nodes_sources :
  ServerNode.get_stats_sources two_nodes (PyStr "10.0.0.2:8091")
      (PyStr "admin") (PyStr "secret")
  = (Ok [ServerNode.__init__ (PyStr "10.0.0.2") (PyInt 8091)
                             (PyStr "admin") (PyStr "secret");
         ServerNode.__init__ (PyStr "127.0.0.1") (PyInt 9000)
                             (PyStr "admin") (PyStr "secret")], []).
Proof. reflexivity. Qed.

(** * More properties of the module *)

(** ** [is_stats_snapshot_file] *)

Lemma prefix_iff (p s : string) :
  String.prefix p s = true <-> exists post, s = (p ++ post)%string.
Proof.
  revert s. induction p as [|c p IH]; intros s; simpl.
  - split; [intros _; now exists s|]. intros _. now destruct s.
  - destruct s as [|c' s]; simpl.
    + split; [discriminate|]. intros (post & H). discriminate.
    + destruct (Ascii.ascii_dec c c') as [<-|N].
      * rewrite IH. split; intros (post & H); exists post; [now subst|congruence].
      * split; [discriminate|]. intros (post & H). congruence.
Qed.

Lemma find_from_spec (sub s : string) (i : Z) :
  (0 <= i)%Z ->
  ((0 <= find_from sub s i)%Z <->
   exists pre post, s = (pre ++ sub ++ post)%string).
Proof.
  revert i. induction s as [|c s IH]; intros i Hi.
  - change (find_from sub EmptyString i)
      with (if String.prefix sub EmptyString then i else (-1)%Z).
    destruct (String.prefix sub EmptyString) eqn:E.
    + split; [intros _|intros _; lia].
      apply prefix_iff in E. destruct E as (post & E). now exists EmptyString, post.
    + split; [lia|]. intros (pre & post & H).
      destruct pre; [|discriminate]. simpl in H.
      assert (String.prefix sub EmptyString = true) by (apply prefix_iff; now exists post).
      congruence.
  - change (find_from sub (String c s) i)
      with (if String.prefix sub (String c s) then i else find_from sub s (i + 1)%Z).
    destruct (String.prefix sub (String c s)) eqn:E.
    + split; [intros _|intros _; lia].
      apply prefix_iff in E. destruct E as (post & E). now exists EmptyString, post.
    + rewrite IH by lia. split.
      * intros (pre & post & ->). now exists (String c pre), post.
      * intros (pre & post & H). destruct pre as [|c' pre]; simpl in H.
        -- assert (String.prefix sub (String c s) = true)
             by (apply prefix_iff; now exists post).
           congruence.
        -- injection H as _ ->. now exists pre, post.
Qed.

(** X1: a file name is taken for a file of the snapshot exactly when the
    text [/stats_snapshot/] occurs in it. *)
Theorem is_stats_snapshot_file_iff (filename : string) :
  CBCollect.is_stats_snapshot_file filename = true <->
  exists pre post, filename = (pre ++ "/stats_snapshot/" ++ post)%string.
Proof.
  unfold CBCollect.is_stats_snapshot_file, find.
  rewrite Z.leb_le. apply find_from_spec. lia.
Qed.

(** ** [find_cbcollect_dirs] *)

Lemma is_sorted_filter (f : string -> bool) (l : list string) :
  is_sorted l -> is_sorted (filter f l).
Proof.
  unfold is_sorted. induction 1 as [|a l Hl IH Ha]; simpl; [constructor|].
  destruct (f a); [|assumption].
  constructor; [assumption|].
  rewrite Forall_forall in *. intros x Hx. apply filter_In in Hx. now apply Ha.
Qed.

Lemma sorted_In (l : list string) (x : string) : In x (sorted l) <-> In x l.
Proof.
  unfold sorted. split; intros H.
  - eapply Permutation_in; [apply Permutation_sym, StrSort.Permuted_sort|exact H].
  - eapply Permutation_in; [apply StrSort.Permuted_sort|exact H].
Qed.

Lemma sorted_NoDup (l : list string) : NoDup l -> NoDup (sorted l).
Proof. apply Permutation_NoDup, StrSort.Permuted_sort. Qed.

Lemma find_cbcollect_dirs_NoDup (d : disk) :
  NoDup (glob_glob d "cbcollect_info*") -> NoDup (CBCollect.find_cbcollect_dirs d).
Proof. intros H. apply NoDup_filter, sorted_NoDup, H. Qed.

(** X2: the directories found are the names of the glob that are
    directories holding a [stats_snapshot], in sorted order, each once when
    the glob lists each name once. *)
Theorem find_cbcollect_dirs_sorted_filter (d : disk) :
  is_sorted (CBCollect.find_cbcollect_dirs d) /\
  (forall f, In f (CBCollect.find_cbcollect_dirs d) <->
             In f (glob_glob d "cbcollect_info*") /\
             path_is_dir d [f] = true /\ path_exists d [f; "stats_snapshot"] = true) /\
  (NoDup (glob_glob d "cbcollect_info*") -> NoDup (CBCollect.find_cbcollect_dirs d)).
Proof.
  unfold CBCollect.find_cbcollect_dirs. split; [|split].
  - apply is_sorted_filter, sorted_is_sorted.
  - intros f. rewrite filter_In, sorted_In.
    unfold CBCollect.is_cbcollect_dir, CBCollect.snapshot_dir_exists. simpl.
    rewrite andb_true_iff. reflexivity.
  - apply find_cbcollect_dirs_NoDup.
Qed.

(** ** [CBCollect.get_stats_sources] *)

Lemma get_data_source_names_length (dirs : list string) :
  List.length (CBCollect.get_data_source_names dirs) = List.length dirs.
Proof.
  unfold CBCollect.get_data_source_names.
  destruct (first_result_spec dirs CBCollect.formats) as [-> | (fmt & _ & -> & _)];
    [reflexivity|apply length_map].
Qed.

Lemma get_data_source_names_NoDup (dirs : list string) :
  NoDup dirs -> NoDup (CBCollect.get_data_source_names dirs).
Proof.
  intros H. unfold CBCollect.get_data_source_names.
  destruct (first_result_spec dirs CBCollect.formats) as [-> | (fmt & _ & _ & N)];
    assumption.
Qed.

Lemma add_source_loop (cbcollects names : list string) (base_port : Z)
    (idxs : list nat) (acc : list CBCollect.t) :
  for_in (CBCollect.add_source cbcollects names base_port) idxs acc
  = acc ++ map (fun idx => CBCollect.__init__ (nth idx cbcollects EmptyString)
                             (nth idx names EmptyString)
                             (base_port + Z.of_nat idx)%Z) idxs.
Proof.
  revert acc. induction idxs as [|i idxs IH]; intros acc; simpl.
  - now rewrite app_nil_r.
  - rewrite IH, <- app_assoc. reflexivity.
Qed.

Lemma map_nth_seq (l : list string) :
  map (fun idx => nth idx l EmptyString) (seq 0 (List.length l)) = l.
Proof.
  apply nth_ext with (d := EmptyString) (d' := EmptyString).
  - now rewrite length_map, length_seq.
  - intros n Hn. rewrite length_map, length_seq in Hn.
    rewrite (nth_indep _ _ (nth 0 l EmptyString))
      by now rewrite length_map, length_seq.
    rewrite (map_nth (fun idx => nth idx l EmptyString)), seq_nth by assumption.
    reflexivity.
Qed.

Lemma map_nth_seq_short (l names : list string) :
  List.length names = List.length l ->
  map (fun idx => nth idx names EmptyString) (seq 0 (List.length l)) = names.
Proof. intros <-. apply map_nth_seq. Qed.

Lemma make_sources_spec (cbcollects : list string) (base_port : Z) :
  let sources := CBCollect.make_sources cbcollects base_port in
  map CBCollect._cbcollect_dir sources = cbcollects /\
  map CBCollect._short_name sources = CBCollect.get_data_source_names cbcollects /\
  map CBCollect._port sources
    = map (fun idx => (base_port + Z.of_nat idx)%Z) (seq 0 (List.length cbcollects)) /\
  Forall (fun s => CBCollect._config s = None) sources.
Proof.
  unfold CBCollect.make_sources. rewrite add_source_loop. simpl.
  rewrite !map_map. simpl. repeat split.
  - apply map_nth_seq.
  - apply map_nth_seq_short, get_data_source_names_length.
  - apply Forall_forall. intros s Hs. apply in_map_iff in Hs.
    destruct Hs as (i & <- & _). reflexivity.
Qed.

Lemma ports_NoDup (base_port : Z) (n : nat) :
  NoDup (map (fun idx => (base_port + Z.of_nat idx)%Z) (seq 0 n)).
Proof.
  apply Finite.Injective_map_NoDup; [|apply seq_NoDup].
  intros i j H. lia.
Qed.

(** X3: when the disk has collections, [get_stats_sources] makes one
    source per directory found, in the order found: the i-th source has
    the i-th directory, the i-th name of [get_data_source_names], the port
    [base_port + i] and no configuration parsed yet. *)
Theorem get_stats_sources_one_per_directory
    (extract_zips : Py disk) (base_port : Z) (d : disk) (l : list log_record) :
  extract_zips = (Ok d, l) ->
  CBCollect.find_cbcollect_dirs d <> [] ->
  exists sources,
    CBCollect.get_stats_sources extract_zips base_port = (Ok sources, l) /\
    map CBCollect._cbcollect_dir sources = CBCollect.find_cbcollect_dirs d /\
    map CBCollect._short_name sources
      = CBCollect.get_data_source_names (CBCollect.find_cbcollect_dirs d) /\
    map CBCollect._port sources
      = map (fun idx => (base_port + Z.of_nat idx)%Z)
            (seq 0 (List.length (CBCollect.find_cbcollect_dirs d))) /\
    Forall (fun s => CBCollect._config s = None) sources.
Proof.
  intros He Hne.
  exists (CBCollect.make_sources (CBCollect.find_cbcollect_dirs d) base_port).
  split; [|apply make_sources_spec].
  unfold CBCollect.get_stats_sources, CBCollect.get_cbcollect_dirs. rewrite He. simpl.
  destruct (CBCollect.find_cbcollect_dirs d) as [|f fs]; [congruence|].
  simpl. now rewrite !app_nil_r.
Qed.

(** X4: whatever the disk holds, the sources of one run have distinct
    ports, and distinct short names when the glob lists each name once. *)
Theorem get_stats_sources_ports_and_names_distinct
    (extract_zips : Py disk) (base_port : Z) (d : disk) (l : list log_record) :
  extract_zips = (Ok d, l) ->
  exists sources l',
    CBCollect.get_stats_sources extract_zips base_port = (Ok sources, l') /\
    NoDup (map CBCollect._port sources) /\
    (NoDup (glob_glob d "cbcollect_info*") -> NoDup (map CBCollect._short_name sources)).
Proof.
  intros He.
  unfold CBCollect.get_stats_sources, CBCollect.get_cbcollect_dirs. rewrite He. simpl.
  destruct (CBCollect.find_cbcollect_dirs d) as [|f fs] eqn:F; simpl.
  - destruct (os_path_isdir d STATS_SNAPSHOT_DIR_NAME); simpl.
    + do 2 eexists. split; [reflexivity|]. split; repeat constructor; simpl; tauto.
    + do 2 eexists. split; [reflexivity|]. split; [constructor|intros _; constructor].
  - do 2 eexists. split; [reflexivity|].
    destruct (make_sources_spec (f :: fs) base_port) as (_ & Hn & Hp & _).
    split.
    + rewrite Hp. apply ports_NoDup.
    + intros N. rewrite Hn. apply get_data_source_names_NoDup. rewrite <- F.
      now apply find_cbcollect_dirs_NoDup.
Qed.

(** X5: when no collection is found, a [stats_snapshot] directory in the
    working directory makes the working directory the one source, named
    [.] and on the port [base_port]; without it an error is logged and
    there is no source (the process does not exit). *)
Theorem get_stats_sources_no_collections
    (extract_zips : Py disk) (base_port : Z) (d : disk) (l : list log_record) :
  extract_zips = (Ok d, l) ->
  CBCollect.find_cbcollect_dirs d = [] ->
  CBCollect.get_stats_sources extract_zips base_port =
    if os_path_isdir d "stats_snapshot"
    then (Ok [CBCollect.__init__ "." "." base_port], l)
    else (Ok [],
          l ++ [Log ERROR
                  (dq "error: no 'collectinfo*.zip' files or 'cbcollect_info*' directories or '{}' directory found")
                  [AStr "stats_snapshot"]]).
Proof.
  intros He Hf.
  unfold CBCollect.get_stats_sources, CBCollect.get_cbcollect_dirs.
  rewrite He. simpl. rewrite Hf. simpl.
  unfold STATS_SNAPSHOT_DIR_NAME.
  destruct (os_path_isdir d "stats_snapshot"); simpl.
  - assert (E : CBCollect.make_sources ["."] base_port
                = [CBCollect.__init__ "." "." base_port]).
    { unfold CBCollect.make_sources.
      change (CBCollect.get_data_source_names ["."]) with ["."].
      simpl. unfold CBCollect.add_source. simpl. now rewrite Z.add_0_r. }
    now rewrite E, !app_nil_r.
  - now rewrite ?app_nil_r.
Qed.

(** ** [ServerNode.get_stats_sources] and [ServerNode.get_buckets] *)

(** X6: a failure of the request for the nodes is handled exactly when it
    is an [OSError]: then the error is logged and the list of sources is
    empty; an exception of another class leaves [get_stats_sources]. *)
Theorem get_stats_sources_handles_OSError_only
    (w : world) (cluster user password : pyval) (e : exn) (l : list log_record) :
  request_json w cluster None "pools/default/nodeServices" user password
    = (Raise e, l) ->
  ServerNode.get_stats_sources w cluster user password =
    if is_OSError e
    then (Ok [], l ++ [Log ERROR "error: can't access cluster: {}" [AExn e]])
    else (Raise e, l).
Proof.
  intros H. unfold ServerNode.get_stats_sources. rewrite H. simpl.
  destruct (is_OSError e); reflexivity.
Qed.

(** X7: an answer that is a dict without [nodesExt] ends in [KeyError]:
    the handler is for [OSError] and does not catch it, and nothing is
    logged. *)
Theorem get_stats_sources_without_nodesExt
    (w : world) (cluster user password : pyval)
    (d : list (string * pyval)) (l : list log_record) :
  request_json w cluster None "pools/default/nodeServices" user password
    = (Ok (PyDict d), l) ->
  lookup "nodesExt" d = None ->
  ServerNode.get_stats_sources w cluster user password
    = (Raise (Exn KeyError "nodesExt"), l).
Proof.
  intros H N. unfold ServerNode.get_stats_sources. rewrite H. simpl. rewrite N.
  simpl. now rewrite app_nil_r.
Qed.

Lemma nodes_loop_stops (user password : pyval) (good rest : list pyval)
    (nd : list (string * pyval)) :
  Forall has_mgmt_port good ->
  lookup "services" nd = None ->
  forall acc,
    for_inM (ServerNode.add_node user password) (good ++ PyDict nd :: rest) acc
    = (Raise (Exn KeyError "services"), []).
Proof.
  intros Hgood Hnd. induction Hgood as [|node good (nd' & sd & port & -> & Hs & Hm) _ IH];
    intros acc; simpl.
  - unfold ServerNode.add_node at 1. simpl.
    destruct (lookup "hostname" nd); simpl; rewrite Hnd; reflexivity.
  - unfold ServerNode.add_node at 1. simpl.
    destruct (lookup "hostname" nd'); simpl; rewrite Hs; simpl; rewrite Hm; simpl;
      rewrite IH; reflexivity.
Qed.

(** X8: one entry of [nodesExt] without [services] is enough for no
    source at all: [get_stats_sources] ends in [KeyError], also when the
    entries before it are complete. *)
Theorem get_stats_sources_entry_without_services
    (w : world) (cluster user password : pyval)
    (d nd : list (string * pyval)) (good rest : list pyval) (l : list log_record) :
  request_json w cluster None "pools/default/nodeServices" user password
    = (Ok (PyDict d), l) ->
  lookup "nodesExt" d = Some (PyList (good ++ PyDict nd :: rest)) ->
  Forall has_mgmt_port good ->
  lookup "services" nd = None ->
  ServerNode.get_stats_sources w cluster user password
    = (Raise (Exn KeyError "services"), l).
Proof.
  intros H N Hgood Hnd. unfold ServerNode.get_stats_sources. rewrite H. simpl.
  rewrite N. simpl. rewrite (nodes_loop_stops user password good rest nd Hgood Hnd).
  simpl. now rewrite !app_nil_r.
Qed.

(** X9: the host of a node is the [hostname] of its entry when the entry
    has one that is not [None]; an entry whose [hostname] is [None] gets
    ['127.0.0.1'] like an entry without one. *)
Theorem nodes_keep_their_hostname
    (w : world) (cluster user password : pyval)
    (d : list (string * pyval)) (entries : list pyval) (l : list log_record) :
  request_json w cluster None "pools/default/nodeServices" user password
    = (Ok (PyDict d), l) ->
  lookup "nodesExt" d = Some (PyList entries) ->
  Forall has_mgmt_port entries ->
  exists result,
    ServerNode.get_stats_sources w cluster user password = (Ok result, l) /\
    forall i nd h,
      nth_error entries i = Some (PyDict nd) ->
      lookup "hostname" nd = Some h ->
      exists source,
        nth_error result i = Some source /\
        ServerNode.host source
          = match h with PyNone => PyStr "127.0.0.1" | _ => h end.
Proof.
  intros Hreq Hnodes Hall.
  destruct (nodes_loop_run user password entries Hall []) as (result & Hrun & H2).
  exists result. split.
  - unfold ServerNode.get_stats_sources. rewrite Hreq. simpl. rewrite Hnodes. simpl.
    rewrite Hrun. simpl. now rewrite !app_nil_r.
  - clear Hrun Hall Hnodes. induction H2 as [|node source entries result Hx _ IH];
      intros i nd h Hi Hhost.
    + destruct i; discriminate.
    + destruct i as [|i]; simpl in *.
      * destruct Hx as (nd' & sd & port & E & Hs & Hm & ->).
        injection Hi as ->. injection E as <-.
        eexists. split; [reflexivity|].
        unfold ServerNode.host, host_of_entry. simpl. rewrite Hhost.
        now destruct h.
      * now apply (IH i nd h).
Qed.

Lemma buckets_loop_run (items : list pyval) (names : list pyval) :
  Forall2 (fun item name => exists bd, item = PyDict bd /\ lookup "name" bd = Some name)
          items names ->
  forall acc, for_inM ServerNode.add_bucket items acc = (Ok (acc ++ names), []).
Proof.
  induction 1 as [|item name items names (bd & -> & Hn) _ IH]; intros acc; simpl.
  - now rewrite app_nil_r.
  - unfold ServerNode.add_bucket at 1. simpl. rewrite Hn. simpl.
    rewrite IH, <- app_assoc. reflexivity.
Qed.

(** X10: when the cluster answers with a list of dicts that each have a
    [name], [ServerNode.get_buckets] returns these names, in the order of
    the answer. *)
Theorem get_buckets_returns_names
    (w : world) (self : ServerNode.t) (items names : list pyval) (l : list log_record) :
  request_json w (ServerNode.host self) (Some (ServerNode.port self))
    "pools/default/buckets" (ServerNode._user self) (ServerNode._password self)
    = (Ok (PyList items), l) ->
  Forall2 (fun item name => exists bd, item = PyDict bd /\ lookup "name" bd = Some name)
          items names ->
  ServerNode.get_buckets w self = (Ok names, l).
Proof.
  intros H F. unfold ServerNode.get_buckets. rewrite H. simpl.
  rewrite (buckets_loop_run items names F []). simpl. now rewrite !app_nil_r.
Qed.

Lemma buckets_loop_stops (good rest : list pyval) (names : list pyval)
    (bd : list (string * pyval)) :
  Forall2 (fun item name => exists bd, item = PyDict bd /\ lookup "name" bd = Some name)
          good names ->
  lookup "name" bd = None ->
  forall acc,
    for_inM ServerNode.add_bucket (good ++ PyDict bd :: rest) acc
    = (Raise (Exn KeyError "name"), []).
Proof.
  intros F N. induction F as [|item name good names (bd' & -> & Hn) _ IH];
    intros acc; simpl.
  - unfold ServerNode.add_bucket at 1. simpl. now rewrite N.
  - unfold ServerNode.add_bucket at 1. simpl. rewrite Hn. simpl. now rewrite IH.
Qed.

(** X11: a bucket without [name] in the answer makes
    [ServerNode.get_buckets] end in [KeyError]: the names read before it
    are not returned. *)
Theorem get_buckets_bucket_without_name
    (w : world) (self : ServerNode.t) (good rest names : list pyval)
    (bd : list (string * pyval)) (l : list log_record) :
  request_json w (ServerNode.host self) (Some (ServerNode.port self))
    "pools/default/buckets" (ServerNode._user self) (ServerNode._password self)
    = (Ok (PyList (good ++ PyDict bd :: rest)), l) ->
  Forall2 (fun item name => exists bd, item = PyDict bd /\ lookup "name" bd = Some name)
          good names ->
  lookup "name" bd = None ->
  ServerNode.get_buckets w self = (Raise (Exn KeyError "name"), l).
Proof.
  intros H F N. unfold ServerNode.get_buckets. rewrite H. simpl.
  rewrite (buckets_loop_stops good rest names bd F N []). simpl.
  now rewrite !app_nil_r.
Qed.

(** ** [compute_min_and_max_times] *)

Lemma all_times_run (w : world) (sources : list source) (ranges : list (float * float)) :
  Forall2 (fun s r => exists l, get_min_and_max_times w s = (Ok r, l)) sources ranges ->
  exists l, all_times w sources = (Ok ranges, l).
Proof.
  induction 1 as [|s r sources ranges (l0 & Hs) _ (l1 & IH)]; simpl.
  - now exists [].
  - rewrite Hs. simpl. rewrite IH. simpl. eauto.
Qed.

(** X12: over sources that each have a time range,
    [compute_min_and_max_times] returns a pair whose first component is
    the start of one of the ranges, none starting before it, and whose
    second component is the end of one of the ranges, none ending after
    it; over no source at all it ends in the [ValueError] of [min]. *)
Theorem compute_min_and_max_times_spans_all :
  (forall (w : world) (sources : list source) (ranges : list (float * float)),
     sources <> [] ->
     Forall2 (fun s r => exists l, get_min_and_max_times w s = (Ok r, l))
             sources ranges ->
     exists lo hi l,
       compute_min_and_max_times w sources = (Ok (lo, hi), l) /\
       In lo (map fst ranges) /\
       (forall r, In r ranges -> (fst r <? lo)%float = false) /\
       In hi (map snd ranges) /\
       (forall r, In r ranges -> (hi <? snd r)%float = false)) /\
  (forall w : world,
     compute_min_and_max_times w []
     = (Raise (Exn ValueError "min() arg is an empty sequence"), [])).
Proof.
  split; [|reflexivity].
  intros w sources ranges Hne H.
  assert (Hr : ranges <> []).
  { destruct H; [congruence|discriminate]. }
  destruct (all_times_run w sources ranges H) as (l & Hl).
  unfold compute_min_and_max_times. rewrite Hl. simpl.
  assert (Hmin : map fst ranges <> []) by (destruct ranges; [congruence|discriminate]).
  assert (Hmax : map snd ranges <> []) by (destruct ranges; [congruence|discriminate]).
  destruct (min_spec _ Hmin) as (lo & -> & Ilo & Llo).
  destruct (max_spec _ Hmax) as (hi & -> & Ihi & Lhi). simpl.
  exists lo, hi. eexists. split; [reflexivity|]. repeat split; try assumption.
  - intros r Hr'. apply Llo. now apply in_map.
  - intros r Hr'. apply Lhi. now apply in_map.
Qed.

(** ** [Source.maybe_start_stats_servers] *)

Lemma started_loop_run (u : launcher) (log_dir : string)
    (sources : list source) (started : list (option nat * list log_record)) :
  Forall2 (fun s r => maybe_start u s log_dir = (Ok (fst r), snd r)) sources started ->
  forall nodes,
    for_inM (add_started u log_dir) sources nodes
    = (Ok (nodes ++ flat_map (fun r => match fst r with Some n => [n] | None => [] end)
                             started),
       flat_map snd started).
Proof.
  induction 1 as [|s [o l0] sources started Hs _ IH]; intros nodes; simpl.
  - now rewrite app_nil_r.
  - unfold add_started at 1. simpl in Hs. rewrite Hs. simpl.
    destruct o as [n|]; simpl; rewrite IH; simpl; rewrite ?app_nil_r;
      rewrite <- ?app_assoc; reflexivity.
Qed.

(** X13: when every source starts or has nothing to start,
    [maybe_start_stats_servers] returns the handles of the servers that
    were started, in the order of the sources, leaving out the sources
    that returned [None]; its log is the logs of the starts, in order. *)
Theorem maybe_start_stats_servers_collects_handles
    (u : launcher) (log_dir : string)
    (sources : list source) (started : list (option nat * list log_record)) :
  Forall2 (fun s r => maybe_start u s log_dir = (Ok (fst r), snd r)) sources started ->
  maybe_start_stats_servers u sources log_dir
  = (Ok (flat_map (fun r => match fst r with Some n => [n] | None => [] end) started),
     flat_map snd started).
Proof.
  intros H. unfold maybe_start_stats_servers.
  now rewrite (started_loop_run u log_dir sources started H []).
Qed.

Lemma started_loop_live (u : launcher) (log_dir : string) (nodes : list ServerNode.t) :
  forall acc,
    for_inM (add_started u log_dir) (map OfServerNode nodes) acc = (Ok acc, []).
Proof.
  induction nodes as [|n nodes IH]; intros acc; simpl; [reflexivity|].
  unfold add_started at 1. simpl. now rewrite IH.
Qed.

(** X14: over the nodes of a running cluster nothing is started: the
    list of handles is empty and nothing is logged, whatever the launcher
    would do (it is not called: the result does not depend on it). *)
Theorem maybe_start_stats_servers_live_nodes
    (u : launcher) (log_dir : string) (nodes : list ServerNode.t) :
  maybe_start_stats_servers u (map OfServerNode nodes) log_dir = (Ok [], []).
Proof. unfold maybe_start_stats_servers. apply started_loop_live. Qed.

Lemma started_loop_stops (u : launcher) (log_dir : string)
    (before rest : list source) (s : source)
    (started : list (option nat * list log_record)) (e : exn) (l : list log_record) :
  Forall2 (fun s r => maybe_start u s log_dir = (Ok (fst r), snd r)) before started ->
  maybe_start u s log_dir = (Raise e, l) ->
  forall nodes,
    for_inM (add_started u log_dir) (before ++ s :: rest) nodes
    = (Raise e, flat_map snd started ++ l).
Proof.
  intros F Hs. induction F as [|s0 [o l0] before started H0 _ IH]; intros nodes; simpl.
  - unfold add_started at 1. now rewrite Hs.
  - unfold add_started at 1. simpl in H0. rewrite H0. simpl.
    destruct o as [n|]; simpl; rewrite IH; simpl; rewrite <- ?app_assoc; reflexivity.
Qed.

(** X15: the first source whose start raises ends
    [maybe_start_stats_servers] in that exception: the sources after it
    are not started, and the handles of the servers started before it are
    not returned. *)
Theorem maybe_start_stats_servers_stops_at_failure
    (u : launcher) (log_dir : string)
    (before rest : list source) (s : source)
    (started : list (option nat * list log_record)) (e : exn) (l : list log_record) :
  Forall2 (fun s r => maybe_start u s log_dir = (Ok (fst r), snd r)) before started ->
  maybe_start u s log_dir = (Raise e, l) ->
  maybe_start_stats_servers u (before ++ s :: rest) log_dir
  = (Raise e, flat_map snd started ++ l).
Proof.
  intros F Hs. unfold maybe_start_stats_servers.
  apply (started_loop_stops u log_dir before rest s started e l F Hs).
Qed.

(** ** More on the names of data sources *)

Lemma NoDup_set_same_length (l : list string) :
  NoDup l -> List.length (set_ l) = List.length l.
Proof. intros H. unfold set_. now rewrite nodup_fixed_point. Qed.

Lemma try_names_distinct
    (dirs : list string) (pattern : list Re.item) (fmt : list CBCollect.piece) :
  NoDup (map (CBCollect.data_source_name pattern fmt) dirs) ->
  CBCollect.try_get_data_source_names dirs pattern fmt
  = Some (map (CBCollect.data_source_name pattern fmt) dirs).
Proof.
  intros H. unfold CBCollect.try_get_data_source_names.
  now rewrite (NoDup_set_same_length _ H), Nat.eqb_refl.
Qed.

Lemma try_names_collide
    (dirs : list string) (pattern : list Re.item) (fmt : list CBCollect.piece) :
  ~ NoDup (map (CBCollect.data_source_name pattern fmt) dirs) ->
  CBCollect.try_get_data_source_names dirs pattern fmt = None.
Proof.
  intros H. unfold CBCollect.try_get_data_source_names.
  destruct (Nat.eqb_spec
              (List.length (set_ (map (CBCollect.data_source_name pattern fmt) dirs)))
              (List.length (map (CBCollect.data_source_name pattern fmt) dirs)))
    as [E|E]; [|reflexivity].
  exfalso. apply H. now apply set_same_length_NoDup.
Qed.

(** X16: [try_get_data_source_names] returns the names that the format
    gives the directories exactly when these names are pairwise distinct,
    and [None] when two of them are equal. *)
Theorem try_get_data_source_names_iff_distinct
    (cbcollect_dirs : list string) (pattern : list Re.item)
    (name_format : list CBCollect.piece) :
  let names := map (CBCollect.data_source_name pattern name_format) cbcollect_dirs in
  (NoDup names ->
   CBCollect.try_get_data_source_names cbcollect_dirs pattern name_format = Some names)
  /\
  (~ NoDup names ->
   CBCollect.try_get_data_source_names cbcollect_dirs pattern name_format = None).
Proof.
  intros names. split.
  - apply try_names_distinct.
  - apply try_names_collide.
Qed.

Lemma data_source_name_no_match (fmt : list CBCollect.piece) (dirs : list string) :
  (forall dir, In dir dirs -> Re.match_ CBCollect.regex dir = None) ->
  map (CBCollect.data_source_name CBCollect.regex fmt) dirs = dirs.
Proof.
  intros H. induction dirs as [|dir dirs IH]; simpl; [reflexivity|].
  unfold CBCollect.data_source_name at 1. rewrite (H dir (or_introl eq_refl)).
  f_equal. apply IH. intros x Hx. apply H. now right.
Qed.

(** X17: directory names that do not match the pattern are returned as
    they are, in their order, with or without duplicates among them. *)
Theorem get_data_source_names_no_match (cbcollect_dirs : list string) :
  (forall dir, In dir cbcollect_dirs -> Re.match_ CBCollect.regex dir = None) ->
  CBCollect.get_data_source_names cbcollect_dirs = cbcollect_dirs.
Proof.
  intros H. unfold CBCollect.get_data_source_names.
  destruct (first_result_spec cbcollect_dirs CBCollect.formats)
    as [E|(fmt & _ & E & _)]; [exact E|].
  rewrite E. now apply data_source_name_no_match.
Qed.

Lemma first_result_all_None (dirs : list string) (fmts : list (list CBCollect.piece)) :
  (forall fmt, In fmt fmts ->
     CBCollect.try_get_data_source_names dirs CBCollect.regex fmt = None) ->
  CBCollect.first_result dirs fmts = dirs.
Proof.
  induction fmts as [|fmt fmts IH]; intros H; simpl; [reflexivity|].
  rewrite (H fmt (or_introl eq_refl)). apply IH. intros f Hf. apply H. now right.
Qed.

(** X18: a list of directories that names one directory twice is
    returned as it is: no format can tell the two apart, and the names
    returned are then not distinct. *)
Theorem get_data_source_names_with_duplicates (cbcollect_dirs : list string) :
  ~ NoDup cbcollect_dirs ->
  CBCollect.get_data_source_names cbcollect_dirs = cbcollect_dirs.
Proof.
  intros H. unfold CBCollect.get_data_source_names.
  apply first_result_all_None. intros fmt _.
  apply try_names_collide.
  intros N. apply H. exact (NoDup_map_inv _ _ N).
Qed.

Lemma first_result_first_success
    (dirs : list string) (pre post : list (list CBCollect.piece))
    (fmt : list CBCollect.piece) :
  dirs <> [] ->
  (forall f, In f pre ->
     ~ NoDup (map (CBCollect.data_source_name CBCollect.regex f) dirs)) ->
  NoDup (map (CBCollect.data_source_name CBCollect.regex fmt) dirs) ->
  CBCollect.first_result dirs (pre ++ fmt :: post)
  = map (CBCollect.data_source_name CBCollect.regex fmt) dirs.
Proof.
  intros Hne Hpre Hfmt. induction pre as [|f pre IH]; simpl.
  - rewrite (try_names_distinct dirs CBCollect.regex fmt Hfmt).
    destruct dirs; [congruence|reflexivity].
  - rewrite (try_names_collide dirs CBCollect.regex f (Hpre f (or_introl eq_refl))).
    apply IH. intros g Hg. apply Hpre. now right.
Qed.

(** X19: the first of the four formats that gives distinct names is the
    one used: when the formats before the k-th give two directories the
    same name and the k-th does not, the names returned are those of the
    k-th format. *)
Theorem get_data_source_names_first_distinct_format
    (cbcollect_dirs : list string) (k : nat) (fmt : list CBCollect.piece) :
  cbcollect_dirs <> [] ->
  nth_error CBCollect.formats k = Some fmt ->
  (forall j f, j < k -> nth_error CBCollect.formats j = Some f ->
     ~ NoDup (map (CBCollect.data_source_name CBCollect.regex f) cbcollect_dirs)) ->
  NoDup (map (CBCollect.data_source_name CBCollect.regex fmt) cbcollect_dirs) ->
  CBCollect.get_data_source_names cbcollect_dirs
  = map (CBCollect.data_source_name CBCollect.regex fmt) cbcollect_dirs.
Proof.
  intros Hne Hk Hbefore Hfmt.
  destruct (nth_error_split _ _ Hk) as (pre & post & Hsplit & Hlen).
  unfold CBCollect.get_data_source_names. rewrite Hsplit.
  apply first_result_first_success; try assumption.
  intros f Hf. destruct (In_nth_error _ _ Hf) as (j & Hj).
  apply (Hbefore j f).
  - rewrite <- Hlen. apply nth_error_Some. congruence.
  - rewrite Hsplit, nth_error_app1; [assumption|]. apply nth_error_Some. congruence.
Qed.

Lemma append_empty_r (s : string) : (s ++ EmptyString)%string = s.
Proof. induction s as [|c s IH]; simpl; [reflexivity|now rewrite IH]. Qed.

(** X20: one directory alone gets the shortest name: the host part of
    its name when the name matches the pattern, the name itself when it
    does not. *)
Theorem get_data_source_names_single (cbcollect : string) :
  CBCollect.get_data_source_names [cbcollect] =
    match Re.match_ CBCollect.regex cbcollect with
    | Some groups => [nth 1 groups EmptyString]
    | None => [cbcollect]
    end.
Proof.
  assert (H : CBCollect.get_data_source_names [cbcollect]
              = map (CBCollect.data_source_name CBCollect.regex [CBCollect.Field 1])
                    [cbcollect]).
  { apply (first_result_first_success [cbcollect] []).
    - discriminate.
    - intros f [].
    - simpl. repeat constructor. simpl. tauto. }
  rewrite H. simpl. unfold CBCollect.data_source_name.
  destruct (Re.match_ CBCollect.regex cbcollect) as [groups|]; [|reflexivity].
  simpl. now rewrite append_empty_r.
Qed.

(** ** The parsers: what is before the sections, and a missing dump *)

Lemma for_in_app_fixed {A S : Type} (body : A -> S -> ctl S) (pre l : list A) (s : S) :
  (forall x, In x pre -> body x s = Next s) ->
  for_in body (pre ++ l) s = for_in body l s.
Proof.
  induction pre as [|x pre IH]; intros H; simpl; [reflexivity|].
  rewrite (H x (or_introl eq_refl)). apply IH. intros y Hy. apply H. now right.
Qed.

Lemma for_inM_app_fixed {A S : Type} (body : A -> S -> Py (ctl S))
    (pre l : list A) (s : S) :
  (forall x, In x pre -> body x s = ret (Next s)) ->
  for_inM body (pre ++ l) s = for_inM body l s.
Proof.
  induction pre as [|x pre IH]; intros H; simpl; [reflexivity|].
  rewrite (H x (or_introl eq_refl)). simpl.
  rewrite IH by (intros y Hy; apply H; now right).
  destruct (for_inM body l s) as [r log]. now destruct r.
Qed.

Lemma chronicle_skips (pre file : list string) :
  ~ has_section "Chronicle dump" pre ->
  for_in Chronicle.body (pre ++ file) Chronicle.init
  = for_in Chronicle.body file Chronicle.init.
Proof.
  intros H. apply for_in_app_fixed. intros x Hx. unfold Chronicle.body. simpl.
  destruct (String.eqb_spec (Str.rstrip x) "Chronicle dump") as [E|E]; [|reflexivity].
  exfalso. apply H. now exists x.
Qed.

Lemma chronicle_older_skips (pre file : list string) :
  ~ has_section "Chronicle config" pre ->
  for_in ChronicleOlder.body (pre ++ file) ChronicleOlder.init
  = for_in ChronicleOlder.body file ChronicleOlder.init.
Proof.
  intros H. apply for_in_app_fixed. intros x Hx. unfold ChronicleOlder.body. simpl.
  destruct (String.eqb_spec (Str.rstrip x) "Chronicle config") as [E|E]; [|reflexivity].
  exfalso. apply H. now exists x.
Qed.

Lemma ns_config_skips (pre file : list string) :
  ~ has_section "Couchbase config" pre ->
  for_inM NsConfig.body (pre ++ file) NsConfig.init
  = for_inM NsConfig.body file NsConfig.init.
Proof.
  intros H. apply for_inM_app_fixed. intros x Hx. unfold NsConfig.body. simpl.
  rewrite rstrip_idempotent.
  destruct (String.eqb_spec (Str.rstrip x) "Couchbase config") as [E|E]; [|reflexivity].
  exfalso. apply H. now exists x.
Qed.

(** X21: the lines of the dump before the first section header do not
    count: a dump and the same dump after lines that hold none of the
    three headers give the same configuration and the same log. *)
Theorem lines_before_the_sections_are_ignored
    (w w' : world) (dir dir' : string) (pre file : list string) :
  open_lines w dir "couchbase.log" = Some (pre ++ file) ->
  open_lines w' dir' "couchbase.log" = Some file ->
  ~ has_section "Chronicle dump" pre ->
  ~ has_section "Chronicle config" pre ->
  ~ has_section "Couchbase config" pre ->
  parse_couchbase_log w dir = parse_couchbase_log w' dir'.
Proof.
  intros H H' N1 N2 N3.
  assert (E1 : parse_couchbase_chronicle w dir = parse_couchbase_chronicle w' dir').
  { rewrite (parse_couchbase_chronicle_run w dir _ H),
            (parse_couchbase_chronicle_run w' dir' _ H').
    now rewrite (chronicle_skips pre file N1). }
  assert (E2 : parse_couchbase_chronicle_older_version w dir
               = parse_couchbase_chronicle_older_version w' dir').
  { rewrite (parse_couchbase_chronicle_older_version_run w dir _ H),
            (parse_couchbase_chronicle_older_version_run w' dir' _ H').
    now rewrite (chronicle_older_skips pre file N2). }
  assert (E3 : parse_couchbase_ns_config w dir = parse_couchbase_ns_config w' dir').
  { unfold parse_couchbase_ns_config, open_r. rewrite H, H'. simpl.
    now rewrite (ns_config_skips pre file N3). }
  unfold parse_couchbase_log. now rewrite E1, E2, E3.
Qed.

(** X22: when the dump cannot be opened, [parse_couchbase_log] ends in
    the exception of [open] after the first parser has logged that it
    starts, and the two other parsers do not run; [get_buckets] ends in the
    same exception and keeps nothing, so that a later call, once the dump is
    there, parses it. *)
Theorem get_buckets_without_dump
    (w w' : world) (cbcollect_dir short_name : string) (port : Z) (file : list string) :
  open_lines w cbcollect_dir "couchbase.log" = None ->
  open_lines w' cbcollect_dir "couchbase.log" = Some file ->
  let self := CBCollect.__init__ cbcollect_dir short_name port in
  parse_couchbase_log w cbcollect_dir
    = (Raise (Exn FileNotFoundError "couchbase.log"),
       [Log DEBUG "parsing couchbase.log (Chronicle config)" []]) /\
  CBCollect.get_buckets w self
    = (Raise (Exn FileNotFoundError "couchbase.log"),
       [Log DEBUG "parsing couchbase.log (Chronicle config)" []]) /\
  exists config l,
    parse_couchbase_log w' cbcollect_dir = (Ok config, l) /\
    CBCollect.get_buckets w' self
    = (Ok (buckets config,
           CBCollect.Make port short_name cbcollect_dir (Some config)), l).
Proof.
  intros H H' self.
  assert (P : parse_couchbase_log w cbcollect_dir
              = (Raise (Exn FileNotFoundError "couchbase.log"),
                 [Log DEBUG "parsing couchbase.log (Chronicle config)" []])).
  { unfold parse_couchbase_log, parse_couchbase_chronicle, open_r. now rewrite H. }
  split; [exact P|]. split.
  - unfold CBCollect.get_buckets. simpl. now rewrite P.
  - destruct (parse_couchbase_log_returns w' _ file H') as (config & l & Hp).
    exists config, l. split; [assumption|].
    unfold CBCollect.get_buckets. simpl. rewrite Hp. simpl. now rewrite app_nil_r.
Qed.

(** ** The ns_config section, read back *)

Lemma rstrip_app (a b : string) :
  Str.rstrip b <> EmptyString -> Str.rstrip (a ++ b) = (a ++ Str.rstrip b)%string.
Proof.
  intros H. induction a as [|c a IH]; simpl; [reflexivity|].
  rewrite IH. destruct (a ++ Str.rstrip b)%string eqn:E.
  - destruct a; [simpl in E; congruence|discriminate].
  - now rewrite andb_false_r.
Qed.

Lemma drop_app_length (a b : string) (k : nat) :
  Str.drop (String.length a + k) (a ++ b) = Str.drop k b.
Proof. induction a as [|c a IH]; simpl; [reflexivity|exact IH]. Qed.

Lemma take_app_length (a b : string) :
  Str.take (String.length a) (a ++ b) = a.
Proof.
  unfold Str.take. induction a as [|c a IH]; simpl.
  - now destruct b.
  - now rewrite IH.
Qed.

Lemma length_append (a b : string) :
  String.length (a ++ b) = String.length a + String.length b.
Proof. induction a as [|c a IH]; simpl; [reflexivity|now rewrite IH]. Qed.

Lemma span_dot_one_line (a b : string) :
  one_line a -> Re.span Re.dot (a ++ b) = String.length a + Re.span Re.dot b.
Proof.
  unfold one_line. induction a as [|c a IH]; simpl; intros H; [reflexivity|].
  unfold Re.dot at 1. destruct (Ascii.eqb_spec c newline) as [->|N].
  - exfalso. apply H. now left.
  - simpl. rewrite IH; [reflexivity|]. intros Hin. apply H. now right.
Qed.

(** A greedy repetition settles on the longest run after which the rest
    of the pattern matches. *)
Lemma exec_rep_at (min : nat) (p : ascii -> bool) (pat : list Re.item)
    (pos : nat) (s : string) (opened caps m : list string) (k : nat) :
  min <= k <= Re.span p s ->
  (forall j, k < j <= Re.span p s ->
     Re.exec pat (pos + j) (Str.drop j s) opened caps = None) ->
  Re.exec pat (pos + k) (Str.drop k s) opened caps = Some m ->
  Re.exec (Re.Rep min p :: pat) pos s opened caps = Some m.
Proof.
  intros [Hmin Hk] Hnone Hsome. simpl.
  remember (Re.span p s) as n eqn:En. clear En.
  induction n as [|n IH].
  - assert (k = 0) by lia. subst k.
    assert (min = 0) by lia. subst min. simpl in *. now rewrite Hsome.
  - destruct (Nat.eq_dec k (S n)) as [->|Hne].
    + rewrite (proj2 (Nat.ltb_ge _ _) Hmin). now rewrite Hsome.
    + assert (Hlt : (S n <? min)%nat = false) by (apply Nat.ltb_ge; lia).
      rewrite Hlt. rewrite (Hnone (S n)) by lia.
      apply IH; [lia|]. intros j Hj. apply Hnone. lia.
Qed.

Lemma bucket_line_match (opening : ascii) (name : string) :
  opening = " "%char \/ opening = "["%char ->
  one_line name ->
  Re.match_ NsConfig.bucket_line
    ("    " ++ String opening
                 (String "{" (String dquote (name ++ String dquote ","))))
  = Some [name].
Proof.
  intros Ho Hname.
  set (tail := (name ++ String dquote ",")%string).
  assert (E : Re.match_ NsConfig.bucket_line
                ("    " ++ String opening (String "{" (String dquote tail)))
              = Re.exec [Re.Rep 0 Re.dot; Re.Close; Re.Chr dquote; Re.Chr ","%char; Re.Eol]
                        7 tail [tail] []).
  { destruct Ho as [-> | ->]; reflexivity. }
  rewrite E. clear E.
  assert (Hspan : Re.span Re.dot tail = String.length name + 2).
  { unfold tail. now rewrite (span_dot_one_line name _ Hname). }
  apply (exec_rep_at 0 Re.dot _ 7 tail [tail] [] [name] (String.length name)).
  - rewrite Hspan. lia.
  - intros j Hj. rewrite Hspan in Hj.
    assert (Hj' : j = String.length name + 1 \/ j = String.length name + 2) by lia.
    unfold tail. destruct Hj' as [-> | ->]; rewrite drop_app_length; reflexivity.
  - unfold tail at 1. rewrite <- (Nat.add_0_r (String.length name)) at 2.
    rewrite drop_app_length. simpl.
    replace (String.length tail - 2) with (String.length name)
      by (unfold tail; rewrite length_append; simpl; lia).
    unfold tail. now rewrite take_app_length.
Qed.

Lemma for_inM_next {A S : Type} (body : A -> S -> Py (ctl S))
    (x : A) (l : list A) (s s' : S) (log : list log_record) :
  body x s = (Ok (Next s'), log) ->
  for_inM body (x :: l) s
  = (fst (for_inM body l s'), log ++ snd (for_inM body l s')).
Proof.
  intros H. simpl. rewrite H. simpl.
  now destruct (for_inM body l s') as [[r|e] log'].
Qed.

Lemma for_inM_break {A S : Type} (body : A -> S -> Py (ctl S))
    (x : A) (l : list A) (s s' : S) (log : list log_record) :
  body x s = (Ok (Break s'), log) -> for_inM body (x :: l) s = (Ok s', log).
Proof. intros H. simpl. rewrite H. simpl. now rewrite app_nil_r. Qed.

Lemma ns_body_header (header : string) :
  Str.rstrip header = "Couchbase config" ->
  NsConfig.body header NsConfig.init = (Ok (Next (NsConfig.State true false [] 0)), []).
Proof.
  intros H. unfold NsConfig.body. rewrite rstrip_idempotent, H. reflexivity.
Qed.

Lemma ns_body_before_buckets (x : string) (bs : list string) (c : nat) :
  Str.rstrip x <> " {buckets," ->
  c + (if is_divider x then 1 else 0) < 2 ->
  NsConfig.body x (NsConfig.State true false bs c)
  = (Ok (Next (NsConfig.State true false bs (c + if is_divider x then 1 else 0))), []).
Proof.
  intros Hx Hc. unfold NsConfig.body. simpl.
  change (Str.startswith (Str.strip (Str.rstrip x)) "==================")
    with (is_divider x).
  rewrite (proj2 (String.eqb_neq _ _) Hx).
  destruct (is_divider x); simpl.
  - replace (c + 1) with (S c) in * by lia.
    destruct (Nat.eqb_spec c 1) as [E|E]; [lia|reflexivity].
  - now rewrite Nat.add_0_r.
Qed.

Lemma ns_loop_before_buckets (mid l : list string) (bs : list string) (c : nat) :
  (forall x, In x mid -> Str.rstrip x <> " {buckets,") ->
  c + List.length (filter is_divider mid) < 2 ->
  for_inM NsConfig.body (mid ++ l) (NsConfig.State true false bs c)
  = for_inM NsConfig.body l
      (NsConfig.State true false bs (c + List.length (filter is_divider mid))).
Proof.
  revert c. induction mid as [|x mid IH]; intros c Hx Hc.
  - simpl. now rewrite Nat.add_0_r.
  - simpl in Hc.
    assert (Hc' : c + (if is_divider x then 1 else 0) < 2)
      by (destruct (is_divider x); simpl in Hc; lia).
    change ((x :: mid) ++ l) with (x :: (mid ++ l)).
    rewrite (for_inM_next _ x (mid ++ l) _ _ []
               (ns_body_before_buckets x bs c (Hx x (or_introl eq_refl)) Hc')).
    rewrite IH.
    + simpl. destruct (is_divider x); simpl;
        rewrite <- ?Nat.add_assoc; simpl;
        now destruct (for_inM NsConfig.body l _) as [r log].
    + intros y Hy. apply Hx. now right.
    + destruct (is_divider x); simpl in *; lia.
Qed.

Lemma ns_body_buckets_line (x : string) (bs : list string) (c : nat) :
  Str.rstrip x = " {buckets," ->
  NsConfig.body x (NsConfig.State true false bs c)
  = (Ok (Next (NsConfig.State true true bs c)), []).
Proof. intros H. unfold NsConfig.body. rewrite H. reflexivity. Qed.

Lemma rstrip_ns_bucket_line (opening : ascii) (name : string) :
  Str.rstrip (ns_bucket_line opening name)
  = ("    " ++ String opening
                 (String "{" (String dquote (name ++ String dquote ","))))%string.
Proof.
  change (ns_bucket_line opening name)
    with (("    " ++ String opening (String "{" (String dquote name)))
          ++ String dquote (String "," (String newline EmptyString)))%string.
  rewrite rstrip_app by discriminate. reflexivity.
Qed.

Lemma ns_body_bucket_line (opening : ascii) (name : string)
    (bs : list string) (c : nat) :
  opening = " "%char \/ opening = "["%char ->
  one_line name ->
  NsConfig.body (ns_bucket_line opening name) (NsConfig.State true true bs c)
  = (Ok (Next (NsConfig.State true true (bs ++ [name]) c)),
     [Log DEBUG "found bucket:{}" [AStr name]]).
Proof.
  intros Ho Hname. unfold NsConfig.body.
  rewrite rstrip_idempotent, rstrip_ns_bucket_line.
  rewrite (bucket_line_match opening name Ho Hname).
  assert (Hstrip : Str.startswith
                     (Str.strip ("    " ++ String opening
                        (String "{" (String dquote (name ++ String dquote ",")))))
                     "==================" = false).
  { unfold Str.strip.
    rewrite <- rstrip_ns_bucket_line, rstrip_idempotent, rstrip_ns_bucket_line.
    destruct Ho as [-> | ->]; reflexivity. }
  rewrite Hstrip.
  assert (Hsib : Re.match_ NsConfig.sibling_section
                   ("    " ++ String opening
                      (String "{" (String dquote (name ++ String dquote ","))))
                 = None) by reflexivity.
  rewrite Hsib. reflexivity.
Qed.

Lemma ns_loop_bucket_lines (entries : list (ascii * string)) (l : list string)
    (bs : list string) (c : nat) :
  (forall e, In e entries ->
     (fst e = " "%char \/ fst e = "["%char) /\ one_line (snd e)) ->
  for_inM NsConfig.body
    (map (fun e => ns_bucket_line (fst e) (snd e)) entries ++ l)
    (NsConfig.State true true bs c)
  = (fst (for_inM NsConfig.body l
            (NsConfig.State true true (bs ++ map snd entries) c)),
     map (fun e => Log DEBUG "found bucket:{}" [AStr (snd e)]) entries
     ++ snd (for_inM NsConfig.body l
               (NsConfig.State true true (bs ++ map snd entries) c))).
Proof.
  revert bs. induction entries as [|[o name] entries IH]; intros bs H.
  - simpl. rewrite app_nil_r. now destruct (for_inM NsConfig.body l _).
  - destruct (H (o, name) (or_introl eq_refl)) as [Ho Hname]. simpl in Ho, Hname.
    change (map (fun e => ns_bucket_line (fst e) (snd e)) ((o, name) :: entries) ++ l)
      with (ns_bucket_line o name
            :: (map (fun e => ns_bucket_line (fst e) (snd e)) entries ++ l)).
    rewrite (for_inM_next _ _ _ _ _ _ (ns_body_bucket_line o name bs c Ho Hname)).
    rewrite IH by (intros e He; apply H; now right).
    simpl. now rewrite <- app_assoc.
Qed.

Lemma ns_body_sibling (x : string) (groups bs : list string) (c : nat) :
  is_divider x = false ->
  Re.match_ NsConfig.sibling_section (Str.rstrip x) = Some groups ->
  NsConfig.body x (NsConfig.State true true bs c)
  = (Ok (Break (NsConfig.State true true bs c)), []).
Proof.
  intros Hd Hm. unfold NsConfig.body. simpl.
  change (Str.startswith (Str.strip (Str.rstrip x)) "==================")
    with (is_divider x).
  rewrite Hd, Hm. reflexivity.
Qed.

(** X23: an ns_config section read back.  The dump has lines without the
    header, the header line, lines with at most one divider among them and
    none that opens the buckets, the line that opens the buckets, one line
    per bucket, the line of the next section, and anything after it.  When
    no bucket name holds a line end, [parse_couchbase_ns_config] returns
    exactly these names, sorted, and logs each of them as it finds it; what
    follows the line of the next section is not read. *)
Theorem parse_couchbase_ns_config_reads_back
    (w : world) (dir : string) (pre mid rest : list string)
    (header buckets_line sibling : string) (groups : list string)
    (entries : list (ascii * string)) :
  open_lines w dir "couchbase.log"
    = Some (pre ++ header :: mid ++ buckets_line
                :: map (fun e => ns_bucket_line (fst e) (snd e)) entries
                ++ sibling :: rest) ->
  ~ has_section "Couchbase config" pre ->
  Str.rstrip header = "Couchbase config" ->
  (forall x, In x mid -> Str.rstrip x <> " {buckets,") ->
  List.length (filter is_divider mid) <= 1 ->
  Str.rstrip buckets_line = " {buckets," ->
  (forall e, In e entries ->
     (fst e = " "%char \/ fst e = "["%char) /\ one_line (snd e)) ->
  is_divider sibling = false ->
  Re.match_ NsConfig.sibling_section (Str.rstrip sibling) = Some groups ->
  parse_couchbase_ns_config w dir
  = (Ok (Config (sorted (map snd entries))),
     Log DEBUG "parsing couchbase.log (Couchbase config)" []
     :: map (fun e => Log DEBUG "found bucket:{}" [AStr (snd e)]) entries).
Proof.
  intros Hopen Hpre Hheader Hmid Hdiv Hbuckets Hentries Hsd Hsm.
  unfold parse_couchbase_ns_config, open_r. rewrite Hopen. simpl.
  rewrite (ns_config_skips pre _ Hpre).
  rewrite (for_inM_next _ _ _ _ _ _ (ns_body_header header Hheader)).
  rewrite (ns_loop_before_buckets mid _ [] 0 Hmid) by (simpl; lia).
  rewrite (for_inM_next _ _ _ _ _ _
             (ns_body_buckets_line buckets_line [] _ Hbuckets)).
  rewrite (ns_loop_bucket_lines entries _ [] _ Hentries).
  rewrite (for_inM_break _ _ _ _ _ _
             (ns_body_sibling sibling groups _ _ Hsd Hsm)).
  simpl. now rewrite !app_nil_r.
Qed.

(** ** The theorems with hypotheses, on the fixtures *)

(** X3 on the directory with two collections. *)
Lemma get_stats_sources_one_per_directory_witness :
  exists sources,
    CBCollect.get_stats_sources (ret disk_two_collections) 9090 = (Ok sources, []) /\
    map CBCollect._cbcollect_dir sources
      = CBCollect.find_cbcollect_dirs disk_two_collections /\
    map CBCollect._short_name sources
      = CBCollect.get_data_source_names
          (CBCollect.find_cbcollect_dirs disk_two_collections) /\
    map CBCollect._port sources
      = map (fun idx => (9090 + Z.of_nat idx)%Z)
            (seq 0 (List.length (CBCollect.find_cbcollect_dirs disk_two_collections))) /\
    Forall (fun s => CBCollect._config s = None) sources.
Proof.
  apply (get_stats_sources_one_per_directory
           (ret disk_two_collections) 9090 disk_two_collections [] eq_refl).
  vm_compute. discriminate.
Defined.

Example two_collections_sources :
  CBCollect.get_stats_sources (ret disk_two_collections) 9090
  = (Ok [CBCollect.__init__ "cbcollect_info_ns_1@nodeA_100-200" "ns_1@nodeA" 9090;
         CBCollect.__init__ "cbcollect_info_ns_2@nodeA_100-200" "ns_2@nodeA" 9091],
     []).
Proof. reflexivity. Qed.

(** X4 on the directory with two collections. *)
Lemma get_stats_sources_ports_and_names_distinct_witness :
  exists sources l',
    CBCollect.get_stats_sources (ret disk_two_collections) 9090 = (Ok sources, l') /\
    NoDup (map CBCollect._port sources) /\
    (NoDup (glob_glob disk_two_collections "cbcollect_info*") ->
     NoDup (map CBCollect._short_name sources)).
Proof.
  exact (get_stats_sources_ports_and_names_distinct
           (ret disk_two_collections) 9090 disk_two_collections [] eq_refl).
Defined.

(** X5 on an unpacked collection. *)
Lemma get_stats_sources_no_collections_witness :
  CBCollect.find_cbcollect_dirs disk_unpacked = [] /\
  CBCollect.get_stats_sources (ret disk_unpacked) 9090 =
    if os_path_isdir disk_unpacked "stats_snapshot"
    then (Ok [CBCollect.__init__ "." "." 9090], [])
    else (Ok [],
          [] ++ [Log ERROR
                   (dq "error: no 'collectinfo*.zip' files or 'cbcollect_info*' directories or '{}' directory found")
                   [AStr "stats_snapshot"]]).
Proof.
  split; [reflexivity|].
  exact (get_stats_sources_no_collections
           (ret disk_unpacked) 9090 disk_unpacked [] eq_refl eq_refl).
Defined.

Example nothing_found_is_logged :
  CBCollect.get_stats_sources (ret disk_empty) 9090
  = (Ok [],
     [Log ERROR
        (dq "error: no 'collectinfo*.zip' files or 'cbcollect_info*' directories or '{}' directory found")
        [AStr "stats_snapshot"]]).
Proof. reflexivity. Qed.

(** X6 on a cluster that refuses the connection. *)
Lemma get_stats_sources_handles_OSError_only_witness :
  ServerNode.get_stats_sources (world_of_file [])
      (PyStr "10.0.0.1:8091") (PyStr "admin") (PyStr "secret") =
    if is_OSError (Exn URLError "Connection refused")
    then (Ok [], [] ++ [Log ERROR "error: can't access cluster: {}"
                            [AExn (Exn URLError "Connection refused")]])
    else (Raise (Exn URLError "Connection refused"), []).
Proof.
  exact (get_stats_sources_handles_OSError_only (world_of_file [])
           (PyStr "10.0.0.1:8091") (PyStr "admin") (PyStr "secret") _ [] eq_refl).
Defined.

(** X7 on an answer that is an empty dict. *)
Lemma get_stats_sources_without_nodesExt_witness :
  ServerNode.get_stats_sources (world_of_answer (ret (PyDict [])))
      (PyStr "10.0.0.1:8091") (PyStr "admin") (PyStr "secret")
  = (Raise (Exn KeyError "nodesExt"), []).
Proof.
  exact (get_stats_sources_without_nodesExt (world_of_answer (ret (PyDict [])))
           (PyStr "10.0.0.1:8091") (PyStr "admin") (PyStr "secret") [] []
           eq_refl eq_refl).
Defined.

(** X8 on an answer whose second entry has no [services]. *)
Lemma get_stats_sources_entry_without_services_witness :
  ServerNode.get_stats_sources
    (world_of_answer
       (ret (PyDict
               [("nodesExt",
                 PyList ([PyDict [("services", PyDict [("mgmt", PyInt 8091)])]]
                         ++ PyDict [("hostname", PyStr "10.0.0.2")] :: []))])))
    (PyStr "10.0.0.1:8091") (PyStr "admin") (PyStr "secret")
  = (Raise (Exn KeyError "services"), []).
Proof.
  apply (get_stats_sources_entry_without_services
           (world_of_answer
              (ret (PyDict
                      [("nodesExt",
                        PyList ([PyDict [("services", PyDict [("mgmt", PyInt 8091)])]]
                                ++ PyDict [("hostname", PyStr "10.0.0.2")] :: []))])))
           (PyStr "10.0.0.1:8091") (PyStr "admin") (PyStr "secret")
           _ [("hostname", PyStr "10.0.0.2")]
           [PyDict [("services", PyDict [("mgmt", PyInt 8091)])]] [] []
           eq_refl eq_refl).
  - repeat constructor. unfold has_mgmt_port. do 3 eexists.
    split; [reflexivity|]. split; reflexivity.
  - reflexivity.
Defined.

(** X9 on the cluster of two nodes. *)
Lemma nodes_keep_their_hostname_witness :
  exists result,
    ServerNode.get_stats_sources two_nodes (PyStr "10.0.0.2:8091")
        (PyStr "admin") (PyStr "secret") = (Ok result, []) /\
    forall i nd h,
      nth_error [PyDict [("services", PyDict [("mgmt", PyInt 8091)]);
                         ("hostname", PyStr "10.0.0.2")];
                 PyDict [("services", PyDict [("mgmt", PyInt 9000)]);
                         ("thisNode", PyBool true)]] i = Some (PyDict nd) ->
      lookup "hostname" nd = Some h ->
      exists source,
        nth_error result i = Some source /\
        ServerNode.host source
          = match h with PyNone => PyStr "127.0.0.1" | _ => h end.
Proof.
  apply (nodes_keep_their_hostname two_nodes (PyStr "10.0.0.2:8091")
           (PyStr "admin") (PyStr "secret") _ _ [] eq_refl eq_refl).
  repeat constructor; unfold has_mgmt_port; do 3 eexists;
    (split; [reflexivity|]); split; reflexivity.
Defined.

(** X10 on an answer naming two buckets. *)
Lemma get_buckets_returns_names_witness :
  ServerNode.get_buckets
    (world_of_answer
       (ret (PyList [PyDict [("name", PyStr "travel-sample"); ("uuid", PyStr "7c")];
                     PyDict [("name", PyStr "beer-sample")]])))
    node_10_0_0_1
  = (Ok [PyStr "travel-sample"; PyStr "beer-sample"], []).
Proof.
  apply (get_buckets_returns_names
           (world_of_answer
              (ret (PyList [PyDict [("name", PyStr "travel-sample"); ("uuid", PyStr "7c")];
                            PyDict [("name", PyStr "beer-sample")]])))
           node_10_0_0_1 _ _ [] eq_refl).
  repeat constructor; eexists; split; reflexivity.
Defined.

(** X11 on an answer whose second bucket has no name. *)
Lemma get_buckets_bucket_without_name_witness :
  ServerNode.get_buckets
    (world_of_answer
       (ret (PyList ([PyDict [("name", PyStr "travel-sample")]]
                     ++ PyDict [("uuid", PyStr "7c")] :: []))))
    node_10_0_0_1
  = (Raise (Exn KeyError "name"), []).
Proof.
  apply (get_buckets_bucket_without_name
           (world_of_answer
              (ret (PyList ([PyDict [("name", PyStr "travel-sample")]]
                            ++ PyDict [("uuid", PyStr "7c")] :: []))))
           node_10_0_0_1 [PyDict [("name", PyStr "travel-sample")]] []
           [PyStr "travel-sample"] [("uuid", PyStr "7c")] [] eq_refl).
  - repeat constructor. eexists. split; reflexivity.
  - reflexivity.
Defined.

(** X13 on a collection and a node: the collection alone is started. *)
Lemma maybe_start_stats_servers_collects_handles_witness :
  maybe_start_stats_servers launcher_4242
    [OfCBCollect collect_nodeA; OfServerNode node_10_0_0_1] "logs"
  = (Ok [4242],
     [Log INFO "starting prometheus server on {} against {}; logging to {}"
          [AStr "0.0.0.0:9090"; AStr "collect/stats_snapshot";
           AStr "logs/prom-nodeA.log"]]).
Proof.
  apply (maybe_start_stats_servers_collects_handles launcher_4242 "logs"
           [OfCBCollect collect_nodeA; OfServerNode node_10_0_0_1]
           [(Some 4242,
             [Log INFO "starting prometheus server on {} against {}; logging to {}"
                  [AStr "0.0.0.0:9090"; AStr "collect/stats_snapshot";
                   AStr "logs/prom-nodeA.log"]]);
            (None, [])]).
  repeat constructor.
Defined.

(** X15 with a launcher that has no [PROMETHEUS_BIN]. *)
Lemma maybe_start_stats_servers_stops_at_failure_witness :
  maybe_start_stats_servers launcher_unset
    ([OfServerNode node_10_0_0_1] ++ OfCBCollect collect_nodeA
       :: [OfCBCollect collect_nodeA]) "logs"
  = (Raise (Exn AttributeError "PROMETHEUS_BIN"), [] ++ []).
Proof.
  apply (maybe_start_stats_servers_stops_at_failure launcher_unset "logs"
           [OfServerNode node_10_0_0_1] [OfCBCollect collect_nodeA]
           (OfCBCollect collect_nodeA) [(None, [])]).
  - repeat constructor.
  - reflexivity.
Defined.

(** X17 on two names that the pattern does not match. *)
Lemma get_data_source_names_no_match_witness :
  CBCollect.get_data_source_names ["node-1@nodeA"; "node-2@nodeA"]
  = ["node-1@nodeA"; "node-2@nodeA"].
Proof.
  apply (get_data_source_names_no_match ["node-1@nodeA"; "node-2@nodeA"]).
  intros dir [<- | [<- | []]]; reflexivity.
Defined.

(** X18 on a directory named twice. *)
Lemma get_data_source_names_with_duplicates_witness :
  CBCollect.get_data_source_names
    ["cbcollect_info_ns_1@nodeA_100-200"; "cbcollect_info_ns_1@nodeA_100-200"]
  = ["cbcollect_info_ns_1@nodeA_100-200"; "cbcollect_info_ns_1@nodeA_100-200"].
Proof.
  apply (get_data_source_names_with_duplicates
           ["cbcollect_info_ns_1@nodeA_100-200"; "cbcollect_info_ns_1@nodeA_100-200"]).
  intros N. inversion N as [|x l Hin _]. apply Hin. now left.
Defined.

(** X19 on two collections of one node: the third format is the first to
    tell them apart. *)
Lemma get_data_source_names_first_distinct_format_witness :
  CBCollect.get_data_source_names
    ["cbcollect_info_ns_1@nodeA_100-200"; "cbcollect_info_ns_1@nodeA_100-300"]
  = map (CBCollect.data_source_name CBCollect.regex
           [CBCollect.Field 1; CBCollect.Text "-"; CBCollect.Field 2;
            CBCollect.Text "-"; CBCollect.Field 3])
        ["cbcollect_info_ns_1@nodeA_100-200"; "cbcollect_info_ns_1@nodeA_100-300"].
Proof.
  apply (get_data_source_names_first_distinct_format
           ["cbcollect_info_ns_1@nodeA_100-200"; "cbcollect_info_ns_1@nodeA_100-300"] 2).
  - discriminate.
  - reflexivity.
  - intros j f Hj Hf N.
    destruct j as [|[|j]]; [| |lia]; injection Hf as <-;
      vm_compute in N; inversion N as [|x l Hin _]; apply Hin; now left.
  - vm_compute. repeat constructor; simpl; intuition discriminate.
Defined.

(** X21 on a Chronicle dump, with and without a line before it. *)
Lemma lines_before_the_sections_are_ignored_witness :
  parse_couchbase_log
    (world_of_file ([ln "Manifest"] ++ chronicle_dump_one_line)) "collect"
  = parse_couchbase_log (world_of_file chronicle_dump_one_line) "collect".
Proof.
  apply (lines_before_the_sections_are_ignored
           (world_of_file ([ln "Manifest"] ++ chronicle_dump_one_line))
           (world_of_file chronicle_dump_one_line)
           "collect" "collect" [ln "Manifest"] chronicle_dump_one_line
           eq_refl eq_refl);
    intros (x & [<- | []] & H); vm_compute in H; discriminate.
Defined.

(** X22 on a collection whose dump appears after the first call. *)
Lemma get_buckets_without_dump_witness :
  parse_couchbase_log two_shards "collect"
    = (Raise (Exn FileNotFoundError "couchbase.log"),
       [Log DEBUG "parsing couchbase.log (Chronicle config)" []]) /\
  CBCollect.get_buckets two_shards collect_nodeA
    = (Raise (Exn FileNotFoundError "couchbase.log"),
       [Log DEBUG "parsing couchbase.log (Chronicle config)" []]) /\
  exists config l,
    parse_couchbase_log (world_of_file chronicle_dump_one_line) "collect"
      = (Ok config, l) /\
    CBCollect.get_buckets (world_of_file chronicle_dump_one_line) collect_nodeA
    = (Ok (buckets config, CBCollect.Make 9090 "nodeA" "collect" (Some config)), l).
Proof.
  exact (get_buckets_without_dump two_shards (world_of_file chronicle_dump_one_line)
           "collect" "nodeA" 9090 chronicle_dump_one_line eq_refl eq_refl).
Defined.

(** X23 on a section with the buckets b2 and b1. *)
Lemma parse_couchbase_ns_config_reads_back_witness :
  parse_couchbase_ns_config
    (world_of_file
       (ns_config_pre ++ ln "Couchbase config" :: ns_config_mid ++ ln " {buckets,"
          :: map (fun e => ns_bucket_line (fst e) (snd e))
                 [("["%char, "b2"); (" "%char, "b1")]
          ++ ln " {memory_quota," :: [ns_bucket_line " " "b9"]))
    "collect"
  = (Ok (Config (sorted (map snd [("["%char, "b2"); (" "%char, "b1")]))),
     Log DEBUG "parsing couchbase.log (Couchbase config)" []
     :: map (fun e => Log DEBUG "found bucket:{}" [AStr (snd e)])
            [("["%char, "b2"); (" "%char, "b1")]).
Proof.
  apply (parse_couchbase_ns_config_reads_back
           (world_of_file
              (ns_config_pre ++ ln "Couchbase config" :: ns_config_mid
                 ++ ln " {buckets,"
                 :: map (fun e => ns_bucket_line (fst e) (snd e))
                        [("["%char, "b2"); (" "%char, "b1")]
                 ++ ln " {memory_quota," :: [ns_bucket_line " " "b9"]))
           "collect" ns_config_pre ns_config_mid [ns_bucket_line " " "b9"]
           (ln "Couchbase config") (ln " {buckets,") (ln " {memory_quota,") []
           [("["%char, "b2"); (" "%char, "b1")] eq_refl).
  - intros (x & [<- | []] & H). vm_compute in H. discriminate.
  - reflexivity.
  - intros x [<- | [<- | []]]; vm_compute; discriminate.
  - vm_compute. lia.
  - reflexivity.
  - intros e [<- | [<- | []]]; (split; [simpl; tauto|]);
      unfold one_line; vm_compute; intuition discriminate.
  - reflexivity.
  - reflexivity.
Defined.

Example ns_config_section_parsed :
  fst (parse_couchbase_log
         (world_of_file
            (ns_config_pre ++ ln "Couchbase config" :: ns_config_mid
               ++ ln " {buckets,"
               :: map (fun e => ns_bucket_line (fst e) (snd e))
                      [("["%char, "b2"); (" "%char, "b1")]
               ++ ln " {memory_quota," :: [ns_bucket_line " " "b9"]))
         "collect")
  = Ok (Config ["b1"; "b2"]).
Proof. reflexivity. Qed.

(** ** The list of bucket names, split *)

Lemma replace_char_cons (c c' : ascii) (s : string) :
  Str.replace (String c' s) (String c EmptyString) EmptyString
  = if Ascii.eqb c c' then Str.replace s (String c EmptyString) EmptyString
    else String c' (Str.replace s (String c EmptyString) EmptyString).
Proof.
  unfold Str.replace. simpl.
  destruct (Ascii.ascii_dec c c') as [<-|N].
  - rewrite Ascii.eqb_refl. now destruct s.
  - now rewrite (proj2 (Ascii.eqb_neq _ _) N).
Qed.

Lemma replace_char_app (c : ascii) (a b : string) :
  Str.replace (a ++ b) (String c EmptyString) EmptyString
  = (Str.replace a (String c EmptyString) EmptyString
     ++ Str.replace b (String c EmptyString) EmptyString)%string.
Proof.
  induction a as [|c' a IH]; [reflexivity|].
  change (String c' a ++ b)%string with (String c' (a ++ b)).
  rewrite !replace_char_cons, IH. now destruct (Ascii.eqb c c').
Qed.

Lemma replace_char_absent (c : ascii) (s : string) :
  forallb (fun x => negb (Ascii.eqb c x)) (list_ascii_of_string s) = true ->
  Str.replace s (String c EmptyString) EmptyString = s.
Proof.
  induction s as [|c' s IH]; [reflexivity|]. simpl. intros H.
  apply andb_true_iff in H. destruct H as [H1 H2].
  rewrite replace_char_cons, (IH H2).
  now destruct (Ascii.eqb c c').
Qed.

Lemma plain_name_without (c : ascii) (n : string) :
  plain c = false -> plain_name n ->
  forallb (fun x => negb (Ascii.eqb c x)) (list_ascii_of_string n) = true.
Proof.
  unfold plain_name. intros Hc. induction n as [|x n IH]; [reflexivity|]. simpl.
  intros H. apply andb_true_iff in H. destruct H as [H1 H2].
  rewrite (IH H2), andb_true_r.
  destruct (Ascii.eqb_spec c x) as [<-|N]; [congruence|reflexivity].
Qed.

Lemma split_no_sep (sep : ascii) (a : string) :
  forallb (fun x => negb (Ascii.eqb sep x)) (list_ascii_of_string a) = true ->
  Str.split sep a = [a].
Proof.
  induction a as [|c a IH]; [reflexivity|]. simpl. intros H.
  apply andb_true_iff in H. destruct H as [H1 H2].
  rewrite Ascii.eqb_sym. destruct (Ascii.eqb sep c); [discriminate|].
  now rewrite (IH H2).
Qed.

Lemma split_app_sep (sep : ascii) (a b : string) :
  forallb (fun x => negb (Ascii.eqb sep x)) (list_ascii_of_string a) = true ->
  Str.split sep (a ++ String sep b) = a :: Str.split sep b.
Proof.
  induction a as [|c a IH]; simpl; intros H.
  - now rewrite Ascii.eqb_refl.
  - apply andb_true_iff in H. destruct H as [H1 H2].
    rewrite Ascii.eqb_sym. destruct (Ascii.eqb sep c); [discriminate|].
    now rewrite (IH H2).
Qed.

Local Abbreviation clean s :=
  (Str.replace (Str.replace s " " EmptyString) (String dquote EmptyString) EmptyString).

Lemma clean_app (a b : string) : clean (a ++ b) = (clean a ++ clean b)%string.
Proof. now rewrite !replace_char_app. Qed.

Lemma clean_plain (n : string) : plain_name n -> clean n = n.
Proof.
  intros H.
  rewrite (replace_char_absent " "%char n) by now apply plain_name_without.
  now apply replace_char_absent, plain_name_without.
Qed.

Lemma clean_quoted (n : string) :
  plain_name n -> clean (String dquote (n ++ String dquote EmptyString)) = n.
Proof.
  intros H.
  change (String dquote (n ++ String dquote EmptyString))
    with (String dquote EmptyString ++ (n ++ String dquote EmptyString))%string.
  rewrite !clean_app, (clean_plain n H).
  change (clean (String dquote EmptyString)) with EmptyString.
  apply append_empty_r.
Qed.

Lemma concat_cons2 (sep x y : string) (l : list string) :
  String.concat sep (x :: y :: l) = (x ++ sep ++ String.concat sep (y :: l))%string.
Proof. reflexivity. Qed.

Lemma tokens_cleaned (names : list string) :
  Forall plain_name names -> clean (bucket_tokens names) = String.concat "," names.
Proof.
  unfold bucket_tokens.
  induction 1 as [|n names Hn Hnames IH]; [reflexivity|].
  destruct names as [|n' names].
  - simpl. now apply clean_quoted.
  - cbn [map] in *.
    rewrite (concat_cons2 _ _ _ (map _ names)), (concat_cons2 _ n n' names).
    rewrite !clean_app, (clean_quoted n Hn), IH. reflexivity.
Qed.

Lemma split_concat (names : list string) :
  Forall plain_name names -> names <> [] ->
  Str.split ","%char (String.concat "," names) = names.
Proof.
  induction 1 as [|n names Hn Hnames IH]; [congruence|]. intros _.
  destruct names as [|n' names].
  - simpl. apply split_no_sep. now apply plain_name_without.
  - rewrite concat_cons2.
    change ("," ++ String.concat "," (n' :: names))%string
      with (String ","%char (String.concat "," (n' :: names))).
    rewrite split_app_sep by now apply plain_name_without.
    rewrite IH by discriminate. reflexivity.
Qed.

Lemma concat_empty (names : list string) :
  String.concat "," names = EmptyString -> names = [] \/ names = [EmptyString].
Proof.
  destruct names as [|n [|n' names]]; simpl; intros H; [now left|right; now subst|].
  destruct n; discriminate.
Qed.

(** The names of a list of tokens are found again, whatever they are. *)
Lemma split_bucket_list_tokens (names : list string) :
  Forall plain_name names ->
  split_bucket_list (bucket_tokens names) = names.
Proof.
  intros H. unfold split_bucket_list.
  destruct names as [|n names]; [reflexivity|].
  assert (E : Str.is_empty (bucket_tokens (n :: names)) = false).
  { unfold bucket_tokens. destruct names; reflexivity. }
  rewrite E, (tokens_cleaned _ H). apply split_concat; [assumption|discriminate].
Qed.

(** ** The Chronicle dump, read back *)

Lemma span_app_all (p : ascii -> bool) (a b : string) :
  forallb p (list_ascii_of_string a) = true ->
  Re.span p (a ++ b) = String.length a + Re.span p b.
Proof.
  induction a as [|c a IH]; simpl; intros H; [reflexivity|].
  apply andb_true_iff in H. destruct H as [H1 H2]. now rewrite H1, (IH H2).
Qed.

Lemma drop_length (s : string) : Str.drop (String.length s) s = EmptyString.
Proof. induction s as [|c s IH]; simpl; [reflexivity|exact IH]. Qed.

Lemma take_length (s : string) : Str.take (String.length s) s = s.
Proof.
  rewrite <- (append_empty_r s) at 2. apply take_app_length.
Qed.

Lemma tokens_chars (P : ascii -> bool) (names : list string) :
  P dquote = true -> P ","%char = true -> (forall c, plain c = true -> P c = true) ->
  Forall plain_name names ->
  forallb P (list_ascii_of_string (bucket_tokens names)) = true.
Proof.
  intros Pq Pc Pp. unfold bucket_tokens.
  assert (A : forall a b, forallb P (list_ascii_of_string a) = true ->
                          forallb P (list_ascii_of_string b) = true ->
                          forallb P (list_ascii_of_string (a ++ b)) = true).
  { induction a as [|c a IHa]; simpl; intros b Ha Hb; [assumption|].
    apply andb_true_iff in Ha. destruct Ha as [H1 H2]. now rewrite H1, (IHa b H2 Hb). }
  assert (Q : forall n, plain_name n ->
              forallb P (list_ascii_of_string (String dquote (n ++ String dquote EmptyString)))
              = true).
  { intros n Hn. simpl. rewrite Pq. simpl. apply A; [|simpl; now rewrite Pq].
    unfold plain_name in Hn. induction n as [|c n IHn]; [reflexivity|]. simpl in *.
    apply andb_true_iff in Hn. destruct Hn as [H1 H2]. now rewrite (Pp c H1), (IHn H2). }
  induction 1 as [|n names Hn Hnames IH]; [reflexivity|].
  destruct names as [|n' names].
  - simpl String.concat. simpl map. now apply Q.
  - cbn [map] in *. rewrite concat_cons2. apply A; [now apply Q|].
    apply A; [simpl; now rewrite Pc|exact IH].
Qed.

Lemma exec_lit (t : string) (pat : list Re.item) (pos : nat) (s : string)
    (opened caps : list string) :
  Re.exec (Re.lit t ++ pat) pos (t ++ s) opened caps
  = Re.exec pat (pos + String.length t) s opened caps.
Proof.
  revert pos. induction t as [|c t IH]; intros pos; simpl.
  - now rewrite Nat.add_0_r.
  - rewrite Ascii.eqb_refl, IH. f_equal. lia.
Qed.

Lemma exec_close (pat : list Re.item) (pos : nat) (s s0 : string)
    (opened caps : list string) :
  Re.exec (Re.Close :: pat) pos s (s0 :: opened) caps
  = Re.exec pat pos s opened
            (caps ++ [Str.take (String.length s0 - String.length s) s0]).
Proof. reflexivity. Qed.

Lemma exec_open (pat : list Re.item) (pos : nat) (s : string)
    (opened caps : list string) :
  Re.exec (Re.Open :: pat) pos s opened caps = Re.exec pat pos s (s :: opened) caps.
Proof. reflexivity. Qed.

(** The rest of the line after the opening bracket is the second group. *)
Lemma bucket_names_match (ws rest : string) :
  blank ws -> one_line rest ->
  exists g1,
    Re.match_ Chronicle.bucket_names (ws ++ "{bucket_names,{[" ++ rest)
    = Some [g1; rest].
Proof.
  intros Hws Hrest.
  set (line := (ws ++ "{bucket_names,{[" ++ rest)%string).
  exists (Str.take (String.length line - String.length rest) line).
  set (g1 := Str.take (String.length line - String.length rest) line).
  change (Re.match_ Chronicle.bucket_names line)
    with (Re.exec (Re.Rep 0 Re.space
                   :: Re.lit "{bucket_names,{["
                      ++ [Re.Close; Re.Open; Re.Rep 0 Re.dot; Re.Close])
                  0 line [line] []).
  assert (Hspan : Re.span Re.space line = String.length ws).
  { unfold line. rewrite (span_app_all Re.space ws _ Hws). simpl. lia. }
  apply (exec_rep_at 0 Re.space _ 0 line [line] [] [g1; rest] (String.length ws)).
  - rewrite Hspan. lia.
  - intros j Hj. rewrite Hspan in Hj. lia.
  - assert (Hdot : Re.span Re.dot rest = String.length rest).
    { rewrite <- (append_empty_r rest) at 1.
      rewrite (span_dot_one_line rest EmptyString Hrest). simpl. lia. }
    unfold line at 1. rewrite <- (Nat.add_0_r (String.length ws)) at 2.
    rewrite drop_app_length.
    change (Str.drop 0 ("{bucket_names,{[" ++ rest)) with ("{bucket_names,{[" ++ rest)%string.
    rewrite exec_lit, exec_close, exec_open. simpl app. fold g1.
    apply exec_rep_at with (k := String.length rest).
    + rewrite Hdot. lia.
    + intros j Hj. rewrite Hdot in Hj. lia.
    + rewrite drop_length, exec_close. simpl.
      rewrite Nat.sub_0_r, take_length. reflexivity.
Qed.

(** What is before the first closing bracket is the group. *)
Lemma up_to_bracket_match (t tail : string) :
  forallb (Re.none_of "]") (list_ascii_of_string t) = true ->
  Re.match_ Chronicle.up_to_bracket (t ++ "]" ++ tail) = Some [t].
Proof.
  intros Ht.
  set (s := (t ++ "]" ++ tail)%string).
  change (Re.match_ Chronicle.up_to_bracket s)
    with (Re.exec [Re.Rep 0 (Re.none_of "]"); Re.Close; Re.Chr "]"%char; Re.Rep 0 Re.dot]
                  0 s [s] []).
  assert (Hspan : Re.span (Re.none_of "]") s = String.length t).
  { unfold s. rewrite (span_app_all _ t _ Ht). simpl. lia. }
  apply (exec_rep_at 0 _ _ 0 s [s] [] [t] (String.length t)).
  - rewrite Hspan. lia.
  - intros j Hj. rewrite Hspan in Hj. lia.
  - unfold s at 1. rewrite <- (Nat.add_0_r (String.length t)) at 2.
    rewrite drop_app_length.
    change (Str.drop 0 ("]" ++ tail)) with ("]" ++ tail)%string.
    rewrite exec_close.
    replace (String.length s - String.length ("]" ++ tail)) with (String.length t)
      by (unfold s; rewrite length_append; simpl; lia).
    unfold s. rewrite take_app_length.
    change (Re.Chr "]"%char :: [Re.Rep 0 Re.dot]) with (Re.lit "]" ++ [Re.Rep 0 Re.dot]).
    rewrite exec_lit.
    apply exec_rep_at with (k := Re.span Re.dot tail).
    + lia.
    + intros j Hj. lia.
    + reflexivity.
Qed.

Lemma for_in_break {A S : Type} (body : A -> S -> ctl S)
    (x : A) (l : list A) (s s' : S) :
  body x s = Break s' -> for_in body (x :: l) s = s'.
Proof. intros H. simpl. now rewrite H. Qed.

Lemma for_in_next {A S : Type} (body : A -> S -> ctl S)
    (x : A) (l : list A) (s s' : S) :
  body x s = Next s' -> for_in body (x :: l) s = for_in body l s'.
Proof. intros H. simpl. now rewrite H. Qed.

Lemma chronicle_body_header (header : string) :
  Str.rstrip header = "Chronicle dump" ->
  Chronicle.body header Chronicle.init = Next (Chronicle.State true false EmptyString).
Proof. intros H. unfold Chronicle.body. rewrite H. reflexivity. Qed.

Lemma chronicle_loop_other_lines (mid l : list string) :
  (forall x, In x mid -> Re.match_ Chronicle.bucket_names (Str.rstrip x) = None) ->
  for_in Chronicle.body (mid ++ l) (Chronicle.State true false EmptyString)
  = for_in Chronicle.body l (Chronicle.State true false EmptyString).
Proof.
  intros H. apply for_in_app_fixed. intros x Hx.
  unfold Chronicle.body. simpl. now rewrite (H x Hx).
Qed.

Lemma chronicle_body_list_line (line ws tail : string) (names : list string) :
  Str.rstrip line
    = (ws ++ "{bucket_names,{[" ++ bucket_tokens names ++ "]" ++ tail)%string ->
  blank ws -> one_line tail -> Forall plain_name names ->
  Chronicle.body line (Chronicle.State true false EmptyString)
  = Break (Chronicle.State true true (bucket_tokens names)).
Proof.
  intros Hline Hws Htail Hnames. unfold Chronicle.body.
  cbn -[Re.match_ String.append bucket_tokens Str.rstrip Chronicle.bucket_names Chronicle.up_to_bracket]. rewrite Hline.
  assert (Hone : one_line (bucket_tokens names ++ "]" ++ tail)).
  { unfold one_line in *. intros Hin.
    assert (D : forallb Re.dot (list_ascii_of_string (bucket_tokens names)) = true).
    { apply tokens_chars; try reflexivity; [|assumption].
      intros c Hc. unfold plain in Hc. unfold Re.dot.
      destruct (Ascii.eqb c newline); [|reflexivity].
      now rewrite !orb_true_r in Hc. }
    revert Hin. generalize (bucket_tokens names) D. intros t.
    induction t as [|c t IHt]; simpl; intros Dt Hin.
    - destruct Hin as [E|Hin]; [discriminate|]. now apply Htail.
    - apply andb_true_iff in Dt. destruct Dt as [D1 D2].
      destruct Hin as [E|Hin]; [|now apply IHt].
      subst c. discriminate. }
  destruct (bucket_names_match ws _ Hws Hone) as (g1 & ->).
  cbn -[Re.match_ String.append bucket_tokens Str.rstrip Chronicle.bucket_names Chronicle.up_to_bracket].
  rewrite up_to_bracket_match.
  - simpl.
    assert (E : Str.is_empty (bucket_tokens names ++ String "]" tail) = false)
      by now destruct (bucket_tokens names).
    now rewrite E.
  - apply tokens_chars; try reflexivity; [|assumption].
    intros c Hc. unfold plain in Hc. unfold Re.none_of, Re.one_of. simpl.
    destruct (Ascii.eqb c "]"); [|reflexivity].
    now rewrite !orb_true_r in Hc.
Qed.

Lemma sorted_nonempty (l : list string) : l <> [] -> sorted l <> [].
Proof.
  intros H E. apply H.
  apply Permutation_nil. rewrite <- E. apply Permutation_sym, StrSort.Permuted_sort.
Qed.

(** X24: a Chronicle dump read back.  The dump has lines without the
    header, the header line, lines that do not open the list of bucket
    names, the line that holds the whole list (the names between double
    quotes, with commas between them, then the closing bracket and the rest
    of the line), and anything after it.  When the names are made of plain
    characters, [parse_couchbase_chronicle] returns exactly these names,
    sorted, and a list that is not empty is also the result of
    [parse_couchbase_log], which then runs no other parser. *)
Theorem parse_couchbase_chronicle_reads_back
    (w : world) (dir : string) (pre mid rest : list string)
    (header line ws tail : string) (names : list string) :
  open_lines w dir "couchbase.log" = Some (pre ++ header :: mid ++ line :: rest) ->
  ~ has_section "Chronicle dump" pre ->
  Str.rstrip header = "Chronicle dump" ->
  (forall x, In x mid -> Re.match_ Chronicle.bucket_names (Str.rstrip x) = None) ->
  Str.rstrip line
    = (ws ++ "{bucket_names,{[" ++ bucket_tokens names ++ "]" ++ tail)%string ->
  blank ws -> one_line tail -> Forall plain_name names ->
  parse_couchbase_chronicle w dir
    = (Ok (Config (sorted names)),
       [Log DEBUG "parsing couchbase.log (Chronicle config)" [];
        Log DEBUG "found buckets:{}" [AStrs names]]) /\
  (names <> [] ->
   parse_couchbase_log w dir
   = (Ok (Config (sorted names)),
      [Log DEBUG "parsing couchbase.log (Chronicle config)" [];
       Log DEBUG "found buckets:{}" [AStrs names]])).
Proof.
  intros Hopen Hpre Hheader Hmid Hline Hws Htail Hnames.
  assert (P : parse_couchbase_chronicle w dir
              = (Ok (Config (sorted names)),
                 [Log DEBUG "parsing couchbase.log (Chronicle config)" [];
                  Log DEBUG "found buckets:{}" [AStrs names]])).
  { rewrite (parse_couchbase_chronicle_run w dir _ Hopen).
    rewrite (chronicle_skips pre _ Hpre).
    rewrite (for_in_next _ _ _ _ _ (chronicle_body_header header Hheader)).
    rewrite (chronicle_loop_other_lines mid _ Hmid).
    rewrite (for_in_break _ _ _ _ _
               (chronicle_body_list_line line ws tail names Hline Hws Htail Hnames)).
    simpl. now rewrite (split_bucket_list_tokens names Hnames). }
  split; [exact P|]. intros Hne.
  unfold parse_couchbase_log. rewrite P. simpl.
  destruct (sorted names) eqn:E; [|reflexivity].
  exfalso. now apply (sorted_nonempty names Hne).
Qed.

(** X24 on the dump of the fixtures. *)
Lemma parse_couchbase_chronicle_reads_back_witness :
  parse_couchbase_chronicle (world_of_file chronicle_dump_one_line) "collect"
    = (Ok (Config (sorted ["b2"; "b1"])),
       [Log DEBUG "parsing couchbase.log (Chronicle config)" [];
        Log DEBUG "found buckets:{}" [AStrs ["b2"; "b1"]]]) /\
  (["b2"; "b1"] <> [] ->
   parse_couchbase_log (world_of_file chronicle_dump_one_line) "collect"
   = (Ok (Config (sorted ["b2"; "b1"])),
      [Log DEBUG "parsing couchbase.log (Chronicle config)" [];
       Log DEBUG "found buckets:{}" [AStrs ["b2"; "b1"]]])).
Proof.
  apply (parse_couchbase_chronicle_reads_back
           (world_of_file chronicle_dump_one_line) "collect"
           [] [] [ln " {other,1}"] (ln "Chronicle dump")
           (ln " {bucket_names,{['b2','b1'],{<<'f9e4'>>,5}}},")
           " " (dq ",{<<'f9e4'>>,5}}},") ["b2"; "b1"] eq_refl).
  - intros (x & [] & _).
  - reflexivity.
  - intros x [].
  - reflexivity.
  - reflexivity.
  - unfold one_line. vm_compute. intuition discriminate.
  - repeat constructor.
Defined.

(** ** The Chronicle config section, read back over several lines *)

Lemma list_ascii_app (a b : string) :
  list_ascii_of_string (a ++ b) = list_ascii_of_string a ++ list_ascii_of_string b.
Proof. induction a as [|c a IH]; simpl; [reflexivity|now rewrite IH]. Qed.

Lemma append_assoc (a b c : string) : ((a ++ b) ++ c = a ++ (b ++ c))%string.
Proof. induction a as [|x a IH]; simpl; [reflexivity|now rewrite IH]. Qed.

Lemma take_drop (n : nat) (s : string) : (Str.take n s ++ Str.drop n s)%string = s.
Proof.
  unfold Str.take. revert s. induction n as [|n IH]; intros [|c s]; simpl;
    try reflexivity.
  now rewrite IH.
Qed.

Lemma endswith_inv (s p : string) :
  Str.endswith s p = true -> exists a, s = (a ++ p)%string.
Proof.
  unfold Str.endswith. intros H. apply andb_true_iff in H. destruct H as [_ H].
  apply String.eqb_eq in H.
  exists (Str.take (String.length s - String.length p) s).
  rewrite <- (take_drop (String.length s - String.length p) s) at 1.
  now rewrite H.
Qed.

Lemma endswith_app (a p : string) : Str.endswith (a ++ p) p = true.
Proof.
  unfold Str.endswith. rewrite length_append. apply andb_true_iff. split.
  - apply Nat.leb_le. lia.
  - replace (String.length a + String.length p - String.length p)
      with (String.length a + 0) by lia.
    rewrite drop_app_length. apply String.eqb_refl.
Qed.

Lemma drop_last_app (a p : string) : Str.drop_last (String.length p) (a ++ p) = a.
Proof.
  unfold Str.drop_last. rewrite length_append.
  replace (String.length a + String.length p - String.length p)
    with (String.length a) by lia.
  apply take_app_length.
Qed.

Lemma open_tokens_end (names : list string) :
  names <> [] -> exists y, open_tokens names = (y ++ String dquote ",")%string.
Proof.
  induction names as [|n names IH]; [congruence|]. intros _.
  destruct names as [|n' names].
  - exists (String dquote n). reflexivity.
  - destruct IH as (y & Hy); [discriminate|].
    exists (String dquote (n ++ String dquote (String "," y))).
    change (open_tokens (n :: n' :: names))
      with (String dquote (n ++ String dquote (String "," (open_tokens (n' :: names))))).
    rewrite Hy. simpl. f_equal. rewrite !append_assoc. reflexivity.
Qed.

(** A line that the list goes on after does not end the list. *)
Lemma continuation_goes_on (chunk : string * list string) :
  spaces (fst chunk) -> Str.endswith (continuation chunk) "]}," = false.
Proof.
  destruct chunk as [indent names]. unfold continuation. simpl. intros Hs.
  destruct (Str.endswith (indent ++ open_tokens names) "]},") eqn:E; [|reflexivity].
  exfalso. apply endswith_inv in E. destruct E as (a & E).
  apply (f_equal list_ascii_of_string) in E. rewrite !list_ascii_app in E.
  destruct names as [|n names].
  - simpl in E. rewrite app_nil_r in E. unfold spaces in Hs. rewrite E in Hs.
    rewrite forallb_app in Hs. apply andb_true_iff in Hs. destruct Hs as [_ Hs].
    discriminate.
  - destruct (open_tokens_end (n :: names)) as (y & Hy); [discriminate|].
    rewrite Hy, list_ascii_app in E.
    change (list_ascii_of_string (String dquote ",")) with ([dquote] ++ [","%char]) in E.
    change (list_ascii_of_string "]},") with (["]"%char; "}"%char] ++ [","%char]) in E.
    rewrite !app_assoc in E. apply app_inj_tail in E. destruct E as [E _].
    change ["]"%char; "}"%char] with (["]"%char] ++ ["}"%char]) in E.
    rewrite !app_assoc in E. apply app_inj_tail in E. destruct E as [_ E].
    discriminate.
Qed.

Lemma replace_from_skip (old new a s : string) :
  Str.replace_from old new (String.length a) (a ++ s) = Str.replace_from old new 0 s.
Proof.
  induction a as [|c a IH]; simpl; [reflexivity|].
  exact IH.
Qed.

Lemma replace_prefix (c : ascii) (old s : string) :
  Str.replace (String c old ++ s) (String c old) EmptyString
  = Str.replace s (String c old) EmptyString.
Proof.
  unfold Str.replace.
  change (Str.replace_from (String c old) EmptyString 0 (String c old ++ s))
    with (if String.prefix (String c old) (String c (old ++ s))
          then (EmptyString
                ++ Str.replace_from (String c old) EmptyString
                     (String.length (String c old) - 1) (old ++ s))%string
          else String c (Str.replace_from (String c old) EmptyString 0 (old ++ s))).
  assert (P : String.prefix (String c old) (String c (old ++ s)) = true).
  { apply prefix_iff. now exists s. }
  rewrite P.
  replace (String.length (String c old) - 1) with (String.length old)
    by (simpl; lia).
  change (EmptyString ++ ?x)%string with x.
  apply replace_from_skip.
Qed.

Lemma replace_absent_head (c : ascii) (old new s : string) :
  forallb (fun x => negb (Ascii.eqb c x)) (list_ascii_of_string s) = true ->
  Str.replace s (String c old) new = s.
Proof.
  unfold Str.replace. induction s as [|x s IH]; [reflexivity|]. simpl. intros H.
  apply andb_true_iff in H. destruct H as [H1 H2].
  destruct (Ascii.ascii_dec c x) as [<-|N].
  - rewrite Ascii.eqb_refl in H1. discriminate.
  - now rewrite (IH H2).
Qed.

Lemma open_tokens_no_space (names : list string) :
  Forall plain_name names ->
  forallb (fun x => negb (Ascii.eqb " " x)) (list_ascii_of_string (open_tokens names))
  = true.
Proof.
  induction 1 as [|n names Hn _ IH]; [reflexivity|].
  change (open_tokens (n :: names))
    with (String dquote (n ++ String dquote (String "," (open_tokens names)))).
  change (String dquote (n ++ String dquote (String "," (open_tokens names))))
    with (String dquote EmptyString
          ++ (n ++ (String dquote (String "," EmptyString) ++ open_tokens names)))%string.
  rewrite !list_ascii_app, !forallb_app, IH.
  now rewrite (plain_name_without " "%char n eq_refl Hn).
Qed.

Lemma tokens_no_space (names : list string) :
  Forall plain_name names ->
  forallb (fun x => negb (Ascii.eqb " " x)) (list_ascii_of_string (bucket_tokens names))
  = true.
Proof.
  apply tokens_chars; try reflexivity.
  intros c Hc. unfold plain in Hc. destruct (Ascii.eqb_spec " "%char c) as [<-|N];
    [discriminate|reflexivity].
Qed.

Lemma clean_spaces (s : string) : spaces s -> clean s = EmptyString.
Proof.
  unfold spaces. induction s as [|c s IH]; [reflexivity|]. intros H.
  cbn [list_ascii_of_string forallb] in H.
  apply andb_true_iff in H. destruct H as [H1 H2].
  apply Ascii.eqb_eq in H1. subst c.
  rewrite replace_char_cons, Ascii.eqb_refl. now apply IH.
Qed.

Lemma clean_open_tokens (names rest : list string) :
  Forall plain_name names -> rest <> [] ->
  (clean (open_tokens names) ++ String.concat "," rest)%string
  = String.concat "," (names ++ rest).
Proof.
  intros H Hrest. induction H as [|n names Hn _ IH]; [reflexivity|].
  simpl open_tokens.
  replace (String dquote (n ++ String dquote (String "," (open_tokens names))))
    with (String dquote (n ++ String dquote EmptyString)
          ++ ("," ++ open_tokens names))%string
    by (simpl; now rewrite append_assoc).
  rewrite !clean_app, (clean_quoted n Hn).
  change (clean ",") with ","%string.
  rewrite !append_assoc, IH.
  destruct (names ++ rest) as [|x l] eqn:E.
  - destruct names; [simpl in E; congruence|discriminate].
  - change ((n :: names) ++ rest) with (n :: (names ++ rest)). rewrite E.
    reflexivity.
Qed.

Lemma older_body_header (header : string) :
  Str.rstrip header = "Chronicle config" ->
  ChronicleOlder.body header ChronicleOlder.init
  = Next (ChronicleOlder.State true false EmptyString).
Proof. intros H. unfold ChronicleOlder.body. rewrite H. reflexivity. Qed.

Lemma older_loop_other_lines (mid l : list string) (bl : string) :
  (forall x, In x mid -> Str.startswith (Str.rstrip x) " {bucket_names," = false) ->
  for_in ChronicleOlder.body (mid ++ l) (ChronicleOlder.State true false bl)
  = for_in ChronicleOlder.body l (ChronicleOlder.State true false bl).
Proof.
  intros H. apply for_in_app_fixed. intros x Hx.
  unfold ChronicleOlder.body. cbn -[Str.startswith Str.rstrip]. now rewrite (H x Hx).
Qed.

Lemma is_empty_false (s : string) : s <> EmptyString -> Str.is_empty s = false.
Proof. destruct s; [congruence|reflexivity]. Qed.

(** A line that holds names and does not end the list adds its text. *)
Lemma older_add (possible bl : string) (in_buckets : bool) :
  Str.endswith possible "]}," = false ->
  (if negb (Str.is_empty possible) then
     let '(possible_buckets, end_of_list) :=
       if Str.endswith possible "]}," then (Str.drop_last 3 possible, true)
       else (possible, false) in
     let bucket_list' := (bl ++ possible_buckets)%string in
     if end_of_list then Break (ChronicleOlder.State true in_buckets bucket_list')
     else Next (ChronicleOlder.State true in_buckets bucket_list')
   else Next (ChronicleOlder.State true in_buckets bl))
  = Next (ChronicleOlder.State true in_buckets (bl ++ possible)).
Proof.
  intros E. rewrite E. destruct possible; simpl; [|reflexivity].
  now rewrite append_empty_r.
Qed.

Lemma older_body_first (line bl : string) (names : list string) :
  Str.rstrip line = (" {bucket_names,[" ++ open_tokens names)%string ->
  Forall plain_name names ->
  ChronicleOlder.body line (ChronicleOlder.State true false bl)
  = Next (ChronicleOlder.State true true (bl ++ open_tokens names)).
Proof.
  intros Hline Hnames. unfold ChronicleOlder.body.
  cbn -[Str.startswith Str.rstrip Str.replace Str.endswith Str.drop_last String.append].
  rewrite Hline.
  assert (S : Str.startswith (" {bucket_names,[" ++ open_tokens names) " {bucket_names,"
              = true).
  { unfold Str.startswith. apply prefix_iff. now exists ("[" ++ open_tokens names)%string. }
  rewrite S.
  rewrite (replace_prefix " "%char "{bucket_names,[" (open_tokens names)).
  rewrite (replace_absent_head " "%char) by now apply open_tokens_no_space.
  apply older_add. apply (continuation_goes_on (EmptyString, names)). reflexivity.
Qed.

Lemma older_body_continuation (line bl : string) (chunk : string * list string) :
  Str.rstrip line = continuation chunk -> spaces (fst chunk) ->
  ChronicleOlder.body line (ChronicleOlder.State true true bl)
  = Next (ChronicleOlder.State true true (bl ++ continuation chunk)).
Proof.
  intros Hline Hs. unfold ChronicleOlder.body.
  cbn -[Str.startswith Str.rstrip Str.replace Str.endswith Str.drop_last String.append].
  rewrite Hline. apply older_add. now apply continuation_goes_on.
Qed.

Lemma older_body_last (line bl indent : string) (names : list string) :
  Str.rstrip line = (indent ++ bucket_tokens names ++ "]},")%string ->
  ChronicleOlder.body line (ChronicleOlder.State true true bl)
  = Break (ChronicleOlder.State true true (bl ++ indent ++ bucket_tokens names)).
Proof.
  intros Hline. unfold ChronicleOlder.body.
  cbn -[Str.startswith Str.rstrip Str.replace Str.endswith Str.drop_last String.append].
  rewrite Hline, <- append_assoc.
  rewrite (endswith_app (indent ++ bucket_tokens names) "]},").
  replace (Str.drop_last 3 ((indent ++ bucket_tokens names) ++ "]},"))
    with (indent ++ bucket_tokens names)%string
    by (symmetry; apply (drop_last_app _ "]},")).
  rewrite is_empty_false; [reflexivity|].
  destruct (indent ++ bucket_tokens names)%string; discriminate.
Qed.

Lemma concat_empty_cons (x : string) (l : list string) :
  String.concat EmptyString (x :: l) = (x ++ String.concat EmptyString l)%string.
Proof. destruct l; simpl; [now rewrite append_empty_r|reflexivity]. Qed.

Lemma older_loop_continuations (lines l : list string)
    (chunks : list (string * list string)) (bl : string) :
  Forall2 (fun line chunk => Str.rstrip line = continuation chunk /\ spaces (fst chunk))
          lines chunks ->
  for_in ChronicleOlder.body (lines ++ l) (ChronicleOlder.State true true bl)
  = for_in ChronicleOlder.body l
      (ChronicleOlder.State true true
         (bl ++ String.concat EmptyString (map continuation chunks))).
Proof.
  intros H. revert bl. induction H as [|line chunk lines chunks [Hl Hs] _ IH]; intros bl.
  - simpl. now rewrite append_empty_r.
  - change ((line :: lines) ++ l) with (line :: (lines ++ l)).
    rewrite (for_in_next _ _ _ _ _ (older_body_continuation line bl chunk Hl Hs)).
    rewrite IH, append_assoc, map_cons, concat_empty_cons. reflexivity.
Qed.

Lemma clean_continuations (chunks : list (string * list string)) (tail : string)
    (rest : list string) :
  Forall (fun chunk => spaces (fst chunk)) chunks ->
  Forall plain_name (flat_map snd chunks) ->
  rest <> [] ->
  clean tail = String.concat "," rest ->
  clean (String.concat EmptyString (map continuation chunks) ++ tail)
  = String.concat "," (flat_map snd chunks ++ rest).
Proof.
  intros Hs Hp Hrest Htail. induction Hs as [|[indent names] chunks Hi _ IH].
  - exact Htail.
  - simpl in Hp. apply Forall_app in Hp. destruct Hp as [Hn Hp].
    assert (E : (String.concat EmptyString (map continuation ((indent, names) :: chunks))
                 ++ tail)%string
                = (indent ++ open_tokens names
                   ++ (String.concat EmptyString (map continuation chunks) ++ tail))%string).
    { rewrite map_cons, concat_empty_cons. unfold continuation at 1. simpl fst. simpl snd.
      now rewrite !append_assoc. }
    rewrite E, (clean_app indent), (clean_app (open_tokens names)),
      (clean_spaces indent Hi), (IH Hp). simpl flat_map.
    rewrite <- app_assoc. change (EmptyString ++ ?x)%string with x.
    apply clean_open_tokens; [assumption|].
    destruct (flat_map snd chunks); [assumption|discriminate].
Qed.

(** X25: a Chronicle config section whose list of bucket names runs over
    several lines, read back.  After the header the dump has lines that do
    not open the list, the line that opens it with the first names, lines
    that go on with more names behind an indentation of spaces, and the
    line with the last names and the end of the list.  When the names are
    made of plain characters, [parse_couchbase_chronicle_older_version]
    returns the names of all these lines, sorted: the names of the earlier
    lines are kept. *)
Theorem parse_couchbase_chronicle_older_version_reads_back
    (w : world) (dir : string) (pre mid lines rest : list string)
    (header first last indent : string)
    (chunks : list (string * list string)) (first_names last_names : list string) :
  open_lines w dir "couchbase.log"
    = Some (pre ++ header :: mid ++ first :: lines ++ last :: rest) ->
  ~ has_section "Chronicle config" pre ->
  Str.rstrip header = "Chronicle config" ->
  (forall x, In x mid -> Str.startswith (Str.rstrip x) " {bucket_names," = false) ->
  Str.rstrip first = (" {bucket_names,[" ++ open_tokens first_names)%string ->
  Forall2 (fun line chunk => Str.rstrip line = continuation chunk /\ spaces (fst chunk))
          lines chunks ->
  Str.rstrip last = (indent ++ bucket_tokens last_names ++ "]},")%string ->
  spaces indent ->
  last_names <> [] ->
  Forall plain_name (first_names ++ flat_map snd chunks ++ last_names) ->
  parse_couchbase_chronicle_older_version w dir
  = (Ok (Config (sorted (first_names ++ flat_map snd chunks ++ last_names))),
     [Log DEBUG "parsing couchbase.log (Chronicle config)" []]).
Proof.
  intros Hopen Hpre Hheader Hmid Hfirst Hlines Hlast Hindent Hne Hplain.
  apply Forall_app in Hplain. destruct Hplain as [P1 P23].
  pose proof P23 as P23'. apply Forall_app in P23'. destruct P23' as [P2 P3].
  rewrite (parse_couchbase_chronicle_older_version_run w dir _ Hopen).
  rewrite (chronicle_older_skips pre _ Hpre).
  rewrite (for_in_next _ _ _ _ _ (older_body_header header Hheader)).
  rewrite (older_loop_other_lines mid _ _ Hmid).
  rewrite (for_in_next _ _ _ _ _ (older_body_first first _ first_names Hfirst P1)).
  rewrite (older_loop_continuations lines _ chunks _ Hlines).
  rewrite (for_in_break _ _ _ _ _ (older_body_last last _ indent last_names Hlast)).
  cbn [ChronicleOlder.bucket_list]. do 3 f_equal.
  change (EmptyString ++ open_tokens first_names)%string with (open_tokens first_names).
  set (text := ((open_tokens first_names
                 ++ String.concat EmptyString (map continuation chunks))
                ++ indent ++ bucket_tokens last_names)%string).
  assert (Hclean : clean text
                   = String.concat "," (first_names ++ flat_map snd chunks ++ last_names)).
  { unfold text. rewrite append_assoc, clean_app.
    rewrite (clean_continuations chunks (indent ++ bucket_tokens last_names) last_names).
    - apply clean_open_tokens; [assumption|].
      destruct (flat_map snd chunks); [assumption|discriminate].
    - clear - Hlines. induction Hlines as [|? ? ? ? [_ ?] _ IH]; constructor; assumption.
    - assumption.
    - assumption.
    - now rewrite clean_app, (clean_spaces indent Hindent), (tokens_cleaned _ P3). }
  unfold split_bucket_list.
  assert (Hempty : Str.is_empty text = false).
  { apply is_empty_false. unfold text. intros E.
    apply (f_equal String.length) in E. rewrite !length_append in E.
    destruct last_names as [|n l]; [congruence|].
    unfold bucket_tokens in E. destruct l; simpl in E; lia. }
  rewrite Hempty, Hclean. f_equal. apply split_concat.
  - apply Forall_app. now split.
  - destruct first_names; [|discriminate].
    destruct (flat_map snd chunks); [assumption|discriminate].
Qed.

(** X25 on the section of the fixtures, with a line more. *)
Lemma parse_couchbase_chronicle_older_version_reads_back_witness :
  parse_couchbase_chronicle_older_version
    (world_of_file
       ([] ++ ln "Chronicle config" :: [ln " {auto_failover_cfg,1},"]
           ++ ln " {bucket_names,['b3',"
           :: [ln "               'b1','b4',"]
           ++ ln "               'b2']}," :: [ln " {other,1}"]))
    "collect"
  = (Ok (Config (sorted (["b3"] ++ flat_map snd [("               ", ["b1"; "b4"])]
                                ++ ["b2"]))),
     [Log DEBUG "parsing couchbase.log (Chronicle config)" []]).
Proof.
  apply (parse_couchbase_chronicle_older_version_reads_back
           (world_of_file
              ([] ++ ln "Chronicle config" :: [ln " {auto_failover_cfg,1},"]
                  ++ ln " {bucket_names,['b3',"
                  :: [ln "               'b1','b4',"]
                  ++ ln "               'b2']}," :: [ln " {other,1}"]))
           "collect" [] [ln " {auto_failover_cfg,1},"]
           [ln "               'b1','b4',"] [ln " {other,1}"]
           (ln "Chronicle config") (ln " {bucket_names,['b3',")
           (ln "               'b2']},") "               "
           [("               ", ["b1"; "b4"])] ["b3"] ["b2"] eq_refl).
  - intros (x & [] & _).
  - reflexivity.
  - intros x [<- | []]. reflexivity.
  - reflexivity.
  - repeat constructor.
  - reflexivity.
  - reflexivity.
  - discriminate.
  - repeat constructor.
Defined.

Example chronicle_config_three_lines_parsed :
  fst (parse_couchbase_log
         (world_of_file
            [ln "Chronicle config"; ln " {auto_failover_cfg,1},";
             ln " {bucket_names,['b3',"; ln "               'b1','b4',";
             ln "               'b2']},"; ln " {other,1}"])
         "collect")
  = Ok (Config ["b1"; "b2"; "b3"; "b4"]).
Proof. reflexivity. Qed.

(** ** The end of the ns_config section *)

Lemma ns_body_second_divider (x : string) (bs : list string) (b : bool) :
  is_divider x = true ->
  NsConfig.body x (NsConfig.State true b bs 1)
  = (Ok (Break (NsConfig.State true b bs 2)), []).
Proof.
  intros H. unfold NsConfig.body. simpl.
  change (Str.startswith (Str.strip (Str.rstrip x)) "==================")
    with (is_divider x).
  now rewrite H.
Qed.

Lemma ns_body_first_divider (x : string) (bs : list string) :
  is_divider x = true ->
  Str.rstrip x <> " {buckets," ->
  NsConfig.body x (NsConfig.State true false bs 0)
  = (Ok (Next (NsConfig.State true false bs 1)), []).
Proof.
  intros H Hx.
  rewrite (ns_body_before_buckets x bs 0 Hx) by (rewrite H; simpl; lia).
  now rewrite H.
Qed.

Lemma divider_opens_no_buckets (x : string) :
  is_divider x = true -> Str.rstrip x <> " {buckets,".
Proof. unfold is_divider. intros H E. rewrite E in H. discriminate. Qed.

(** X26: the second divider after the header ends the section.  When the
    lines between the header and that divider hold one other divider and no
    line that opens the buckets, [parse_couchbase_ns_config] returns no
    bucket, whatever comes after the second divider. *)
Theorem parse_couchbase_ns_config_stops_at_second_divider
    (w : world) (dir : string) (pre before between rest : list string)
    (header divider1 divider2 : string) :
  open_lines w dir "couchbase.log"
    = Some (pre ++ header :: before ++ divider1 :: between ++ divider2 :: rest) ->
  ~ has_section "Couchbase config" pre ->
  Str.rstrip header = "Couchbase config" ->
  (forall x, In x (before ++ between) ->
     is_divider x = false /\ Str.rstrip x <> " {buckets,") ->
  is_divider divider1 = true ->
  is_divider divider2 = true ->
  parse_couchbase_ns_config w dir
  = (Ok (Config []), [Log DEBUG "parsing couchbase.log (Couchbase config)" []]).
Proof.
  intros Hopen Hpre Hheader Hl H1 H2.
  assert (F : forall l, (forall x, In x l -> is_divider x = false) ->
                        List.length (filter is_divider l) = 0).
  { induction l as [|x l IH]; intros Hd; [reflexivity|]. simpl.
    rewrite (Hd x (or_introl eq_refl)). apply IH. intros y Hy. apply Hd. now right. }
  assert (Fb : List.length (filter is_divider before) = 0).
  { apply F. intros x Hx. apply Hl, in_or_app. now left. }
  assert (Fw : List.length (filter is_divider between) = 0).
  { apply F. intros x Hx. apply Hl, in_or_app. now right. }
  unfold parse_couchbase_ns_config, open_r. rewrite Hopen. simpl.
  rewrite (ns_config_skips pre _ Hpre).
  rewrite (for_inM_next _ _ _ _ _ _ (ns_body_header header Hheader)).
  rewrite (ns_loop_before_buckets before _ [] 0);
    [|intros x Hx; apply Hl, in_or_app; now left|rewrite Fb; lia].
  rewrite Fb.
  rewrite (for_inM_next _ _ _ _ _ _
             (ns_body_first_divider divider1 [] H1
                (divider_opens_no_buckets divider1 H1))).
  rewrite (ns_loop_before_buckets between _ [] 1);
    [|intros x Hx; apply Hl, in_or_app; now right|rewrite Fw; lia].
  rewrite Fw.
  rewrite (for_inM_break _ _ _ _ _ _ (ns_body_second_divider divider2 [] false H2)).
  reflexivity.
Qed.

(** X26 on a section that ends before a line of buckets. *)
Lemma parse_couchbase_ns_config_stops_at_second_divider_witness :
  parse_couchbase_ns_config
    (world_of_file
       ([] ++ ln "Couchbase config" :: [] ++ ln "=================="
           :: [ln "[{a,1}]"] ++ ln "=================="
           :: [ln " {buckets,"; ns_bucket_line " " "b1"]))
    "collect"
  = (Ok (Config []), [Log DEBUG "parsing couchbase.log (Couchbase config)" []]).
Proof.
  apply (parse_couchbase_ns_config_stops_at_second_divider
           (world_of_file
              ([] ++ ln "Couchbase config" :: [] ++ ln "=================="
                  :: [ln "[{a,1}]"] ++ ln "=================="
                  :: [ln " {buckets,"; ns_bucket_line " " "b1"]))
           "collect" [] [] [ln "[{a,1}]"] [ln " {buckets,"; ns_bucket_line " " "b1"]
           (ln "Couchbase config") (ln "==================") (ln "==================")
           eq_refl).
  - intros (x & [] & _).
  - reflexivity.
  - intros x [<- | []]. split; [reflexivity|vm_compute; discriminate].
  - reflexivity.
  - reflexivity.
Defined.

(** ** Metadata that cannot be used *)

Lemma meta_loop_stops (w : world) (good rest : list string) (bad : string)
    (shards : list (Z * Z)) (e : exn) (l : list log_record) :
  Forall2 (fun f s => shard_meta w f (fst s) (snd s)) good shards ->
  (load_json w bad = (Raise e, l) \/
   exists d, load_json w bad = (Ok (PyDict d), l) /\ lookup "minTime" d = None /\
             e = Exn KeyError "minTime") ->
  forall mins maxs, exists l',
    for_inM (read_meta w) (good ++ bad :: rest) (mins, maxs) = (Raise e, l').
Proof.
  intros F Hbad.
  induction F as [|f [lo hi] good shards (d & l0 & Hload & Hlo & Hhi & Rlo & Rhi) _ IH];
    intros mins maxs.
  - simpl. destruct Hbad as [-> | (d & -> & Hd & ->)]; simpl.
    + eauto.
    + rewrite Hd. simpl. eauto.
  - simpl. rewrite Hload. simpl. rewrite Hlo, Hhi. simpl.
    rewrite (truediv_1000_63 lo Rlo), (truediv_1000_63 hi Rhi). simpl.
    destruct (IH (mins ++ [seconds lo]) (maxs ++ [seconds hi])) as (l' & ->). eauto.
Qed.

(** X27: one metadata file that cannot be read, or that has no
    [minTime], is enough for no time range: [get_prometheus_times] ends in
    the exception of that file, also when the files before it are complete. *)
Theorem get_prometheus_times_bad_metadata
    (w : world) (cbcollect_dir : string) (good rest : list string) (bad : string)
    (shards : list (Z * Z)) (e : exn) (l : list log_record) :
  glob_meta_json w cbcollect_dir = good ++ bad :: rest ->
  Forall2 (fun f s => shard_meta w f (fst s) (snd s)) good shards ->
  (load_json w bad = (Raise e, l) \/
   exists d, load_json w bad = (Ok (PyDict d), l) /\ lookup "minTime" d = None /\
             e = Exn KeyError "minTime") ->
  exists l', get_prometheus_times w cbcollect_dir = (Raise e, l').
Proof.
  intros Hglob F Hbad. unfold get_prometheus_times. rewrite Hglob.
  destruct (meta_loop_stops w good rest bad shards e l F Hbad [] []) as (l' & ->).
  simpl. eauto.
Qed.

(** X27 on a snapshot whose second shard has no [minTime]. *)
Lemma get_prometheus_times_bad_metadata_witness :
  exists l',
    get_prometheus_times shard_without_minTime "collect"
    = (Raise (Exn KeyError "minTime"), l').
Proof.
  apply (get_prometheus_times_bad_metadata shard_without_minTime "collect"
           ["collect/stats_snapshot/01A/meta.json"] []
           "collect/stats_snapshot/01B/meta.json" [(1000, 5000)%Z]
           (Exn KeyError "minTime") [] eq_refl).
  - repeat constructor. unfold shard_meta. simpl. do 2 eexists.
    split; [reflexivity|]. split; [reflexivity|]. split; [reflexivity|].
    split; reflexivity.
  - right. eexists. split; [reflexivity|]. split; reflexivity.
Defined.

(** X12 on a collection of two shards and a node of a running cluster. *)
Lemma compute_min_and_max_times_spans_all_witness :
  exists lo hi l,
    compute_min_and_max_times two_shards
      [OfCBCollect collect_nodeA; OfServerNode node_10_0_0_1] = (Ok (lo, hi), l) /\
    In lo (map fst [(1, 9); (-3600, 0)]%float) /\
    (forall r, In r [(1, 9); (-3600, 0)]%float -> (fst r <? lo)%float = false) /\
    In hi (map snd [(1, 9); (-3600, 0)]%float) /\
    (forall r, In r [(1, 9); (-3600, 0)]%float -> (hi <? snd r)%float = false).
Proof.
  apply (proj1 compute_min_and_max_times_spans_all two_shards
           [OfCBCollect collect_nodeA; OfServerNode node_10_0_0_1]
           [(1, 9); (-3600, 0)]%float).
  - discriminate.
  - repeat constructor; eexists; reflexivity.
Defined.
